(** * Data validation component of the mice protein expression pipeline

    A shallow embedding of [mice/components/data_validation.py]
    (class [DataValidation]) and the properties of its four operations:
    [drop_missing_value_columns], [is_required_columns_exists],
    [data_drift] and [initiate_data_validation].

    Python objects that the code mutates in place (data frames, the
    [validation_error] dictionary of the validator, the files on disk) live
    in an explicit state; exceptions are results of an error monad.  Calls
    into pandas, scikit-learn, scipy and the yaml writer whose results the
    code only passes along are parameters of the development. *)

From Stdlib Require Import Floats.PrimFloat ZArith.
From Stdlib Require Uint63.
From Stdlib Require Floats.
From stdpp Require Import gmap strings list.

Open Scope string_scope.

(** ** Cells, series and data frames *)

(** A cell of a data frame.  [NaN] is the missing marker ([numpy.nan]);
    [Num] carries a float64 (which may itself be an IEEE nan), [Str] a
    Python string of an object column. *)
Inductive cell : Type :=
| NaN
| Num (x : float)
| Str (s : string).

(** [pandas.isna] on one cell. *)
Definition isna (c : cell) : bool :=
  match c with
  | NaN => true
  | Num x => PrimFloat.is_nan x
  | Str _ => false
  end.

(** A data frame: its number of rows ([df.shape[0]], the length of the
    index, which exists even when no column is left) and its columns in
    order. *)
Record DataFrame : Type := mkDF {
  nrows : nat;
  columns : list (string * list cell)
}.

(** [df.columns] *)
Definition column_names (df : DataFrame) : list string := (columns df).*1.

(** Frames as [pandas.read_csv] builds them: column labels are pairwise
    distinct and every column has one cell per row. *)
Definition wf_df (df : DataFrame) : Prop :=
  NoDup (column_names df) ∧ Forall (λ c, length c.2 = nrows df) (columns df).

(** ** Python dictionaries (insertion ordered) *)

Fixpoint dict_get {V : Type} (k : string) (d : list (string * V)) : option V :=
  match d with
  | [] => None
  | (k', v) :: d' => if decide (k' = k) then Some v else dict_get k d'
  end.

(** [d[k] = v]: an existing key keeps its position, a new key goes last. *)
Fixpoint dict_set {V : Type} (k : string) (v : V) (d : list (string * V))
  : list (string * V) :=
  match d with
  | [] => [(k, v)]
  | (k', v') :: d' =>
      if decide (k' = k) then (k, v) :: d' else (k', v') :: dict_set k v d'
  end.

(** ** Exceptions *)

(** The exceptions that the component can meet.  Modelled from the spec:
    [mice.exception.MiceException], whose source is not part of the
    component; [MiceException(e, sys)] carries the exception [e] it wraps
    and the place of the [except] clause that built it, here the name of
    the method. *)
Inductive exn : Type :=
| KeyError (key : string)
| ValueError (msg : string)
| TypeError (msg : string)
| AttributeError (attr : string)
| FileNotFoundError (path : string)
| OSError (path : string)
| ParserError (path : string)
| NameError
| MiceException (cause : exn) (context : string).

Inductive result (A : Type) : Type :=
| Ok (a : A)
| Raise (e : exn).
Arguments Ok {A} a.
Arguments Raise {A} e.

(** ** The validation report *)

(** One column's entry of a drift report:
    [{"pvalues": float(p), "same_distribution": b}]. *)
Record DriftResult : Type := mkDrift {
  pvalues : float;
  same_distribution : bool
}.

(** A value stored in [self.validation_error]: a list of column names or a
    drift report (a dictionary from column name to [DriftResult]). *)
Inductive Finding : Type :=
| ColumnList (names : list string)
| DriftReport (entries : list (string * DriftResult)).

(** ** State and the monad of the methods *)

(** What a method of [DataValidation] can read and change: the data frame
    objects (a reference is an index into [heap]), the validator's
    [validation_error] dictionary and the files on disk. *)
Record State : Type := mkState {
  heap : list DataFrame;
  validation_error : list (string * Finding);
  files : gmap string string
}.

Definition M (A : Type) : Type := State → result A * State.

Definition ret {A : Type} (a : A) : M A := λ s, (Ok a, s).

Definition raise {A : Type} (e : exn) : M A := λ s, (Raise e, s).

Definition bind {A B : Type} (m : M A) (k : A → M B) : M B :=
  λ s, match m s with
       | (Ok a, s') => k a s'
       | (Raise e, s') => (Raise e, s')
       end.

#[global] Instance M_ret : MRet M := @ret.
#[global] Instance M_bind : MBind M := λ A B k m, bind m k.

Definition lift {A : Type} (r : result A) : M A := λ s, (r, s).

(** [try: body  except Exception as e: raise MiceException(e, sys)] inside
    the function named [context]. *)
Definition try_wrap {A : Type} (context : string) (body : M A) : M A :=
  λ s, match body s with
       | (Ok a, s') => (Ok a, s')
       | (Raise e, s') => (Raise (MiceException e context), s')
       end.

Definition deref (l : nat) : M DataFrame :=
  λ s, match heap s !! l with
       | Some df => (Ok df, s)
       | None => (Raise NameError, s)
       end.

(** The state in which the object [l] is the frame [df]. *)
Definition set_frame (l : nat) (df : DataFrame) (s : State) : State :=
  mkState (<[l := df]> (heap s)) (validation_error s) (files s).

Definition store (l : nat) (df : DataFrame) : M unit :=
  λ s, (Ok (), set_frame l df s).

(** A new data frame object; its reference is the next free index. *)
Definition alloc (df : DataFrame) : M nat :=
  λ s, (Ok (length (heap s)),
        mkState (heap s ++ [df])%list (validation_error s) (files s)).

(** [self.validation_error[key] = finding] *)
Definition record_finding (key : string) (f : Finding) : M unit :=
  λ s, (Ok (),
        mkState (heap s) (dict_set key f (validation_error s)) (files s)).

(** [DataValidation.__init__]: a validator starts with
    [self.validation_error = dict()], on the memory and the files that are
    there. *)
Definition new_validator (s : State) : State :=
  mkState (heap s) [] (files s).

(** ** Data frame operations used by the validator *)

(** What [df[c]] is: the series of the one column with the label [c], or,
    when several columns carry the label, the frame of those columns. *)
Inductive selection : Type :=
| Series (v : list cell)
| SubFrame (cols : list (list cell)).

(** The columns that carry the label [c]. *)
Definition label_columns (c : string) (cols : list (string * list cell))
  : list (string * list cell) :=
  filter (λ col, col.1 = c) cols.

(** [df[c]] *)
Definition df_getitem (df : DataFrame) (c : string) : result selection :=
  match label_columns c (columns df) with
  | [] => Raise (KeyError c)
  | [col] => Ok (Series col.2)
  | cols => Ok (SubFrame cols.*2)
  end.

(** [x.map(d)] with a dictionary [d] (line 44) and [x.dtype] (line 104)
    are there for a series; on the frame that [df[c]] is for a label of
    several columns they raise, here as the [AttributeError] of the
    attribute. *)
Definition series_attr (attr : string) (x : selection) : result (list cell) :=
  match x with
  | Series v => Ok v
  | SubFrame _ => Raise (AttributeError attr)
  end.

(** [sklearn.utils.column_or_1d], the first step of the label encoder: a
    frame of several columns is no 1d array. *)
Definition column_or_1d (x : selection) : result (list cell) :=
  match x with
  | Series v => Ok v
  | SubFrame _ => Raise (ValueError "y should be a 1d array")
  end.

(** [df[c] = v] for a series [v] over the index of [df]: the column [c] is
    replaced where it stands, or added last.  The component assigns only
    to a label that it has just read as one series. *)
Definition df_setitem_series (df : DataFrame) (c : string) (v : list cell)
  : DataFrame :=
  mkDF (nrows df) (dict_set c v (columns df)).

(** [df[c] = v] for an array [v], which must have one entry per row. *)
Definition df_setitem (df : DataFrame) (c : string) (v : list cell)
  : result DataFrame :=
  if decide (length v = nrows df)
  then Ok (df_setitem_series df c v)
  else Raise (ValueError "Length of values does not match length of index").

(** [series.map(d)] with a dictionary [d]: a value that is not a key of [d]
    becomes [NaN]. *)
Definition series_map (d : list (string * cell)) (s : list cell) : list cell :=
  (λ c, match c with
        | Str k => default NaN (dict_get k d)
        | _ => NaN
        end) <$> s.

(** A cell that is no key of the dictionary [d] given to [series.map]. *)
Definition unmapped (d : list (string * cell)) (c : cell) : Prop :=
  match c with
  | Str k => dict_get k d = None
  | _ => True
  end.

#[global] Instance unmapped_dec d c : Decision (unmapped d c).
Proof. destruct c; simpl; apply _. Defined.

(** [df.drop(names, axis=1)]: every name must be a column label. *)
Definition df_drop (names : list string) (df : DataFrame) : result DataFrame :=
  match filter (λ n, n ∉ column_names df) names with
  | [] => Ok (mkDF (nrows df) (filter (λ c, c.1 ∉ names) (columns df)))
  | n :: _ => Raise (KeyError n)
  end.

(** [df.replace({old: NaN})] on string cells. *)
Definition df_replace (old : string) (df : DataFrame) : DataFrame :=
  mkDF (nrows df)
       ((λ c : string * list cell,
           (c.1, (λ x, match x with
                          | Str s => if decide (s = old) then NaN else Str s
                          | _ => x
                          end) <$> c.2)) <$> columns df).

(** The number of missing cells of a series, [series.isna().sum()]. *)
Definition isna_sum (v : list cell) : nat := length (filter (λ c, isna c) v).

(** True division of two non-negative integers in float64, as numpy divides
    an int64 count by [df.shape[0]]; 0/0 is nan. *)
Definition true_divide (a b : nat) : float :=
  (of_uint63 (Uint63.of_Z (Z.of_nat a)) / of_uint63 (Uint63.of_Z (Z.of_nat b)))%float.

(** [df.isna().sum() / df.shape[0]] *)
Definition null_report (df : DataFrame) : list (string * float) :=
  (λ c : string * list cell,
     (c.1, true_divide (isna_sum c.2) (nrows df))) <$> columns df.

(** A column whose fraction of missing cells is strictly above the
    threshold. *)
Definition exceeds (threshold : float) (df : DataFrame) (c : string * list cell)
  : Prop :=
  PrimFloat.ltb threshold (true_divide (isna_sum c.2) (nrows df)) = true.

#[global] Instance exceeds_dec threshold df c : Decision (exceeds threshold df c).
Proof. unfold exceeds. apply _. Defined.

(** [null_report[null_report > threshold].index] *)
Definition drop_column_names (threshold : float) (df : DataFrame) : list string :=
  (filter (λ r, PrimFloat.ltb threshold r.2 = true) (null_report df)).*1.

(** The columns that lines 44 to 48 read. *)
Definition required_columns : list string :=
  ["Genotype"; "Treatment"; "Behavior"; "class"].

(** The literal dictionaries of lines 44 to 46. *)
Definition Genotype_codes : list (string * cell) :=
  [("Control", Num 0); ("Ts65Dn", Num 1)].
Definition Treatment_codes : list (string * cell) :=
  [("Saline", Num 0); ("Memantine", Num 1)].
Definition Behavior_codes : list (string * cell) :=
  [("C/S", Num 0); ("S/C", Num 1)].

(** ** Configuration *)

(** The fields that the component reads of
    [config_entity.DataValidationConfig] and
    [artifact_entity.DataIngestionArtifact], and the field it gives to
    [artifact_entity.DataValidationArtifact]. *)
Record DataValidationConfig : Type := mkConfig {
  missing_threshold : float;
  base_file_path : string;
  report_file_path : string
}.

Record DataIngestionArtifact : Type := mkIngestion {
  train_file_path : string;
  test_file_path : string
}.

Record DataValidationArtifact : Type := mkArtifact {
  artifact_report_file_path : string
}.

Section DataValidation.

(** [self.data_validation_config], [self.data_ingestion_artifact] and the
    constant [mice.config.TARGET_COLUMN]. *)
Variable data_validation_config : DataValidationConfig.
Variable data_ingestion_artifact : DataIngestionArtifact.
Variable TARGET_COLUMN : string.

(** [LabelEncoder().fit_transform] of scikit-learn on a series. *)
Variable fit_transform : list cell → result (list cell).

(** [df[c] = df[c].map(codes)], in place on the object [l]. *)
Definition encode_column (l : nat) (c : string) (codes : list (string * cell))
  : M unit :=
  df ← deref l;
  x ← lift (df_getitem df c);
  v ← lift (series_attr "map" x);
  store l (df_setitem_series df c (series_map codes v)).

(** [df['class'] = lblEn.fit_transform(df['class'])] *)
Definition encode_class (l : nat) : M unit :=
  df ← deref l;
  x ← lift (df_getitem df "class");
  v ← lift (column_or_1d x);
  codes ← lift (fit_transform v);
  df' ← lift (df_setitem df "class" codes);
  store l df'.

(** Lines 44 to 48: the categorical encoding. *)
Definition categorical_encode (l : nat) : M unit :=
  encode_column l "Genotype" Genotype_codes;;
  encode_column l "Treatment" Treatment_codes;;
  encode_column l "Behavior" Behavior_codes;;
  encode_class l.

(** The frame after lines 44 to 48, given the three mapped series and
    the codes of the label encoder. *)
Definition encoded (D : DataFrame) (g t b codes : list cell) : DataFrame :=
  df_setitem_series
    (df_setitem_series
       (df_setitem_series
          (df_setitem_series D "Genotype" (series_map Genotype_codes g))
          "Treatment" (series_map Treatment_codes t))
       "Behavior" (series_map Behavior_codes b))
    "class" codes.

(** The frame without the columns that [drop_column_names] selects. *)
Definition dropped (threshold : float) (E : DataFrame) : DataFrame :=
  mkDF (nrows E)
       (filter (λ c, c.1 ∉ drop_column_names threshold E) (columns E)).

(** The state in which [drop_missing_value_columns] returns when the
    encoding left the frame [E] in the object [l]. *)
Definition after_drop (l : nat) (key : string) (E : DataFrame) (s : State)
  : State :=
  mkState (<[l := dropped (missing_threshold data_validation_config) E]> (heap s))
          (dict_set key (ColumnList (drop_column_names
                                      (missing_threshold data_validation_config) E))
                    (validation_error s))
          (files s).

(** What it returns then: [None] when no column is left (lines 59 to
    61). *)
Definition returned (l : nat) (E : DataFrame) : option nat :=
  if decide (length (column_names
                       (dropped (missing_threshold data_validation_config) E)) = 0)
  then None else Some l.

(** [drop_missing_value_columns(self, df, report_key_name)] *)
Definition drop_missing_value_columns (df : nat) (report_key_name : string)
  : M (option nat) :=
  try_wrap "drop_missing_value_columns" (
    let threshold := missing_threshold data_validation_config in
    categorical_encode df;;
    d ← deref df;
    let names := drop_column_names threshold d in
    record_finding report_key_name (ColumnList names);;
    d' ← lift (df_drop names d);
    store df d';;
    if decide (length (column_names d') = 0) then ret None else ret (Some df)).

(** [df.columns] of a variable that holds a frame or [None]. *)
Definition frame_of (df : option nat) : M DataFrame :=
  match df with
  | Some l => deref l
  | None => raise (AttributeError "columns")
  end.

(** The loop of lines 76 to 80: the base columns that the current frame
    lacks, appended in the order of the base frame. *)
Definition collect_missing (base_columns current_columns : list string)
  : list string :=
  foldl (λ missing_columns base_column,
           if decide (base_column ∉ current_columns)
           then (missing_columns ++ [base_column])%list
           else missing_columns)
        [] base_columns.

(** [is_required_columns_exists(self, base_df, current_df, report_key_name)] *)
Definition is_required_columns_exists
    (base_df current_df : option nat) (report_key_name : string) : M bool :=
  try_wrap "is_required_columns_exists" (
    b ← frame_of base_df;
    c ← frame_of current_df;
    let missing_columns := collect_missing (column_names b) (column_names c) in
    if decide (0 < length missing_columns)
    then record_finding report_key_name (ColumnList missing_columns);; ret false
    else ret true).

(** The p-value of [scipy.stats.ks_2samp] on two series. *)
Variable ks_2samp : list cell → list cell → result float.

(** The significance level of line 107. *)
Definition alpha : float := 0x1.999999999999ap-5%float.

(** Lines 107 to 117. *)
Definition drift_entry (pvalue : float) : DriftResult :=
  if PrimFloat.ltb alpha pvalue
  then mkDrift pvalue true
  else mkDrift pvalue false.

(** The loop of lines 99 to 119.  The report dictionary is one object that
    the loop extends and then stores under the key; no step between the
    extension and the store can raise, so storing its current value after
    each column shows the same dictionary at every exit.  Line 104 reads
    the [dtype] of both selections before the test. *)
Fixpoint drift_loop (b c : DataFrame) (report_key_name : string)
    (base_columns : list string) (drift_report : list (string * DriftResult))
  : M unit :=
  match base_columns with
  | [] => ret ()
  | base_column :: rest =>
      base_data ← lift (df_getitem b base_column);
      current_data ← lift (df_getitem c base_column);
      base_data ← lift (series_attr "dtype" base_data);
      current_data ← lift (series_attr "dtype" current_data);
      pvalue ← lift (ks_2samp base_data current_data);
      let drift_report' :=
        dict_set base_column (drift_entry pvalue) drift_report in
      record_finding report_key_name (DriftReport drift_report');;
      drift_loop b c report_key_name rest drift_report'
  end.

(** The p-value of the test on the column [n] of the two frames. *)
Definition column_pvalue (b c : DataFrame) (n : string) : result float :=
  match df_getitem b n with
  | Ok base_data =>
      match df_getitem c n with
      | Ok current_data =>
          match series_attr "dtype" base_data with
          | Ok base_data =>
              match series_attr "dtype" current_data with
              | Ok current_data => ks_2samp base_data current_data
              | Raise e => Raise e
              end
          | Raise e => Raise e
          end
      | Raise e => Raise e
      end
  | Raise e => Raise e
  end.

(** The drift report after the loop has gone through [base_columns] without
    an exception, starting from the report [drift_report]. *)
Definition drift_report_after (b c : DataFrame) (base_columns : list string)
    (drift_report : list (string * DriftResult)) : list (string * DriftResult) :=
  foldl (λ report n,
           match column_pvalue b c n with
           | Ok pvalue => dict_set n (drift_entry pvalue) report
           | Raise _ => report
           end)
        drift_report base_columns.

(** [data_drift(self, base_df, current_df, report_key_name)] *)
Definition data_drift
    (base_df current_df : option nat) (report_key_name : string) : M unit :=
  try_wrap "data_drift" (
    b ← frame_of base_df;
    c ← frame_of current_df;
    drift_loop b c report_key_name (column_names b) []).

(** [pandas.read_csv] on the text of a file. *)
Variable parse_csv : string → result DataFrame.

(** [pd.read_csv(path)] *)
Definition read_csv (path : string) : M nat :=
  λ s, match files s !! path with
       | Some text => (df ← lift (parse_csv text); alloc df) s
       | None => (Raise (FileNotFoundError path), s)
       end.

(** [series.astype('float')] *)
Variable astype_float : list cell → result (list cell).

(** Modelled from the spec: [utils.convert_columns_float], whose source is
    not part of the component.  It normalizes every column except the
    excluded ones to floating point, one column after the other, on the
    frame it is given, and hands that frame back; a variable that holds
    [None] has no columns to go through. *)
Fixpoint convert_loop (l : nat) (positions : list nat)
    (exclude_columns : list string) : M unit :=
  match positions with
  | [] => ret ()
  | i :: rest =>
      df ← deref l;
      match columns df !! i with
      | Some (column, v) =>
          if decide (column ∉ exclude_columns)
          then v' ← lift (astype_float v);
               store l (mkDF (nrows df) (<[i := (column, v')]> (columns df)))
          else ret ()
      | None => ret ()
      end;;
      convert_loop l rest exclude_columns
  end.

Definition convert_columns_float (df : option nat) (exclude_columns : list string)
  : M (option nat) :=
  match df with
  | Some l =>
      d ← deref l;
      convert_loop l (seq 0 (length (columns d))) exclude_columns;;
      ret (Some l)
  | None => raise (AttributeError "columns")
  end.

(** [yaml.dump] of the report, and whether a path can be written. *)
Variable yaml_dump : list (string * Finding) → string.
Variable writable : string → bool.

(** Modelled from the spec: [utils.write_yaml_file], whose source is not
    part of the component.  It persists the mapping it is given at the
    path; a path that cannot be written is an I/O error and leaves the
    files as they are. *)
Definition write_yaml_file (file_path : string) (data : list (string * Finding))
  : M unit :=
  λ s, if writable file_path
       then (Ok (), mkState (heap s) (validation_error s)
                            (<[file_path := yaml_dump data]> (files s)))
       else (Raise (OSError file_path), s).

(** [self.validation_error], read when the report is written. *)
Definition get_validation_error : M (list (string * Finding)) :=
  λ s, (Ok (validation_error s), s).

(** [base_df.drop(columns=[...])]: a new frame. *)
Definition drop_columns_new (l : nat) (names : list string) : M nat :=
  d ← deref l;
  d' ← lift (df_drop names d);
  alloc d'.

(** [df.replace({old: np.NAN}, inplace=True)] *)
Definition replace_inplace (l : nat) (old : string) : M unit :=
  d ← deref l;
  store l (df_replace old d).

(** Lines 154 to 159. *)
Definition drift_if (status : bool) (base_df current_df : option nat)
    (report_key_name : string) : M unit :=
  if status then data_drift base_df current_df report_key_name else ret ().

(** The body of the [try] of [initiate_data_validation], lines 124 to
    168. *)
Definition validation_steps : M DataValidationArtifact :=
    base_df ← read_csv (base_file_path data_validation_config);
    base_df ← drop_columns_new base_df ["MouseID"];
    replace_inplace base_df "na";;
    base_df ← drop_missing_value_columns base_df
                "missing_values_within_base_dataset";
    train_df ← read_csv (train_file_path data_ingestion_artifact);
    test_df ← read_csv (test_file_path data_ingestion_artifact);
    train_df ← drop_missing_value_columns train_df
                 "missing_values_within_train_dataset";
    test_df ← drop_missing_value_columns test_df
                "missing_values_within_test_dataset";
    let exclude_columns := [TARGET_COLUMN] in
    base_df ← convert_columns_float base_df exclude_columns;
    train_df ← convert_columns_float train_df exclude_columns;
    test_df ← convert_columns_float test_df exclude_columns;
    train_df_column_status ←
      is_required_columns_exists base_df train_df
        "missing_columns_within_train_dataset";
    test_df_column_status ←
      is_required_columns_exists base_df test_df
        "missing_columns_within_test_dataset";
    drift_if train_df_column_status base_df train_df
      "data_drift_within_train_dataset";;
    drift_if test_df_column_status base_df test_df
      "data_drift_within_test_dataset";;
    data ← get_validation_error;
    write_yaml_file (report_file_path data_validation_config) data;;
    ret (mkArtifact (report_file_path data_validation_config)).

(** The report after the schema checks of a run in which no step raises,
    from the report [ve0] at its start: [B], [T] and [U] are the base,
    train and test frames at the schema check and [nb], [nt], [nu] the
    names of the columns dropped from them. *)
Definition checked_report (B T U : DataFrame) (nb nt nu : list string)
    (ve0 : list (string * Finding)) : list (string * Finding) :=
  let ve3 :=
    dict_set "missing_values_within_test_dataset" (ColumnList nu)
      (dict_set "missing_values_within_train_dataset" (ColumnList nt)
         (dict_set "missing_values_within_base_dataset" (ColumnList nb) ve0)) in
  let mt := filter (λ n, n ∉ column_names T) (column_names B) in
  let mu := filter (λ n, n ∉ column_names U) (column_names B) in
  let ve4 :=
    if decide (0 < length mt)
    then dict_set "missing_columns_within_train_dataset" (ColumnList mt) ve3
    else ve3 in
  if decide (0 < length mu)
  then dict_set "missing_columns_within_test_dataset" (ColumnList mu) ve4
  else ve4.

(** The report at the end of such a run. *)
Definition report_of (B T U : DataFrame) (nb nt nu : list string)
    (ve0 : list (string * Finding)) : list (string * Finding) :=
  let ve5 := checked_report B T U nb nt nu ve0 in
  let mt := filter (λ n, n ∉ column_names T) (column_names B) in
  let mu := filter (λ n, n ∉ column_names U) (column_names B) in
  let ve6 :=
    if decide (0 < length mt) then ve5
    else dict_set "data_drift_within_train_dataset"
           (DriftReport (drift_report_after B T (column_names B) [])) ve5 in
  if decide (0 < length mu) then ve6
  else dict_set "data_drift_within_test_dataset"
         (DriftReport (drift_report_after B U (column_names B) [])) ve6.

(** The steps of lines 124 to 152 on their own: the frames are loaded and
    cleaned and their schemas compared. *)
Definition load_and_check
  : M (option nat * option nat * option nat * bool * bool) :=
  base_df ← read_csv (base_file_path data_validation_config);
  base_df ← drop_columns_new base_df ["MouseID"];
  replace_inplace base_df "na";;
  base_df ← drop_missing_value_columns base_df
              "missing_values_within_base_dataset";
  train_df ← read_csv (train_file_path data_ingestion_artifact);
  test_df ← read_csv (test_file_path data_ingestion_artifact);
  train_df ← drop_missing_value_columns train_df
               "missing_values_within_train_dataset";
  test_df ← drop_missing_value_columns test_df
              "missing_values_within_test_dataset";
  let exclude_columns := [TARGET_COLUMN] in
  base_df ← convert_columns_float base_df exclude_columns;
  train_df ← convert_columns_float train_df exclude_columns;
  test_df ← convert_columns_float test_df exclude_columns;
  train_df_column_status ←
    is_required_columns_exists base_df train_df
      "missing_columns_within_train_dataset";
  test_df_column_status ←
    is_required_columns_exists base_df test_df
      "missing_columns_within_test_dataset";
  ret (base_df, train_df, test_df, train_df_column_status,
       test_df_column_status).

(** The steps of lines 154 to 168 on their own: drift detection and the
    write of the report. *)
Definition detect_and_report (base_df train_df test_df : option nat)
    (train_df_column_status test_df_column_status : bool)
  : M DataValidationArtifact :=
  drift_if train_df_column_status base_df train_df
    "data_drift_within_train_dataset";;
  drift_if test_df_column_status base_df test_df
    "data_drift_within_test_dataset";;
  data ← get_validation_error;
  write_yaml_file (report_file_path data_validation_config) data;;
  ret (mkArtifact (report_file_path data_validation_config)).

(** [initiate_data_validation(self)] *)
Definition initiate_data_validation : M DataValidationArtifact :=
  try_wrap "initiate_data_validation" validation_steps.

End DataValidation.

(** ** Instances of the library calls, for running the model *)

Module Sklearn.

(** Insertion into a strictly increasing list, keeping one copy. *)
Fixpoint insert_class {A : Type} (lt : A → A → bool) (x : A) (l : list A)
  : list A :=
  match l with
  | [] => [x]
  | y :: l' =>
      if lt x y then x :: l
      else if lt y x then y :: insert_class lt x l'
      else l
  end.

(** [classes_]: the distinct values in increasing order. *)
Definition classes {A : Type} (lt : A → A → bool) (l : list A) : list A :=
  foldr (insert_class lt) [] l.

(** The position of a value among the classes. *)
Fixpoint code_of {A : Type} (lt : A → A → bool) (x : A) (cs : list A) : nat :=
  match cs with
  | [] => 0
  | y :: cs' => if lt y x then S (code_of lt x cs') else 0
  end.

Definition float_of_nat (n : nat) : float :=
  of_uint63 (Uint63.of_Z (Z.of_nat n)).

Definition strings_of (v : list cell) : list string :=
  omap (λ c, match c with Str s => Some s | _ => None end) v.

Definition floats_of (v : list cell) : list float :=
  omap (λ c, match c with
             | Num x => if PrimFloat.is_nan x then None else Some x
             | _ => None
             end) v.

(** [LabelEncoder().fit_transform(series)]: the code of a value is its
    rank among the sorted distinct values, missing values come after all
    others, and strings cannot be ordered against numbers. *)
Definition fit_transform (v : list cell) : result (list cell) :=
  match strings_of v, floats_of v with
  | _ :: _, _ :: _ =>
      Raise (TypeError "Encoders require their input argument must be uniformly strings or numbers")
  | ss, [] =>
      let cs := classes String.ltb ss in
      Ok ((λ c, match c with
                | Str s => Num (float_of_nat (code_of String.ltb s cs))
                | _ => Num (float_of_nat (length cs))
                end) <$> v)
  | [], xs =>
      let cs := classes PrimFloat.ltb xs in
      Ok ((λ c, match c with
                | Num x => if PrimFloat.is_nan x
                           then Num (float_of_nat (length cs))
                           else Num (float_of_nat (code_of PrimFloat.ltb x cs))
                | _ => Num (float_of_nat (length cs))
                end) <$> v)
  end.

End Sklearn.

Module Example.

Definition is_str (c : cell) : bool :=
  match c with Str _ => true | _ => false end.

(** [astype('float')] on a series: numbers and missing cells stay, a
    string that is no number cannot be converted. *)
Definition astype_float (v : list cell) : result (list cell) :=
  match filter (λ c, is_str c) v with
  | [] => Ok v
  | _ :: _ => Raise (ValueError "could not convert string to float")
  end.

(** A two-sample test for runs of the model on small frames: identical
    samples give the p-value 1, others the p-value 0, and a sample with a
    string is a type error. *)
Definition cell_eqb (a b : cell) : bool :=
  match a, b with
  | NaN, NaN => true
  | Num x, Num y => PrimFloat.eqb x y
  | Str s, Str t => bool_decide (s = t)
  | _, _ => false
  end.

Fixpoint series_eqb (a b : list cell) : bool :=
  match a, b with
  | [], [] => true
  | x :: a', y :: b' => cell_eqb x y && series_eqb a' b'
  | _, _ => false
  end.

Definition ks_2samp (a b : list cell) : result float :=
  match filter (λ c, is_str c) (a ++ b)%list with
  | [] => Ok (if series_eqb a b then 1%float else 0%float)
  | _ :: _ => Raise (TypeError "unsupported operand type")
  end.

(** Files of the examples hold the name of a frame of a table. *)
Definition parse_csv (table : list (string * DataFrame)) (text : string)
  : result DataFrame :=
  match dict_get text table with
  | Some df => Ok df
  | None => Raise (ParserError text)
  end.

(** The report files of the examples list the keys of the report. *)
Definition yaml_dump (data : list (string * Finding)) : string :=
  String.concat "," data.*1.

Definition config : DataValidationConfig :=
  mkConfig 0x1.999999999999ap-3%float "base.csv" "report.yaml".

Definition ingestion : DataIngestionArtifact :=
  mkIngestion "train.csv" "test.csv".

Definition n (z : Z) : cell := Num (PrimFloat.of_uint63 (Uint63.of_Z z)).

(** A base file with an identifier column, a protein column [A] without
    missing cells and a protein column [C] with three of ten missing. *)
Definition base_frame : DataFrame :=
  mkDF 10
    [("MouseID", Str <$> ["m0";"m1";"m2";"m3";"m4";"m5";"m6";"m7";"m8";"m9"]);
     ("A", n <$> [1;2;3;4;5;6;7;8;9;10]%Z);
     ("C", [Str "na"; Str "na"; Str "na"; n 1; n 2; n 3; n 4; n 5; n 6; n 7]);
     ("Genotype", Str <$> ["Control";"Control";"Control";"Control";"Control";
                           "Ts65Dn";"Ts65Dn";"Ts65Dn";"Ts65Dn";"Ts65Dn"]);
     ("Treatment", Str <$> ["Saline";"Saline";"Memantine";"Memantine";"Saline";
                            "Saline";"Memantine";"Memantine";"Saline";"Saline"]);
     ("Behavior", Str <$> ["C/S";"S/C";"C/S";"S/C";"C/S";"S/C";"C/S";"S/C";"C/S";"S/C"]);
     ("class", Str <$> ["c-CS-s";"c-SC-s";"c-CS-m";"c-SC-m";"c-CS-s";
                        "t-SC-s";"t-CS-m";"t-SC-m";"t-CS-s";"t-SC-s"])].

(** A candidate with the same columns as the cleaned base. *)
Definition train_frame : DataFrame :=
  mkDF 10 (filter (λ c, c.1 ≠ "MouseID" ∧ c.1 ≠ "C") (columns base_frame)).

(** A candidate without the protein column [A]. *)
Definition test_frame : DataFrame :=
  mkDF 10 (filter (λ c, c.1 ≠ "MouseID" ∧ c.1 ≠ "C" ∧ c.1 ≠ "A")
                  (columns base_frame)).

Definition table : list (string * DataFrame) :=
  [("base", base_frame); ("train", train_frame); ("test", test_frame)].

Definition disk : gmap string string :=
  <["base.csv" := "base"]> (<["train.csv" := "train"]> (<["test.csv" := "test"]> ∅)).

Definition start : State := mkState [] [] disk.

(** A run of the whole validation on the example files. *)
Definition run (s : State) : result DataValidationArtifact * State :=
  initiate_data_validation config ingestion "class" Sklearn.fit_transform
    ks_2samp (parse_csv table) astype_float yaml_dump (λ _, true) s.

(** The example files with a test file that has only a protein column. *)
Definition bare_frame : DataFrame := mkDF 2 [("A", [n 1; n 2])].

Definition bare_table : list (string * DataFrame) :=
  [("base", base_frame); ("train", train_frame); ("test", bare_frame)].

Definition run_bare (s : State) : result DataValidationArtifact * State :=
  initiate_data_validation config ingestion "class" Sklearn.fit_transform
    ks_2samp (parse_csv bare_table) astype_float yaml_dump (λ _, true) s.

(** A frame whose [Genotype] column holds a value outside the literal
    dictionary of line 44, and no missing cell. *)
Definition unmapped_frame : DataFrame :=
  mkDF 2 [("Genotype", [Str "Control"; Str "Trisomic"]);
          ("Treatment", [Str "Saline"; Str "Memantine"]);
          ("Behavior", [Str "C/S"; Str "S/C"]);
          ("class", [Str "c-CS-s"; Str "t-SC-m"])].

End Example.

(** ** Predicates on operations *)

(** An operation that leaves an observation [f] of the state as it is,
    however it ends. *)
Definition preserved {X A : Type} (f : State → X) (m : M A) : Prop :=
  ∀ s, f (m s).2 = f s.

(** Observations that do not depend on the frame objects, on the entry of
    the report under [key], on the file at [path]. *)
Definition ignores_heap {X : Type} (f : State → X) : Prop :=
  ∀ s h, f (mkState h (validation_error s) (files s)) = f s.

Definition ignores_key {X : Type} (f : State → X) (key : string) : Prop :=
  ∀ s v, f (mkState (heap s) (dict_set key v (validation_error s)) (files s))
         = f s.

Definition ignores_file {X : Type} (f : State → X) (path : string) : Prop :=
  ∀ s text, f (mkState (heap s) (validation_error s)
                       (<[path := text]> (files s))) = f s.

(** The entry of the validator's report under [key]. *)
Definition report_entry (key : string) (s : State) : option Finding :=
  dict_get key (validation_error s).

(** An operation that ends either with the report written at [path], as the
    dump of the final [validation_error], and the artifact of that path, or
    with an exception and the files as they were. *)
Definition report_on_success {A : Type}
    (dump : list (string * Finding) → string) (path : string) (artifact : A)
    (m : M A) : Prop :=
  ∀ s, match m s with
       | (Ok a, s') =>
           a = artifact ∧
           files s' = <[path := dump (validation_error s')]> (files s)
       | (Raise _, s') => files s' = files s
       end.

(** Two runs of an operation, from states whose frame objects may sit at
    different references: the first run started with [n1] objects in
    memory, the second with [n2], and the objects created since then are
    the same on both sides.  The validator's report is the same, and so is
    the content of every file in [paths]. *)
Definition ref_rel (n1 n2 : nat) (l1 l2 : nat) : Prop :=
  ∃ i, l1 = n1 + i ∧ l2 = n2 + i.

Definition opt_ref_rel (n1 n2 : nat) (o1 o2 : option nat) : Prop :=
  match o1, o2 with
  | Some l1, Some l2 => ref_rel n1 n2 l1 l2
  | None, None => True
  | _, _ => False
  end.

Definition state_rel (paths : list string) (n1 n2 : nat) (s1 s2 : State) : Prop :=
  (n1 ≤ length (heap s1))%nat ∧ (n2 ≤ length (heap s2))%nat ∧
  drop n1 (heap s1) = drop n2 (heap s2) ∧
  validation_error s1 = validation_error s2 ∧
  ∀ p, p ∈ paths → files s1 !! p = files s2 !! p.

(** The two runs end alike: with related values, or with the same
    exception, in related states. *)
Definition rel_run (paths : list string) (n1 n2 : nat) {A : Type}
    (RA : A → A → Prop) (m1 m2 : M A) : Prop :=
  ∀ s1 s2, state_rel paths n1 n2 s1 s2 →
    match m1 s1, m2 s2 with
    | (Ok a1, s1'), (Ok a2, s2') => RA a1 a2 ∧ state_rel paths n1 n2 s1' s2'
    | (Raise e1, s1'), (Raise e2, s2') => e1 = e2 ∧ state_rel paths n1 n2 s1' s2'
    | _, _ => False
    end.

(** * Properties *)

(** ** Dictionaries *)

Section DictFacts.

Context {V : Type}.
Implicit Types (d : list (string * V)) (k : string) (v : V).

Lemma dict_get_set_eq k v d : dict_get k (dict_set k v d) = Some v.
Proof.
  induction d as [|[k' v'] d IH]; simpl.
  - by rewrite decide_True.
  - destruct (decide (k' = k)); simpl.
    + by rewrite decide_True.
    + by rewrite decide_False.
Qed.

Lemma dict_get_set_ne k k' v d :
  k ≠ k' → dict_get k' (dict_set k v d) = dict_get k' d.
Proof.
  intros Hne. induction d as [|[k0 v0] d IH]; simpl.
  - by rewrite decide_False.
  - destruct (decide (k0 = k)) as [->|]; simpl.
    + by rewrite !decide_False.
    + by rewrite IH.
Qed.

Lemma dict_get_Some_elem k v d : dict_get k d = Some v → (k, v) ∈ d.
Proof.
  induction d as [|[k' v'] d IH]; simpl; [done|].
  destruct (decide (k' = k)) as [->|].
  - intros [= ->]. apply list_elem_of_here.
  - intros H. apply list_elem_of_further. auto.
Qed.

Lemma dict_get_is_Some k d : is_Some (dict_get k d) ↔ k ∈ d.*1.
Proof.
  induction d as [|[k' v'] d IH]; simpl.
  - split; [by intros [? ?]|]. by intros ?%not_elem_of_nil.
  - rewrite elem_of_cons. destruct (decide (k' = k)) as [->|].
    + split; eauto.
    + rewrite IH. split; [by right|]. by intros [?|?].
Qed.

Lemma dict_get_NoDup k v d : NoDup d.*1 → (k, v) ∈ d → dict_get k d = Some v.
Proof.
  induction d as [|[k' v'] d IH]; simpl.
  - by intros _ ?%not_elem_of_nil.
  - intros [Hnotin Hnd]%NoDup_cons [Heq|Hin]%elem_of_cons.
    + injection Heq as -> ->. by rewrite decide_True.
    + destruct (decide (k' = k)) as [->|]; [|auto].
      destruct Hnotin. apply list_elem_of_fmap. by exists (k, v).
Qed.

Lemma dict_set_keys_in k v d : k ∈ d.*1 → (dict_set k v d).*1 = d.*1.
Proof.
  induction d as [|[k' v'] d IH]; csimpl.
  - by intros ?%not_elem_of_nil.
  - destruct (decide (k' = k)) as [->|]; csimpl; [done|].
    intros [?|?]%elem_of_cons; [congruence|]. by rewrite IH.
Qed.

Lemma dict_set_set k v v' d : dict_set k v (dict_set k v' d) = dict_set k v d.
Proof.
  induction d as [|[k0 v0] d IH]; simpl.
  - by rewrite decide_True.
  - destruct (decide (k0 = k)) as [->|]; simpl.
    + by rewrite decide_True.
    + by rewrite decide_False, IH.
Qed.

End DictFacts.

(** ** Running the monad *)

Lemma bind_Ok_inv {A B : Type} (m : M A) (k : A → M B) s b s' :
  (m ≫= k) s = (Ok b, s') → ∃ a s1, m s = (Ok a, s1) ∧ k a s1 = (Ok b, s').
Proof.
  unfold mbind, M_bind, bind. destruct (m s) as [[a|e] s1]; [eauto|done].
Qed.

Lemma bind_run {A B : Type} (m : M A) (k : A → M B) s a s1 :
  m s = (Ok a, s1) → (m ≫= k) s = k a s1.
Proof. unfold mbind, M_bind, bind. by intros ->. Qed.

Lemma bind_raise {A B : Type} (m : M A) (k : A → M B) s e s1 :
  m s = (Raise e, s1) → (m ≫= k) s = (Raise e, s1).
Proof. unfold mbind, M_bind, bind. by intros ->. Qed.

Lemma bind_assoc_run {A B C : Type} (m : M A) (f : A → M B) (g : B → M C) s :
  ((m ≫= f) ≫= g) s = (m ≫= (λ a, f a ≫= g)) s.
Proof. unfold mbind, M_bind, bind. by destruct (m s) as [[a|e] s1]. Qed.

Lemma bind_ext_run {A B : Type} (m : M A) (k1 k2 : A → M B) s :
  (∀ a s1, k1 a s1 = k2 a s1) → (m ≫= k1) s = (m ≫= k2) s.
Proof. intros H. unfold mbind, M_bind, bind. by destruct (m s) as [[a|e] s1]. Qed.

Lemma try_wrap_Ok_inv {A : Type} ctx (m : M A) s a s' :
  try_wrap ctx m s = (Ok a, s') → m s = (Ok a, s').
Proof. unfold try_wrap. destruct (m s) as [[?|?] ?]; congruence. Qed.

Lemma try_wrap_run {A : Type} ctx (m : M A) s a s' :
  m s = (Ok a, s') → try_wrap ctx m s = (Ok a, s').
Proof. unfold try_wrap. by intros ->. Qed.

Lemma deref_run l s df : heap s !! l = Some df → deref l s = (Ok df, s).
Proof. unfold deref. by intros ->. Qed.

Lemma deref_Ok_inv l s df s' :
  deref l s = (Ok df, s') → heap s !! l = Some df ∧ s' = s.
Proof. unfold deref. destruct (heap s !! l); naive_solver. Qed.

Lemma lift_Ok_inv {A : Type} (r : result A) s a s' :
  lift r s = (Ok a, s') → r = Ok a ∧ s' = s.
Proof. unfold lift. naive_solver. Qed.

(** ** Schema parity *)

Lemma collect_missing_filter (base_columns current_columns : list string) :
  collect_missing base_columns current_columns
  = filter (λ c, c ∉ current_columns) base_columns.
Proof.
  unfold collect_missing.
  enough (∀ acc : list string,
    foldl (λ missing_columns base_column,
             if decide (base_column ∉ current_columns)
             then (missing_columns ++ [base_column])%list
             else missing_columns) acc base_columns
    = (acc ++ filter (λ c, c ∉ current_columns) base_columns)%list) as H
    by apply (H []).
  induction base_columns as [|c l IH]; intros acc; simpl.
  - by rewrite app_nil_r.
  - rewrite IH, filter_cons. destruct (decide (c ∉ current_columns)).
    + by rewrite <- app_assoc.
    + done.
Qed.

Lemma filter_missing_nil (base_columns current_columns : list string) :
  ¬ 0 < length (filter (λ n, n ∉ current_columns) base_columns)
  ↔ ∀ n, n ∈ base_columns → n ∈ current_columns.
Proof.
  split.
  - intros Hlen n Hn. destruct (decide (n ∈ current_columns)) as [|Hnot]; [done|].
    assert (n ∈ filter (λ n, n ∉ current_columns) base_columns) as Hin
      by (by apply list_elem_of_filter).
    destruct (filter _ base_columns); [by apply not_elem_of_nil in Hin|].
    simpl in Hlen. lia.
  - intros Hall Hlen.
    destruct (filter _ base_columns) as [|n l] eqn:Hf; [simpl in Hlen; lia|].
    assert (n ∈ n :: l) as Hin by left. rewrite <- Hf in Hin.
    apply list_elem_of_filter in Hin as [Hnot Hin]. auto.
Qed.

(** C2. For frames [B] (base) and [C] (candidate),
    [is_required_columns_exists] returns, and it returns [True] exactly when
    every column name of [B] is a column name of [C]; when it returns
    [False], the list recorded under the report key holds exactly the
    column names of [B] that [C] lacks, in the order of [B]. *)
Theorem is_required_columns_exists_spec
    (s : State) (b c : nat) (B C : DataFrame) (key : string) :
  heap s !! b = Some B →
  heap s !! c = Some C →
  ∃ verdict s',
    is_required_columns_exists (Some b) (Some c) key s = (Ok verdict, s') ∧
    (verdict = true ↔ ∀ n, n ∈ column_names B → n ∈ column_names C) ∧
    (verdict = false →
       ∃ missing,
         dict_get key (validation_error s') = Some (ColumnList missing) ∧
         missing = filter (λ n, n ∉ column_names C) (column_names B) ∧
         ∀ n, n ∈ missing ↔ n ∈ column_names B ∧ n ∉ column_names C).
Proof.
  intros Hb Hc. unfold is_required_columns_exists.
  set (missing := collect_missing (column_names B) (column_names C)).
  assert (Hmem : ∀ n, n ∈ missing ↔ n ∈ column_names B ∧ n ∉ column_names C).
  { intros n. unfold missing. rewrite collect_missing_filter, list_elem_of_filter.
    tauto. }
  destruct (decide (0 < length missing)) as [Hlen|Hlen].
  - eexists false, _. split; [|split].
    + apply try_wrap_run. simpl.
      rewrite (bind_run _ _ _ _ _ (deref_run _ _ _ Hb)).
      rewrite (bind_run _ _ _ _ _ (deref_run _ _ _ Hc)).
      fold missing. rewrite decide_True by done. reflexivity.
    + split; [done|]. intros Hall. exfalso.
      destruct missing as [|n0 ?] eqn:E; [simpl in Hlen; lia|].
      destruct (Hmem n0) as [[Hin Hnot] _]; [left|]. auto.
    + intros _. exists missing. simpl. rewrite dict_get_set_eq.
      split; [done|]. split; [apply collect_missing_filter|done].
  - eexists true, _. split; [|split].
    + apply try_wrap_run. simpl.
      rewrite (bind_run _ _ _ _ _ (deref_run _ _ _ Hb)).
      rewrite (bind_run _ _ _ _ _ (deref_run _ _ _ Hc)).
      fold missing. rewrite decide_False by done. reflexivity.
    + split; [|done]. intros _ n Hin.
      destruct (decide (n ∈ column_names C)) as [|Hnot]; [done|].
      assert (n ∈ missing) as Hm by (apply Hmem; auto).
      destruct missing; [by apply not_elem_of_nil in Hm|simpl in Hlen; lia].
    + done.
Qed.

(** ** Dropping the columns with too many missing values *)

Lemma heap_set_frame l df s D :
  heap s !! l = Some D → heap (set_frame l df s) !! l = Some df.
Proof. intros H. simpl. apply list_lookup_insert_eq. by eapply lookup_lt_Some. Qed.

Lemma set_frame_set_frame l d1 d2 s :
  set_frame l d2 (set_frame l d1 s) = set_frame l d2 s.
Proof. unfold set_frame; simpl. by rewrite list_insert_insert_eq. Qed.

Lemma set_frame_id l D s : heap s !! l = Some D → set_frame l D s = s.
Proof.
  intros HD. unfold set_frame. rewrite list_insert_id by done. by destruct s.
Qed.

(** *** Selecting a column by its label *)

Lemma label_columns_nil c cols : label_columns c cols = [] ↔ c ∉ cols.*1.
Proof.
  unfold label_columns. induction cols as [|[k w] d IH]; csimpl.
  - split; [intros _; apply not_elem_of_nil|done].
  - rewrite filter_cons, not_elem_of_cons. simpl.
    destruct (decide (k = c)) as [->|Hne]; [by split; [|intros [? _]]|].
    rewrite IH. split; [by split|by intros [_ ?]].
Qed.

Lemma label_columns_NoDup c v cols :
  NoDup cols.*1 → dict_get c cols = Some v → label_columns c cols = [(c, v)].
Proof.
  unfold label_columns. induction cols as [|[k w] d IH]; csimpl; [done|].
  intros [Hnot Hnd]%NoDup_cons. rewrite filter_cons. simpl.
  destruct (decide (k = c)) as [->|Hne]; [|by apply IH].
  intros [= ->]. f_equal. by apply label_columns_nil.
Qed.

Lemma label_columns_first c col rest cols :
  label_columns c cols = col :: rest → col.1 = c ∧ dict_get c cols = Some col.2.
Proof.
  unfold label_columns. induction cols as [|[k w] d IH]; simpl; [done|].
  rewrite filter_cons. simpl. destruct (decide (k = c)) as [->|Hne]; [|done].
  by intros [= <- _].
Qed.

Lemma label_columns_dict_set_ne c c' v cols :
  c ≠ c' → label_columns c' (dict_set c v cols) = label_columns c' cols.
Proof.
  intros Hne. unfold label_columns. induction cols as [|[k w] d IH]; simpl.
  - by rewrite filter_cons, decide_False.
  - destruct (decide (k = c)) as [->|Hk].
    + by rewrite !filter_cons, !decide_False.
    + by rewrite !filter_cons, IH.
Qed.

Lemma label_columns_dict_set_eq c v cols :
  label_columns c (dict_set c v cols)
  = match label_columns c cols with
    | [] => [(c, v)]
    | _ :: rest => (c, v) :: rest
    end.
Proof.
  unfold label_columns. induction cols as [|[k w] d IH]; simpl.
  - by rewrite filter_cons, decide_True.
  - destruct (decide (k = c)) as [->|Hk].
    + by rewrite !filter_cons, !decide_True.
    + by rewrite !filter_cons, !decide_False, IH.
Qed.

Lemma df_getitem_Series_get D c v :
  df_getitem D c = Ok (Series v) → dict_get c (columns D) = Some v.
Proof.
  unfold df_getitem.
  destruct (label_columns c (columns D)) as [|col [|col' rest]] eqn:Hcols;
    [done| |done].
  intros [= <-]. by apply label_columns_first in Hcols as [_ ?].
Qed.

Lemma df_getitem_Series_label D c v :
  df_getitem D c = Ok (Series v) ↔ label_columns c (columns D) = [(c, v)].
Proof.
  unfold df_getitem. split.
  - destruct (label_columns c (columns D)) as [|[k w] [|col' rest]] eqn:Hcols;
      [done| |done].
    intros [= <-]. apply label_columns_first in Hcols as [Hk _].
    simpl in Hk. by subst.
  - by intros ->.
Qed.

Lemma df_getitem_NoDup D c v :
  NoDup (column_names D) → dict_get c (columns D) = Some v →
  df_getitem D c = Ok (Series v).
Proof.
  intros Hnd Hget. unfold df_getitem.
  by rewrite (label_columns_NoDup _ _ _ Hnd Hget).
Qed.

Lemma df_getitem_absent D c :
  c ∉ column_names D → df_getitem D c = Raise (KeyError c).
Proof.
  intros Hnot%label_columns_nil. unfold df_getitem. by rewrite Hnot.
Qed.

Lemma df_getitem_Raise_inv D c e :
  df_getitem D c = Raise e → e = KeyError c ∧ c ∉ column_names D.
Proof.
  unfold df_getitem.
  destruct (label_columns c (columns D)) as [|col [|col' rest]] eqn:Hcols;
    [|done..].
  intros [= <-]. split; [done|]. by apply label_columns_nil.
Qed.

Lemma df_getitem_Ok_elem D c x : df_getitem D c = Ok x → c ∈ column_names D.
Proof.
  intros Hx. destruct (decide (c ∈ column_names D)) as [|Hnot]; [done|].
  by rewrite (df_getitem_absent _ _ Hnot) in Hx.
Qed.

Lemma df_getitem_elem D c : c ∈ column_names D → ∃ x, df_getitem D c = Ok x.
Proof.
  intros Hin. destruct (df_getitem D c) as [x|e] eqn:Hx; [eauto|].
  by apply df_getitem_Raise_inv in Hx as [_ ?].
Qed.

Lemma df_getitem_NoDup_Series D c x :
  NoDup (column_names D) → df_getitem D c = Ok x → ∃ v, x = Series v.
Proof.
  intros Hnd Hx. pose proof (df_getitem_Ok_elem _ _ _ Hx) as Hin.
  apply dict_get_is_Some in Hin as [v Hv].
  rewrite (df_getitem_NoDup _ _ _ Hnd Hv) in Hx. injection Hx as <-. eauto.
Qed.

Lemma df_getitem_setitem_ne D c c' v :
  c ≠ c' → df_getitem (df_setitem_series D c v) c' = df_getitem D c'.
Proof.
  intros Hne. unfold df_getitem. simpl.
  by rewrite label_columns_dict_set_ne.
Qed.

Lemma df_getitem_setitem_eq D c v0 v :
  df_getitem D c = Ok (Series v0) →
  df_getitem (df_setitem_series D c v) c = Ok (Series v).
Proof.
  intros Hc%df_getitem_Series_label. unfold df_getitem. simpl.
  by rewrite label_columns_dict_set_eq, Hc.
Qed.

Lemma setitem_series_names D c v :
  is_Some (dict_get c (columns D)) →
  column_names (df_setitem_series D c v) = column_names D.
Proof. intros H. unfold column_names. simpl. by apply dict_set_keys_in, dict_get_is_Some. Qed.

Lemma names_filter_names (names : list string) (d : list (string * list cell))
    (k : string) :
  k ∈ (filter (λ c, c.1 ∉ names) d).*1 ↔ k ∈ d.*1 ∧ k ∉ names.
Proof.
  rewrite !list_elem_of_fmap. split.
  - intros (c & -> & [Hc Hin]%list_elem_of_filter). split; [eauto|done].
  - intros [(c & -> & Hin) Hnot]. exists c. split; [done|].
    by apply list_elem_of_filter.
Qed.

Lemma not_required_ne name :
  name ∉ required_columns →
  name ≠ "Genotype" ∧ name ≠ "Treatment" ∧ name ≠ "Behavior" ∧ name ≠ "class".
Proof.
  intros H. repeat split; intros ->; apply H; repeat constructor.
Qed.

Lemma label_columns_filter_names c (names : list string)
    (cols : list (string * list cell)) :
  label_columns c (filter (λ col, col.1 ∉ names) cols)
  = if decide (c ∈ names) then [] else label_columns c cols.
Proof.
  unfold label_columns. induction cols as [|[k w] d IH].
  - by destruct (decide (c ∈ names)).
  - rewrite (filter_cons (λ col : string * list cell, col.1 ∉ names)).
    rewrite (filter_cons (λ col : string * list cell, col.1 = c) (k, w) d).
    simpl. destruct (decide (k ∉ names)) as [Hk|Hk].
    + rewrite filter_cons. simpl. rewrite IH.
      destruct (decide (k = c)) as [->|Hne]; [|done].
      by destruct (decide (c ∈ names)).
    + rewrite IH. destruct (decide (k = c)) as [->|Hne]; [|done].
      destruct (decide (c ∈ names)); [done|]. by destruct Hk.
Qed.

Lemma encode_column_eq l c codes s :
  encode_column l c codes s =
  match heap s !! l with
  | None => (Raise NameError, s)
  | Some D =>
      match df_getitem D c with
      | Raise e => (Raise e, s)
      | Ok (SubFrame _) => (Raise (AttributeError "map"), s)
      | Ok (Series v) =>
          (Ok (), set_frame l (df_setitem_series D c (series_map codes v)) s)
      end
  end.
Proof.
  unfold encode_column, mbind, M_bind, bind, deref, lift, store.
  destruct (heap s !! l); [|done]. by destruct (df_getitem _ _) as [[?|?]|].
Qed.

(** The names selected for dropping are the names of the columns whose
    fraction of missing cells exceeds the threshold. *)
Lemma drop_column_names_exceeds t E :
  drop_column_names t E = (filter (exceeds t E) (columns E)).*1.
Proof.
  unfold drop_column_names, null_report, exceeds.
  induction (columns E) as [|c l IH]; [done|].
  csimpl. rewrite !filter_cons. simpl.
  destruct (decide (PrimFloat.ltb t (true_divide (isna_sum c.2) (nrows E)) = true));
    csimpl; by rewrite IH.
Qed.

Lemma drop_column_names_subset t E n :
  n ∈ drop_column_names t E → n ∈ column_names E.
Proof.
  rewrite drop_column_names_exceeds. intros [c [-> Hc]]%list_elem_of_fmap.
  apply list_elem_of_filter in Hc as [_ Hc].
  unfold column_names. by apply list_elem_of_fmap_2.
Qed.

Lemma df_drop_own t E : df_drop (drop_column_names t E) E = Ok (dropped t E).
Proof.
  unfold df_drop, dropped.
  destruct (filter _ (drop_column_names t E)) as [|n l] eqn:Hf; [done|].
  assert (n ∈ n :: l) as Hin by left. rewrite <- Hf in Hin.
  apply list_elem_of_filter in Hin as [Hnot Hin].
  by apply drop_column_names_subset in Hin.
Qed.

(** With pairwise distinct labels, dropping by name removes the columns
    above the threshold and no other. *)
Lemma dropped_columns t E :
  NoDup (column_names E) →
  columns (dropped t E) = filter (λ c, ¬ exceeds t E c) (columns E).
Proof.
  intros Hnd. unfold dropped. simpl. rewrite drop_column_names_exceeds.
  unfold column_names in Hnd. generalize (exceeds t E) (exceeds_dec t E).
  intros P HP.
  assert (∀ c, c ∈ columns E → (c.1 ∉ (filter P (columns E)).*1) ↔ ¬ P c) as Hiff.
  { intros [n v] Hc. simpl. split.
    - intros Hnot Hp. apply Hnot. apply list_elem_of_fmap. exists (n, v).
      split; [done|]. by apply list_elem_of_filter.
    - intros Hnp [[n' v'] [Heq Hc']]%list_elem_of_fmap. simpl in Heq. subst n'.
      apply list_elem_of_filter in Hc' as [Hp Hc'].
      assert (v' = v); [|by subst].
      apply (dict_get_NoDup _ _ _ Hnd) in Hc, Hc'. congruence. }
  revert Hiff. generalize (filter P (columns E)).*1. clear Hnd.
  intros names Hiff.
  induction (columns E) as [|c l IH]; [done|].
  rewrite !filter_cons.
  assert (c.1 ∉ names ↔ ¬ P c) as Hc by (apply Hiff; left).
  rewrite IH by (intros; apply Hiff; by right).
  destruct (decide (c.1 ∉ names)), (decide (¬ P c)); tauto || done.
Qed.

Section MissingValueColumns.

Context (cfg : DataValidationConfig) (fit : list cell → result (list cell)).

Local Abbreviation threshold := (missing_threshold cfg).
Local Abbreviation context := "drop_missing_value_columns".

(** The frames between the four assignments of lines 44 to 48. *)
Local Abbreviation D1 D g :=
  (df_setitem_series D "Genotype" (series_map Genotype_codes g)).
Local Abbreviation D2 D g t :=
  (df_setitem_series (D1 D g) "Treatment" (series_map Treatment_codes t)).
Local Abbreviation D3 D g t b :=
  (df_setitem_series (D2 D g t) "Behavior" (series_map Behavior_codes b)).

(** What the categorical encoding does to the object [l], at every exit:
    a missing column is a [KeyError] after the assignments before it, a
    label carried by several columns an error of the method called on the
    frame that [df[label]] then is. *)
Lemma categorical_encode_eq l s D :
  heap s !! l = Some D →
  categorical_encode fit l s =
  match df_getitem D "Genotype" with
  | Raise e => (Raise e, s)
  | Ok (SubFrame _) => (Raise (AttributeError "map"), s)
  | Ok (Series g) =>
  match df_getitem D "Treatment" with
  | Raise e => (Raise e, set_frame l (D1 D g) s)
  | Ok (SubFrame _) => (Raise (AttributeError "map"), set_frame l (D1 D g) s)
  | Ok (Series t) =>
  match df_getitem D "Behavior" with
  | Raise e => (Raise e, set_frame l (D2 D g t) s)
  | Ok (SubFrame _) => (Raise (AttributeError "map"), set_frame l (D2 D g t) s)
  | Ok (Series b) =>
  match df_getitem D "class" with
  | Raise e => (Raise e, set_frame l (D3 D g t b) s)
  | Ok (SubFrame _) =>
      (Raise (ValueError "y should be a 1d array"), set_frame l (D3 D g t b) s)
  | Ok (Series cls) =>
  match fit cls with
  | Raise e => (Raise e, set_frame l (D3 D g t b) s)
  | Ok codes =>
      if decide (length codes = nrows D)
      then (Ok (), set_frame l (encoded D g t b codes) s)
      else (Raise (ValueError "Length of values does not match length of index"),
            set_frame l (D3 D g t b) s)
  end end end end end.
Proof.
  intros HD. unfold categorical_encode, mbind, M_bind, bind.
  rewrite encode_column_eq, HD.
  destruct (df_getitem D "Genotype") as [[g|?]|]; [|done..].
  rewrite encode_column_eq, (heap_set_frame _ _ _ _ HD).
  rewrite df_getitem_setitem_ne by done.
  destruct (df_getitem D "Treatment") as [[t|?]|]; [|done..].
  rewrite set_frame_set_frame.
  rewrite encode_column_eq, (heap_set_frame _ _ _ _ HD).
  rewrite !df_getitem_setitem_ne by done.
  destruct (df_getitem D "Behavior") as [[b|?]|]; [|done..].
  rewrite set_frame_set_frame.
  unfold encode_class, mbind, M_bind, bind, deref, lift, store.
  rewrite (heap_set_frame _ _ _ _ HD).
  rewrite !df_getitem_setitem_ne by done.
  destruct (df_getitem D "class") as [[cls|?]|]; [|done..]. simpl.
  destruct (fit cls) as [codes|e]; [|done].
  unfold df_setitem. simpl nrows.
  destruct (decide (length codes = nrows D)); [|done].
  by rewrite set_frame_set_frame.
Qed.

Lemma drop_missing_value_columns_eq l key s D :
  heap s !! l = Some D →
  drop_missing_value_columns cfg fit l key s =
  match categorical_encode fit l s with
  | (Raise e, s1) => (Raise (MiceException e context), s1)
  | (Ok _, s1) =>
      match heap s1 !! l with
      | Some E => (Ok (returned cfg l E), after_drop cfg l key E s1)
      | None => (Raise (MiceException NameError context), s1)
      end
  end.
Proof.
  intros HD. unfold drop_missing_value_columns, try_wrap, mbind, M_bind, bind.
  destruct (categorical_encode fit l s) as [[[]|e] s1]; [|done].
  unfold deref. destruct (heap s1 !! l) as [E|]; [|done].
  unfold record_finding, lift. rewrite df_drop_own.
  unfold store, returned, after_drop, set_frame. simpl.
  by destruct (decide (length (column_names (dropped threshold E)) = 0)).
Qed.

(** A call that returns has found each of the four categorical columns
    once, and leaves the encoded frame without its columns above the
    threshold. *)
Lemma drop_missing_value_columns_Ok_series l key s D r s' :
  heap s !! l = Some D →
  drop_missing_value_columns cfg fit l key s = (Ok r, s') →
  ∃ g t b cls codes,
    df_getitem D "Genotype" = Ok (Series g) ∧
    df_getitem D "Treatment" = Ok (Series t) ∧
    df_getitem D "Behavior" = Ok (Series b) ∧
    df_getitem D "class" = Ok (Series cls) ∧
    fit cls = Ok codes ∧ length codes = nrows D ∧
    categorical_encode fit l s = (Ok (), set_frame l (encoded D g t b codes) s) ∧
    r = returned cfg l (encoded D g t b codes) ∧
    s' = after_drop cfg l key (encoded D g t b codes) s.
Proof.
  intros HD. rewrite (drop_missing_value_columns_eq _ _ _ _ HD).
  rewrite (categorical_encode_eq _ _ _ HD).
  destruct (df_getitem D "Genotype") as [[g|?]|]; [|done..].
  destruct (df_getitem D "Treatment") as [[t|?]|]; [|done..].
  destruct (df_getitem D "Behavior") as [[b|?]|]; [|done..].
  destruct (df_getitem D "class") as [[cls|?]|]; [|done..].
  destruct (fit cls) as [codes|e] eqn:Hfit; [|done].
  destruct (decide (length codes = nrows D)); [|done].
  rewrite (heap_set_frame _ _ _ _ HD). intros [= <- <-].
  exists g, t, b, cls, codes. repeat (split; [done|]).
  unfold after_drop, set_frame. simpl. by rewrite list_insert_insert_eq.
Qed.

Lemma drop_missing_value_columns_Ok_inv l key s D r s' :
  heap s !! l = Some D →
  drop_missing_value_columns cfg fit l key s = (Ok r, s') →
  ∃ g t b cls codes,
    dict_get "Genotype" (columns D) = Some g ∧
    dict_get "Treatment" (columns D) = Some t ∧
    dict_get "Behavior" (columns D) = Some b ∧
    dict_get "class" (columns D) = Some cls ∧
    fit cls = Ok codes ∧ length codes = nrows D ∧
    categorical_encode fit l s = (Ok (), set_frame l (encoded D g t b codes) s) ∧
    r = returned cfg l (encoded D g t b codes) ∧
    s' = after_drop cfg l key (encoded D g t b codes) s.
Proof.
  intros HD Hrun.
  destruct (drop_missing_value_columns_Ok_series _ _ _ _ _ _ HD Hrun)
    as (g & t & b & cls & codes & Hg & Ht & Hb & Hc & H).
  exists g, t, b, cls, codes.
  by repeat (split; [by apply df_getitem_Series_get|]).
Qed.

Lemma drop_missing_value_columns_run l key s D g t b cls codes :
  heap s !! l = Some D →
  df_getitem D "Genotype" = Ok (Series g) →
  df_getitem D "Treatment" = Ok (Series t) →
  df_getitem D "Behavior" = Ok (Series b) →
  df_getitem D "class" = Ok (Series cls) →
  fit cls = Ok codes → length codes = nrows D →
  drop_missing_value_columns cfg fit l key s
  = (Ok (returned cfg l (encoded D g t b codes)),
     after_drop cfg l key (encoded D g t b codes) s).
Proof.
  intros HD Hg Ht Hb Hc Hfit Hlen.
  rewrite (drop_missing_value_columns_eq _ _ _ _ HD).
  rewrite (categorical_encode_eq _ _ _ HD), Hg, Ht, Hb, Hc, Hfit.
  rewrite decide_True by done. rewrite (heap_set_frame _ _ _ _ HD).
  unfold after_drop, set_frame. simpl. by rewrite list_insert_insert_eq.
Qed.

Lemma encoded_names D g t b codes :
  dict_get "Genotype" (columns D) = Some g →
  dict_get "Treatment" (columns D) = Some t →
  dict_get "Behavior" (columns D) = Some b →
  is_Some (dict_get "class" (columns D)) →
  column_names (encoded D g t b codes) = column_names D.
Proof.
  intros Hg Ht Hb Hc. unfold column_names, encoded. simpl.
  assert (∀ (k : string) (v : list cell) (d : list (string * list cell)),
            is_Some (dict_get k d) → (dict_set k v d).*1 = d.*1) as Hkeep.
  { intros k v d H. by apply dict_set_keys_in, dict_get_is_Some. }
  rewrite Hkeep.
  2:{ rewrite !dict_get_set_ne by done. done. }
  rewrite Hkeep.
  2:{ rewrite !dict_get_set_ne by done. eauto. }
  rewrite Hkeep.
  2:{ rewrite !dict_get_set_ne by done. eauto. }
  apply Hkeep. eauto.
Qed.

Lemma dict_set_elem_inv {V : Type} (k : string) (v : V) d x :
  x ∈ dict_set k v d → x = (k, v) ∨ x ∈ d.
Proof.
  induction d as [|[k' v'] d IH]; simpl.
  - intros ?%list_elem_of_singleton. by left.
  - destruct (decide (k' = k)) as [->|].
    + intros [->|?]%elem_of_cons; [by left|]. right. by right.
    + intros [->|?]%elem_of_cons; [right; by left|].
      destruct IH as [?|?]; [done|by left|]. right. by right.
Qed.

Lemma NoDup_fst_filter {V : Type} (P : string * V → Prop)
    `{∀ x, Decision (P x)} (d : list (string * V)) :
  NoDup d.*1 → NoDup (filter P d).*1.
Proof.
  induction d as [|c d IH]; csimpl; [done|].
  intros [Hnot Hnd]%NoDup_cons. rewrite filter_cons.
  destruct (decide (P c)); csimpl; [|auto].
  apply NoDup_cons. split; [|auto].
  intros [c' [Heq Hin]]%list_elem_of_fmap. apply Hnot.
  apply list_elem_of_filter in Hin as [_ Hin].
  rewrite Heq. by apply list_elem_of_fmap_2.
Qed.

Lemma series_map_length codes v : length (series_map codes v) = length v.
Proof. unfold series_map. apply length_fmap. Qed.

(** The encoding and the drop keep a well-formed frame well-formed: no
    row is added or removed. *)
Lemma wf_dropped_encoded D g t b cls codes :
  wf_df D →
  dict_get "Genotype" (columns D) = Some g →
  dict_get "Treatment" (columns D) = Some t →
  dict_get "Behavior" (columns D) = Some b →
  dict_get "class" (columns D) = Some cls →
  length codes = nrows D →
  wf_df (dropped threshold (encoded D g t b codes)).
Proof.
  intros [Hnd Hlen] Hg Ht Hb Hc Hcodes.
  assert (∀ k v, dict_get k (columns D) = Some v → length v = nrows D) as Hcol.
  { intros k v Hk. apply dict_get_Some_elem in Hk.
    by apply (proj1 (Forall_forall _ _) Hlen (k, v)). }
  split.
  - unfold column_names, dropped. simpl columns. apply NoDup_fst_filter.
    change (NoDup (column_names (encoded D g t b codes))).
    rewrite encoded_names by eauto. done.
  - unfold dropped. simpl. apply Forall_forall. intros x Hx.
    apply list_elem_of_filter in Hx as [_ Hx]. unfold encoded in Hx. simpl in Hx.
    repeat (apply dict_set_elem_inv in Hx as [->|Hx];
            [simpl; rewrite ?series_map_length; eauto|]).
    by apply (proj1 (Forall_forall _ _) Hlen).
Qed.

(** C1 (amended). For a frame [D] with pairwise distinct column labels
    that has the columns Genotype, Treatment, Behavior and class, and whose
    class column the label encoder turns into one code per row,
    [drop_missing_value_columns] returns; the columns it leaves in the
    frame are exactly the columns of the encoded frame [E] whose fraction
    of missing cells does not exceed the threshold, in their order, and
    the names of the others are recorded under the report key. *)
Theorem drop_missing_value_columns_removes_exceeding
    (s : State) (l : nat) (key : string) (D : DataFrame)
    (g t b cls codes : list cell) :
  heap s !! l = Some D →
  NoDup (column_names D) →
  dict_get "Genotype" (columns D) = Some g →
  dict_get "Treatment" (columns D) = Some t →
  dict_get "Behavior" (columns D) = Some b →
  dict_get "class" (columns D) = Some cls →
  fit cls = Ok codes →
  length codes = nrows D →
  let E := encoded D g t b codes in
  ∃ r s' D',
    drop_missing_value_columns cfg fit l key s = (Ok r, s') ∧
    heap s' !! l = Some D' ∧
    columns D' = filter (λ c, ¬ exceeds threshold E c) (columns E) ∧
    dict_get key (validation_error s')
    = Some (ColumnList (filter (exceeds threshold E) (columns E)).*1).
Proof.
  intros HD Hnd Hg Ht Hb Hc Hfit Hlen E.
  exists (returned cfg l E), (after_drop cfg l key E s), (dropped threshold E).
  split; [eapply drop_missing_value_columns_run; eauto using df_getitem_NoDup|].
  split; [|split].
  - simpl. apply list_lookup_insert_eq. by eapply lookup_lt_Some.
  - apply dropped_columns. unfold E. rewrite encoded_names by eauto. done.
  - simpl. by rewrite dict_get_set_eq, drop_column_names_exceeds.
Qed.

(** C8. When [drop_missing_value_columns] returns on a frame [D]: if at
    least one column is left, it returns the frame, which has the row
    count of [D] (and, for a well-formed [D], one cell per row in every
    column left); if no column is left, it returns [None]. *)
Theorem drop_missing_value_columns_keeps_rows
    (s : State) (l : nat) (key : string) (D : DataFrame)
    (r : option nat) (s' : State) :
  heap s !! l = Some D →
  drop_missing_value_columns cfg fit l key s = (Ok r, s') →
  ∃ D',
    heap s' !! l = Some D' ∧
    (column_names D' ≠ [] →
       r = Some l ∧ nrows D' = nrows D ∧ (wf_df D → wf_df D')) ∧
    (column_names D' = [] → r = None).
Proof.
  intros HD Hrun.
  destruct (drop_missing_value_columns_Ok_inv _ _ _ _ _ _ HD Hrun)
    as (g & t & b & cls & codes & Hg & Ht & Hb & Hc & Hfit & Hlen & _ & -> & ->).
  exists (dropped threshold (encoded D g t b codes)).
  split; [simpl; apply list_lookup_insert_eq; by eapply lookup_lt_Some|].
  unfold returned.
  destruct (decide (length (column_names
              (dropped threshold (encoded D g t b codes))) = 0)) as [H0|H0].
  - apply nil_length_inv in H0. split; [by intros ?|done].
  - split.
    + intros _. split; [done|]. split; [done|].
      intros Hwf. by eapply wf_dropped_encoded.
    + intros Hnil. by rewrite Hnil in H0.
Qed.

End MissingValueColumns.

(** ** Values outside the literal dictionaries *)

Lemma series_map_unmapped codes (v : list cell) i c :
  v !! i = Some c → unmapped codes c → series_map codes v !! i = Some NaN.
Proof.
  intros Hi Hc. unfold series_map. rewrite list_lookup_fmap, Hi. simpl.
  destruct c as [|x|k]; [done..|]. simpl in Hc. by rewrite Hc.
Qed.

(** After the mapping, the missing cells of a series are the cells that
    the dictionary does not map. *)
Lemma isna_sum_series_map codes (v : list cell) :
  Forall (λ kv, isna kv.2 = false) codes →
  isna_sum (series_map codes v) = length (filter (unmapped codes) v).
Proof.
  intros Hcodes. unfold isna_sum, series_map.
  induction v as [|c v IH]; [done|].
  csimpl. rewrite !filter_cons.
  destruct (decide (unmapped codes c)) as [Hu|Hu].
  - assert (match c with Str k => default NaN (dict_get k codes) | _ => NaN end
            = NaN) as ->.
    { destruct c as [|x|k]; [done..|]. simpl in Hu. by rewrite Hu. }
    simpl. by rewrite IH.
  - destruct c as [|x|k]; [by destruct Hu..|]. simpl in Hu.
    destruct (dict_get k codes) as [m|] eqn:Hk; [|done]. simpl.
    apply dict_get_Some_elem in Hk.
    pose proof (proj1 (Forall_forall _ _) Hcodes _ Hk) as Hm. simpl in Hm.
    rewrite decide_False by (rewrite Hm; auto). done.
Qed.

Lemma null_report_get k E :
  dict_get k (null_report E)
  = (λ v, true_divide (isna_sum v) (nrows E)) <$> dict_get k (columns E).
Proof.
  unfold null_report. induction (columns E) as [|[k' v'] d IH]; [done|].
  csimpl. by destruct (decide (k' = k)).
Qed.

Lemma literal_codes_not_missing codes :
  codes ∈ [Genotype_codes; Treatment_codes; Behavior_codes] →
  Forall (λ kv, isna kv.2 = false) codes.
Proof.
  intros H. repeat (apply elem_of_cons in H as [->|H];
                    [by repeat constructor|]).
  by apply not_elem_of_nil in H.
Qed.

Lemma series_map_mapped codes (v : list cell) i k m :
  v !! i = Some (Str k) → dict_get k codes = Some m →
  series_map codes v !! i = Some m.
Proof.
  intros Hi Hk. unfold series_map. rewrite list_lookup_fmap, Hi. simpl.
  by rewrite Hk.
Qed.

(** *** A column that is the only one of its label, through the drop *)

Lemma df_getitem_dropped t E name :
  df_getitem (dropped t E) name
  = if decide (name ∈ drop_column_names t E) then Raise (KeyError name)
    else df_getitem E name.
Proof.
  unfold df_getitem, dropped. simpl. rewrite label_columns_filter_names.
  by destruct (decide (name ∈ drop_column_names t E)).
Qed.

Lemma drop_column_names_single t E name v :
  df_getitem E name = Ok (Series v) →
  name ∈ drop_column_names t E
  ↔ PrimFloat.ltb t (true_divide (isna_sum v) (nrows E)) = true.
Proof.
  intros Hsingle%df_getitem_Series_label.
  rewrite drop_column_names_exceeds, list_elem_of_fmap. split.
  - intros (col & -> & [Hex Hin]%list_elem_of_filter).
    assert (col ∈ label_columns col.1 (columns E)) as Hcol
      by (by apply list_elem_of_filter).
    rewrite Hsingle in Hcol. apply list_elem_of_singleton in Hcol.
    rewrite Hcol in Hex. exact Hex.
  - intros Hex. exists (name, v). split; [done|].
    apply list_elem_of_filter. split; [done|].
    assert ((name, v) ∈ label_columns name (columns E)) as Hcol
      by (rewrite Hsingle; left).
    by apply list_elem_of_filter in Hcol as [_ ?].
Qed.

(** A column of the encoded frame that is the only one of its label stays
    in the frame, as it is, exactly when its fraction of missing cells is
    not above the threshold, and is recorded otherwise. *)
Lemma dropped_single t E name v :
  df_getitem E name = Ok (Series v) →
  (name ∈ drop_column_names t E
   ↔ PrimFloat.ltb t (true_divide (isna_sum v) (nrows E)) = true) ∧
  (name ∈ column_names (dropped t E)
   ↔ PrimFloat.ltb t (true_divide (isna_sum v) (nrows E)) = false) ∧
  (name ∈ column_names (dropped t E) →
   df_getitem (dropped t E) name = Ok (Series v)).
Proof.
  intros Hsingle.
  pose proof (drop_column_names_single t E name v Hsingle) as Hrec.
  assert (name ∈ column_names (dropped t E) ↔ name ∉ drop_column_names t E)
    as Hleft.
  { unfold column_names, dropped. simpl. rewrite names_filter_names.
    apply df_getitem_Ok_elem in Hsingle. unfold column_names in Hsingle. tauto. }
  split; [done|]. split.
  - rewrite Hleft, Hrec. apply not_true_iff_false.
  - intros Hin%Hleft. by rewrite df_getitem_dropped, decide_False.
Qed.

Lemma encoded_getitem D g t b cls codes :
  df_getitem D "Genotype" = Ok (Series g) →
  df_getitem D "Treatment" = Ok (Series t) →
  df_getitem D "Behavior" = Ok (Series b) →
  df_getitem D "class" = Ok (Series cls) →
  let E := encoded D g t b codes in
  df_getitem E "Genotype" = Ok (Series (series_map Genotype_codes g)) ∧
  df_getitem E "Treatment" = Ok (Series (series_map Treatment_codes t)) ∧
  df_getitem E "Behavior" = Ok (Series (series_map Behavior_codes b)) ∧
  df_getitem E "class" = Ok (Series codes) ∧
  ∀ name, name ∉ required_columns → df_getitem E name = df_getitem D name.
Proof.
  intros Hg Ht Hb Hc E. unfold E, encoded.
  split; [|split; [|split; [|split]]].
  - rewrite !df_getitem_setitem_ne by done. by eapply df_getitem_setitem_eq.
  - rewrite !df_getitem_setitem_ne by done.
    eapply df_getitem_setitem_eq. by rewrite df_getitem_setitem_ne.
  - rewrite !df_getitem_setitem_ne by done.
    eapply df_getitem_setitem_eq. by rewrite !df_getitem_setitem_ne.
  - eapply df_getitem_setitem_eq. by rewrite !df_getitem_setitem_ne.
  - intros name (H1 & H2 & H3 & H4)%not_required_ne.
    by rewrite !df_getitem_setitem_ne.
Qed.

(** The cells of a mapped series, one by one. *)
Lemma series_map_cells codes (v : list cell) :
  length (series_map codes v) = length v ∧
  (∀ i c, v !! i = Some c → unmapped codes c →
          series_map codes v !! i = Some NaN) ∧
  (∀ i k m, v !! i = Some (Str k) → dict_get k codes = Some m →
            series_map codes v !! i = Some m).
Proof.
  split; [apply series_map_length|]. split.
  - intros i c. apply series_map_unmapped.
  - intros i k m. apply series_map_mapped.
Qed.

Section EncodingInPlace.

Context (cfg : DataValidationConfig) (fit : list cell → result (list cell)).

Local Abbreviation threshold := (missing_threshold cfg).

(** C7. On a frame in which Genotype, Treatment and Behavior each label
    one column, the three mappings of lines 44 to 46 raise nothing,
    whatever the values.  The frame they leave in the caller's object has
    the labels and rows of [D] and its other columns untouched; in each of
    the three columns every cell that is no key of the literal dictionary
    is [NaN], every key is its code, and the missing cells are exactly the
    cells that were not mapped.  When the label encoding of line 48
    returns as well, the null report of line 49 gives for each of the
    three columns the fraction of cells that were not mapped. *)
Theorem categorical_encode_unmapped_to_missing
    (s : State) (l : nat) (D : DataFrame) (g t b : list cell) :
  heap s !! l = Some D →
  df_getitem D "Genotype" = Ok (Series g) →
  df_getitem D "Treatment" = Ok (Series t) →
  df_getitem D "Behavior" = Ok (Series b) →
  ∃ D',
    (encode_column l "Genotype" Genotype_codes;;
     encode_column l "Treatment" Treatment_codes;;
     encode_column l "Behavior" Behavior_codes) s
    = (Ok (), set_frame l D' s) ∧
    column_names D' = column_names D ∧
    nrows D' = nrows D ∧
    (∀ name, name ∉ ["Genotype"; "Treatment"; "Behavior"] →
       df_getitem D' name = df_getitem D name) ∧
    ∀ name codes v,
      (name, codes, v) ∈ [("Genotype", Genotype_codes, g);
                          ("Treatment", Treatment_codes, t);
                          ("Behavior", Behavior_codes, b)] →
      ∃ v',
        df_getitem D' name = Ok (Series v') ∧
        length v' = length v ∧
        (∀ i c, v !! i = Some c → unmapped codes c → v' !! i = Some NaN) ∧
        (∀ i k m, v !! i = Some (Str k) → dict_get k codes = Some m →
                  v' !! i = Some m) ∧
        isna_sum v' = length (filter (unmapped codes) v) ∧
        ∀ s1 E,
          categorical_encode fit l s = (Ok (), s1) →
          heap s1 !! l = Some E →
          df_getitem E name = Ok (Series v') ∧
          dict_get name (null_report E)
          = Some (true_divide (length (filter (unmapped codes) v)) (nrows D)).
Proof.
  intros HD Hg Ht Hb.
  set (D1 := df_setitem_series D "Genotype" (series_map Genotype_codes g)).
  set (D2 := df_setitem_series D1 "Treatment" (series_map Treatment_codes t)).
  set (D3 := df_setitem_series D2 "Behavior" (series_map Behavior_codes b)).
  assert (df_getitem D3 "Genotype" = Ok (Series (series_map Genotype_codes g)))
    as Hg3.
  { unfold D3, D2. rewrite !df_getitem_setitem_ne by done.
    by eapply df_getitem_setitem_eq. }
  assert (df_getitem D3 "Treatment" = Ok (Series (series_map Treatment_codes t)))
    as Ht3.
  { unfold D3. rewrite !df_getitem_setitem_ne by done.
    eapply df_getitem_setitem_eq. unfold D1.
    by rewrite df_getitem_setitem_ne. }
  assert (df_getitem D3 "Behavior" = Ok (Series (series_map Behavior_codes b)))
    as Hb3.
  { eapply df_getitem_setitem_eq. unfold D2, D1.
    by rewrite !df_getitem_setitem_ne. }
  exists D3. split; [|split; [|split; [done|split]]].
  - unfold mbind, M_bind, bind.
    rewrite encode_column_eq, HD, Hg.
    rewrite encode_column_eq, (heap_set_frame _ _ _ _ HD).
    rewrite df_getitem_setitem_ne, Ht by done.
    rewrite set_frame_set_frame.
    rewrite encode_column_eq, (heap_set_frame _ _ _ _ HD).
    rewrite !df_getitem_setitem_ne, Hb by done.
    by rewrite set_frame_set_frame.
  - unfold D3, D2, D1. rewrite !setitem_series_names; [done|..].
    + by rewrite (df_getitem_Series_get _ _ _ Hg).
    + simpl. rewrite dict_get_set_ne by done.
      by rewrite (df_getitem_Series_get _ _ _ Ht).
    + simpl. rewrite !dict_get_set_ne by done.
      by rewrite (df_getitem_Series_get _ _ _ Hb).
  - intros name Hname. unfold D3, D2, D1.
    rewrite !df_getitem_setitem_ne; [done|intros <-; apply Hname..];
      repeat constructor.
  - intros name codes v Hin. exists (series_map codes v).
    destruct (series_map_cells codes v) as (Hlen & Hun & Hmap).
    assert (df_getitem D3 name = Ok (Series (series_map codes v))
            ∧ codes ∈ [Genotype_codes; Treatment_codes; Behavior_codes])
      as [Hcol Hcodes].
    { repeat (apply elem_of_cons in Hin as [[= -> -> ->]|Hin];
              [split; [done|repeat constructor]|]).
      by apply not_elem_of_nil in Hin. }
    assert (isna_sum (series_map codes v) = length (filter (unmapped codes) v))
      as Hsum by (by apply isna_sum_series_map, literal_codes_not_missing).
    repeat (split; [done|]).
    intros s1 E Hrun HE.
    rewrite (categorical_encode_eq _ _ _ _ HD), Hg, Ht, Hb in Hrun.
    destruct (df_getitem D "class") as [[cls|?]|]; [|done..].
    destruct (fit cls) as [class_codes|]; [|done].
    destruct (decide (length class_codes = nrows D)); [|done].
    injection Hrun as <-. rewrite (heap_set_frame _ _ _ _ HD) in HE.
    injection HE as <-.
    assert (df_getitem (encoded D g t b class_codes) name
            = Ok (Series (series_map codes v))) as HcolE.
    { unfold encoded. fold D1 D2 D3. rewrite df_getitem_setitem_ne; [done|].
      intros <-.
      repeat (apply elem_of_cons in Hin as [Heq|Hin]; [discriminate Heq|]).
      by apply not_elem_of_nil in Hin. }
    split; [done|].
    rewrite null_report_get, (df_getitem_Series_get _ _ _ HcolE). simpl.
    by rewrite Hsum.
Qed.

(** C9. [drop_missing_value_columns] works on the caller's object.  When
    it returns, each of the four categorical labels named one column of
    [D], and the object [l] that held [D] holds a frame [D'] with the rows
    of [D]; no object is created, no other object changes, and the value
    returned is that same object or [None].  In [D'] the Genotype,
    Treatment and Behavior columns are overwritten cell by cell (a key of
    the literal dictionary by its code, any other cell by [NaN]) and the
    class column by the codes of the label encoder; and a column is gone
    exactly when its fraction of missing cells after the encoding is
    strictly above the threshold: for the three mapped columns the
    fraction of cells that were not mapped, for the class column the
    fraction of missing codes, for any other column that is the only one
    of its label the fraction of its missing cells, and such a column that
    stays holds the cells it held. *)
Theorem drop_missing_value_columns_in_place
    (s : State) (l : nat) (key : string) (D : DataFrame)
    (r : option nat) (s' : State) :
  heap s !! l = Some D →
  drop_missing_value_columns cfg fit l key s = (Ok r, s') →
  ∃ g t b cls codes D',
    df_getitem D "Genotype" = Ok (Series g) ∧
    df_getitem D "Treatment" = Ok (Series t) ∧
    df_getitem D "Behavior" = Ok (Series b) ∧
    df_getitem D "class" = Ok (Series cls) ∧
    fit cls = Ok codes ∧
    heap s' !! l = Some D' ∧
    length (heap s') = length (heap s) ∧
    (∀ l', l' ≠ l → heap s' !! l' = heap s !! l') ∧
    (r = Some l ∨ r = None) ∧
    nrows D' = nrows D ∧
    (∀ name codes0 v,
       (name, codes0, v) ∈ [("Genotype", Genotype_codes, g);
                            ("Treatment", Treatment_codes, t);
                            ("Behavior", Behavior_codes, b)] →
       (name ∈ column_names D'
        ↔ PrimFloat.ltb threshold
            (true_divide (length (filter (unmapped codes0) v)) (nrows D))
          = false) ∧
       (name ∈ column_names D' →
        ∃ v',
          df_getitem D' name = Ok (Series v') ∧
          length v' = length v ∧
          (∀ i c, v !! i = Some c → unmapped codes0 c → v' !! i = Some NaN) ∧
          (∀ i k m, v !! i = Some (Str k) → dict_get k codes0 = Some m →
                    v' !! i = Some m))) ∧
    ("class" ∈ column_names D'
     ↔ PrimFloat.ltb threshold (true_divide (isna_sum codes) (nrows D)) = false) ∧
    ("class" ∈ column_names D' → df_getitem D' "class" = Ok (Series codes)) ∧
    (∀ name v,
       name ∉ required_columns →
       df_getitem D name = Ok (Series v) →
       (name ∈ column_names D'
        ↔ PrimFloat.ltb threshold (true_divide (isna_sum v) (nrows D)) = false) ∧
       (name ∈ column_names D' → df_getitem D' name = Ok (Series v))).
Proof.
  intros HD Hrun.
  destruct (drop_missing_value_columns_Ok_series _ _ _ _ _ _ _ _ HD Hrun)
    as (g & t & b & cls & codes & Hg & Ht & Hb & Hc & Hfit & Hlen & _ & -> & ->).
  set (E := encoded D g t b codes).
  destruct (encoded_getitem D g t b cls codes Hg Ht Hb Hc)
    as (HgE & HtE & HbE & HcE & Hother). fold E in HgE, HtE, HbE, HcE, Hother.
  exists g, t, b, cls, codes, (dropped threshold E).
  repeat (split; [done|]). simpl heap.
  split; [apply list_lookup_insert_eq; by eapply lookup_lt_Some|].
  split; [apply length_insert|].
  split; [intros l' Hne; by apply list_lookup_insert_ne|].
  split; [unfold returned; by destruct (decide _); [right|left]|].
  split; [done|].
  split; [|split; [|split]].
  - intros name codes0 v Hin.
    assert (df_getitem E name = Ok (Series (series_map codes0 v))
            ∧ codes0 ∈ [Genotype_codes; Treatment_codes; Behavior_codes])
      as [Hcol Hcodes].
    { repeat (apply elem_of_cons in Hin as [[= -> -> ->]|Hin];
              [split; [done|repeat constructor]|]).
      by apply not_elem_of_nil in Hin. }
    destruct (dropped_single threshold E name _ Hcol) as (_ & Hleft & Hkeep).
    rewrite isna_sum_series_map in Hleft
      by (by apply literal_codes_not_missing).
    split; [exact Hleft|].
    intros Hstay. exists (series_map codes0 v). split; [by apply Hkeep|].
    apply series_map_cells.
  - by destruct (dropped_single threshold E "class" _ HcE) as (_ & Hleft & _).
  - by destruct (dropped_single threshold E "class" _ HcE) as (_ & _ & Hkeep).
  - intros name v Hname Hv. rewrite <- (Hother name Hname) in Hv.
    by destruct (dropped_single threshold E name _ Hv) as (_ & Hleft & Hkeep).
Qed.

(** A frame without one of the four categorical columns: the call raises
    in the encoding, after the assignments that went through; with
    pairwise distinct labels the exception is the [KeyError] of the first
    of the four that is absent. *)
Lemma drop_missing_value_columns_absent l key s D :
  heap s !! l = Some D →
  (∃ c, c ∈ required_columns ∧ c ∉ column_names D) →
  ∃ cause D',
    drop_missing_value_columns cfg fit l key s
    = (Raise (MiceException cause "drop_missing_value_columns"),
       set_frame l D' s) ∧
    (NoDup (column_names D) →
     ∃ k, cause = KeyError k ∧ k ∈ required_columns ∧ k ∉ column_names D).
Proof.
  intros HD (c & Hc & Hnot).
  rewrite (drop_missing_value_columns_eq _ _ _ _ _ _ HD).
  rewrite (categorical_encode_eq _ _ _ _ HD).
  destruct (df_getitem D "Genotype") as [[g|?]|e] eqn:Hg.
  2:{ eexists _, D. split; [by rewrite set_frame_id|]. intros Hnd.
      by destruct (df_getitem_NoDup_Series _ _ _ Hnd Hg). }
  2:{ eexists _, D. split; [by rewrite set_frame_id|]. intros _.
      apply df_getitem_Raise_inv in Hg as [-> ?]. exists "Genotype".
      split; [done|]. split; [repeat constructor|done]. }
  destruct (df_getitem D "Treatment") as [[t|?]|e] eqn:Ht.
  2:{ eexists _, _. split; [done|]. intros Hnd.
      by destruct (df_getitem_NoDup_Series _ _ _ Hnd Ht). }
  2:{ eexists _, _. split; [done|]. intros _.
      apply df_getitem_Raise_inv in Ht as [-> ?]. exists "Treatment".
      split; [done|]. split; [repeat constructor|done]. }
  destruct (df_getitem D "Behavior") as [[b|?]|e] eqn:Hb.
  2:{ eexists _, _. split; [done|]. intros Hnd.
      by destruct (df_getitem_NoDup_Series _ _ _ Hnd Hb). }
  2:{ eexists _, _. split; [done|]. intros _.
      apply df_getitem_Raise_inv in Hb as [-> ?]. exists "Behavior".
      split; [done|]. split; [repeat constructor|done]. }
  destruct (df_getitem D "class") as [[cls|?]|e] eqn:Hcls.
  2:{ eexists _, _. split; [done|]. intros Hnd.
      by destruct (df_getitem_NoDup_Series _ _ _ Hnd Hcls). }
  2:{ eexists _, _. split; [done|]. intros _.
      apply df_getitem_Raise_inv in Hcls as [-> ?]. exists "class".
      split; [done|]. split; [repeat constructor|done]. }
  exfalso. apply Hnot.
  repeat (apply elem_of_cons in Hc as [->|Hc]; [by eapply df_getitem_Ok_elem|]).
  by apply not_elem_of_nil in Hc.
Qed.

End EncodingInPlace.

(** ** The theorems above on the example frames *)

Lemma is_required_columns_exists_spec_witness :
  ∃ verdict s',
    is_required_columns_exists (Some 0) (Some 1) "missing_columns"
      (mkState [Example.train_frame; Example.test_frame] [] ∅)
    = (Ok verdict, s') ∧
    (verdict = true ↔
     ∀ n, n ∈ column_names Example.train_frame →
          n ∈ column_names Example.test_frame) ∧
    (verdict = false →
       ∃ missing,
         dict_get "missing_columns" (validation_error s')
         = Some (ColumnList missing) ∧
         missing = filter (λ n, n ∉ column_names Example.test_frame)
                          (column_names Example.train_frame) ∧
         ∀ n, n ∈ missing ↔ n ∈ column_names Example.train_frame
                            ∧ n ∉ column_names Example.test_frame).
Proof.
  apply (is_required_columns_exists_spec
           (mkState [Example.train_frame; Example.test_frame] [] ∅) 0 1
           Example.train_frame Example.test_frame "missing_columns");
    reflexivity.
Defined.

Lemma drop_missing_value_columns_removes_exceeding_witness :
  let D := Example.unmapped_frame in
  let E := encoded D [Str "Control"; Str "Trisomic"] [Str "Saline"; Str "Memantine"]
                     [Str "C/S"; Str "S/C"] [Num 0; Num 1] in
  ∃ r s' D',
    drop_missing_value_columns Example.config Sklearn.fit_transform 0 "dropped"
      (mkState [D] [] ∅) = (Ok r, s') ∧
    heap s' !! 0 = Some D' ∧
    columns D'
    = filter (λ c, ¬ exceeds (missing_threshold Example.config) E c) (columns E) ∧
    dict_get "dropped" (validation_error s')
    = Some (ColumnList
              (filter (exceeds (missing_threshold Example.config) E) (columns E)).*1).
Proof.
  apply (drop_missing_value_columns_removes_exceeding
           Example.config Sklearn.fit_transform
           (mkState [Example.unmapped_frame] [] ∅) 0 "dropped"
           Example.unmapped_frame
           [Str "Control"; Str "Trisomic"] [Str "Saline"; Str "Memantine"]
           [Str "C/S"; Str "S/C"] [Str "c-CS-s"; Str "t-SC-m"] [Num 0; Num 1]);
    try reflexivity.
  compute_done.
Defined.

(** C1 as stated fails. In [Example.unmapped_frame] no cell is missing, so
    no column of the input has a fraction of missing cells above the
    threshold 0.2; yet the call removes the Genotype column, half of whose
    values the dictionary of line 44 does not know. *)
Lemma drop_missing_value_columns_input_fraction_counterexample :
  let D := Example.unmapped_frame in
  let t := missing_threshold Example.config in
  filter (exceeds t D) (columns D) = [] ∧
  ¬ ∃ r s' D',
      drop_missing_value_columns Example.config Sklearn.fit_transform 0 "dropped"
        (mkState [D] [] ∅) = (Ok r, s') ∧
      heap s' !! 0 = Some D' ∧
      column_names D' = (filter (λ c, ¬ exceeds t D c) (columns D)).*1.
Proof.
  split; [by vm_compute|].
  intros (r & s' & D' & Hrun & Hl & Hn).
  vm_compute in Hrun. injection Hrun as <- <-.
  vm_compute in Hl. injection Hl as <-.
  vm_compute in Hn. discriminate Hn.
Qed.

Lemma drop_missing_value_columns_keeps_rows_witness :
  let s := mkState [Example.unmapped_frame] [] ∅ in
  let s' := (drop_missing_value_columns Example.config Sklearn.fit_transform
               0 "dropped" s).2 in
  ∃ D',
    heap s' !! 0 = Some D' ∧
    (column_names D' ≠ [] →
       Some 0 = Some 0 ∧ nrows D' = nrows Example.unmapped_frame ∧
       (wf_df Example.unmapped_frame → wf_df D')) ∧
    (column_names D' = [] → Some 0 = None).
Proof.
  apply (drop_missing_value_columns_keeps_rows
           Example.config Sklearn.fit_transform
           (mkState [Example.unmapped_frame] [] ∅) 0 "dropped"
           Example.unmapped_frame (Some 0)).
  - reflexivity.
  - vm_compute. reflexivity.
Defined.

Lemma drop_missing_value_columns_in_place_witness :
  let D := Example.unmapped_frame in
  let s := mkState [D] [] ∅ in
  let s' := (drop_missing_value_columns Example.config Sklearn.fit_transform
               0 "dropped" s).2 in
  let threshold := missing_threshold Example.config in
  ∃ g t b cls codes D',
    df_getitem D "Genotype" = Ok (Series g) ∧
    df_getitem D "Treatment" = Ok (Series t) ∧
    df_getitem D "Behavior" = Ok (Series b) ∧
    df_getitem D "class" = Ok (Series cls) ∧
    Sklearn.fit_transform cls = Ok codes ∧
    heap s' !! 0 = Some D' ∧
    length (heap s') = length (heap s) ∧
    (∀ l', l' ≠ 0 → heap s' !! l' = heap s !! l') ∧
    (Some 0 = Some 0 ∨ Some 0 = None) ∧
    nrows D' = nrows D ∧
    (∀ name codes0 v,
       (name, codes0, v) ∈ [("Genotype", Genotype_codes, g);
                            ("Treatment", Treatment_codes, t);
                            ("Behavior", Behavior_codes, b)] →
       (name ∈ column_names D'
        ↔ PrimFloat.ltb threshold
            (true_divide (length (filter (unmapped codes0) v)) (nrows D))
          = false) ∧
       (name ∈ column_names D' →
        ∃ v',
          df_getitem D' name = Ok (Series v') ∧
          length v' = length v ∧
          (∀ i c, v !! i = Some c → unmapped codes0 c → v' !! i = Some NaN) ∧
          (∀ i k m, v !! i = Some (Str k) → dict_get k codes0 = Some m →
                    v' !! i = Some m))) ∧
    ("class" ∈ column_names D'
     ↔ PrimFloat.ltb threshold (true_divide (isna_sum codes) (nrows D)) = false) ∧
    ("class" ∈ column_names D' → df_getitem D' "class" = Ok (Series codes)) ∧
    (∀ name v,
       name ∉ required_columns →
       df_getitem D name = Ok (Series v) →
       (name ∈ column_names D'
        ↔ PrimFloat.ltb threshold (true_divide (isna_sum v) (nrows D)) = false) ∧
       (name ∈ column_names D' → df_getitem D' name = Ok (Series v))).
Proof.
  apply (drop_missing_value_columns_in_place
           Example.config Sklearn.fit_transform
           (mkState [Example.unmapped_frame] [] ∅) 0 "dropped"
           Example.unmapped_frame (Some 0)).
  - reflexivity.
  - vm_compute. reflexivity.
Defined.

Lemma categorical_encode_unmapped_to_missing_witness :
  let D := Example.unmapped_frame in
  let s := mkState [D] [] ∅ in
  let g := [Str "Control"; Str "Trisomic"] in
  let t := [Str "Saline"; Str "Memantine"] in
  let b := [Str "C/S"; Str "S/C"] in
  ∃ D',
    (encode_column 0 "Genotype" Genotype_codes;;
     encode_column 0 "Treatment" Treatment_codes;;
     encode_column 0 "Behavior" Behavior_codes) s
    = (Ok (), set_frame 0 D' s) ∧
    column_names D' = column_names D ∧
    nrows D' = nrows D ∧
    (∀ name, name ∉ ["Genotype"; "Treatment"; "Behavior"] →
       df_getitem D' name = df_getitem D name) ∧
    ∀ name codes v,
      (name, codes, v) ∈ [("Genotype", Genotype_codes, g);
                          ("Treatment", Treatment_codes, t);
                          ("Behavior", Behavior_codes, b)] →
      ∃ v',
        df_getitem D' name = Ok (Series v') ∧
        length v' = length v ∧
        (∀ i c, v !! i = Some c → unmapped codes c → v' !! i = Some NaN) ∧
        (∀ i k m, v !! i = Some (Str k) → dict_get k codes = Some m →
                  v' !! i = Some m) ∧
        isna_sum v' = length (filter (unmapped codes) v) ∧
        ∀ s1 E,
          categorical_encode Sklearn.fit_transform 0 s = (Ok (), s1) →
          heap s1 !! 0 = Some E →
          df_getitem E name = Ok (Series v') ∧
          dict_get name (null_report E)
          = Some (true_divide (length (filter (unmapped codes) v)) (nrows D)).
Proof.
  apply (categorical_encode_unmapped_to_missing Sklearn.fit_transform
           (mkState [Example.unmapped_frame] [] ∅) 0 Example.unmapped_frame
           [Str "Control"; Str "Trisomic"] [Str "Saline"; Str "Memantine"]
           [Str "C/S"; Str "S/C"]);
    reflexivity.
Defined.

(** ** Data drift *)

Section DataDrift.

Context (ks : list cell → list cell → result float).

Lemma drift_entry_verdict p :
  pvalues (drift_entry p) = p ∧
  (same_distribution (drift_entry p) = true ↔ PrimFloat.ltb alpha p = true).
Proof. unfold drift_entry. by destruct (PrimFloat.ltb alpha p). Qed.

(** One round of the loop. *)
Lemma drift_loop_step B C key n rest acc s :
  drift_loop ks B C key (n :: rest) acc s
  = match column_pvalue ks B C n with
    | Ok p =>
        drift_loop ks B C key rest (dict_set n (drift_entry p) acc)
          (mkState (heap s)
             (dict_set key (DriftReport (dict_set n (drift_entry p) acc))
                       (validation_error s))
             (files s))
    | Raise e => (Raise e, s)
    end.
Proof.
  simpl. unfold column_pvalue, mbind, M_bind, bind, lift, record_finding.
  destruct (df_getitem B n) as [xb|]; [|done].
  destruct (df_getitem C n) as [xc|]; [|done].
  destruct (series_attr "dtype" xb) as [vb|]; [|done].
  destruct (series_attr "dtype" xc) as [vc|]; [|done].
  by destruct (ks vb vc).
Qed.

(** A p-value of a column is the p-value of the test on the one column of
    that label in each of the two frames. *)
Lemma column_pvalue_Ok_inv B C n p :
  column_pvalue ks B C n = Ok p →
  ∃ vb vc,
    df_getitem B n = Ok (Series vb) ∧ df_getitem C n = Ok (Series vc) ∧
    ks vb vc = Ok p.
Proof.
  unfold column_pvalue.
  destruct (df_getitem B n) as [[vb|?]|]; [|by destruct (df_getitem C n)|done].
  destruct (df_getitem C n) as [[vc|?]|]; [|done..]. simpl. eauto.
Qed.

(** The loop over the base columns, when the test returns on each. *)
Lemma drift_loop_run B C key cols acc s :
  (∀ n, n ∈ cols → ∃ p, column_pvalue ks B C n = Ok p) →
  drift_loop ks B C key cols acc s
  = (Ok (),
     mkState (heap s)
             (match cols with
              | [] => validation_error s
              | _ :: _ =>
                  dict_set key (DriftReport (drift_report_after ks B C cols acc))
                           (validation_error s)
              end)
             (files s)).
Proof.
  revert acc s. induction cols as [|n rest IH]; intros acc s Hok.
  - by destruct s.
  - destruct (Hok n) as [p Hp]; [left|].
    assert (∀ m, m ∈ rest → ∃ p, column_pvalue ks B C m = Ok p) as Hrest
      by (intros; apply Hok; by right).
    rewrite drift_loop_step, Hp, (IH _ _ Hrest).
    unfold drift_report_after. simpl foldl. rewrite Hp. simpl.
    destruct rest; [done|]. by rewrite dict_set_set.
Qed.

Lemma drift_report_after_get B C cols acc n :
  (∀ m, m ∈ cols → ∃ p, column_pvalue ks B C m = Ok p) →
  dict_get n (drift_report_after ks B C cols acc)
  = if decide (n ∈ cols)
    then match column_pvalue ks B C n with
         | Ok p => Some (drift_entry p)
         | Raise _ => None
         end
    else dict_get n acc.
Proof.
  revert acc. induction cols as [|m rest IH]; intros acc Hok.
  - by rewrite decide_False by apply not_elem_of_nil.
  - destruct (Hok m) as [p Hp]; [left|].
    unfold drift_report_after. simpl foldl. rewrite Hp.
    fold (drift_report_after ks B C rest (dict_set m (drift_entry p) acc)).
    rewrite IH by (intros; apply Hok; by right).
    destruct (decide (n ∈ rest)) as [Hin|Hnin].
    + by rewrite decide_True by (by right).
    + destruct (decide (m = n)) as [->|Hne].
      * by rewrite decide_True, dict_get_set_eq, Hp by left.
      * rewrite dict_get_set_ne by done.
        rewrite decide_False; [done|].
        intros [?|?]%elem_of_cons; congruence.
Qed.

(** C3 (amended). For frames [B] (base) and [C] (candidate) such that the
    test returns a p-value on every base column (so every base column
    labels one column of [B] and one of [C]), [data_drift] returns; with at
    least one base column the report holds under the key one drift report
    whose keys are the base columns, and the entry of each base column is
    the p-value that the test returned on the two columns of that label,
    with the verdict [same_distribution] true exactly when the p-value is
    strictly above 0.05.  The p-value recorded is nan or lies in [0,1] if
    the p-values of the test that are not nan lie in [0,1].  With no base
    column the report is unchanged. *)
Theorem data_drift_records
    (s : State) (b c : nat) (B C : DataFrame) (key : string) :
  heap s !! b = Some B →
  heap s !! c = Some C →
  (∀ n, n ∈ column_names B → ∃ p, column_pvalue ks B C n = Ok p) →
  ∃ s',
    data_drift ks (Some b) (Some c) key s = (Ok (), s') ∧
    (column_names B = [] → s' = s) ∧
    (column_names B ≠ [] →
       ∃ entries,
         dict_get key (validation_error s') = Some (DriftReport entries) ∧
         (∀ n, is_Some (dict_get n entries) ↔ n ∈ column_names B) ∧
         ∀ n, n ∈ column_names B →
           ∃ r base_data current_data,
             dict_get n entries = Some r ∧
             df_getitem B n = Ok (Series base_data) ∧
             df_getitem C n = Ok (Series current_data) ∧
             ks base_data current_data = Ok (pvalues r) ∧
             (same_distribution r = true ↔
              PrimFloat.ltb alpha (pvalues r) = true) ∧
             ((∀ x y p, ks x y = Ok p → PrimFloat.is_nan p = false →
                        PrimFloat.leb 0 p = true ∧ PrimFloat.leb p 1 = true) →
              PrimFloat.is_nan (pvalues r) = true ∨
              (PrimFloat.leb 0 (pvalues r) = true ∧
               PrimFloat.leb (pvalues r) 1 = true))).
Proof.
  intros Hb Hc Hok. eexists. split.
  - unfold data_drift. apply try_wrap_run. simpl frame_of.
    rewrite (bind_run _ _ _ _ _ (deref_run _ _ _ Hb)).
    rewrite (bind_run _ _ _ _ _ (deref_run _ _ _ Hc)).
    by apply drift_loop_run.
  - split.
    + intros ->. by destruct s.
    + intros Hne. destruct (column_names B) as [|n0 rest] eqn:Hcols; [done|].
      exists (drift_report_after ks B C (n0 :: rest) []).
      cbn [validation_error]. rewrite dict_get_set_eq. split; [done|]. split.
      * intros n. rewrite drift_report_after_get by done.
        destruct (decide (n ∈ n0 :: rest)) as [Hin|Hnin].
        -- destruct (Hok n Hin) as [p ->]. split; eauto.
        -- simpl. split; [by intros [? ?]|done].
      * intros n Hin. rewrite drift_report_after_get by done.
        rewrite decide_True by done.
        destruct (Hok n Hin) as [p Hp]. rewrite Hp.
        destruct (column_pvalue_Ok_inv _ _ _ _ Hp) as (vb & vc & Hvb & Hvc & Hks).
        exists (drift_entry p), vb, vc.
        destruct (drift_entry_verdict p) as [-> Hv].
        repeat (split; [done|]).
        intros Hrange. destruct (PrimFloat.is_nan p) eqn:Hnan; [by left|right].
        by eapply Hrange.
Qed.

End DataDrift.

Lemma data_drift_records_witness :
  let B := mkDF 2 [("A", [Example.n 1; Example.n 2])] in
  let C := mkDF 2 [("A", [Example.n 1; Example.n 2]); ("B", [NaN; NaN])] in
  let s := mkState [B; C] [] ∅ in
  let ks := Example.ks_2samp in
  ∃ s',
    data_drift ks (Some 0) (Some 1) "data_drift" s = (Ok (), s') ∧
    (column_names B = [] → s' = s) ∧
    (column_names B ≠ [] →
       ∃ entries,
         dict_get "data_drift" (validation_error s') = Some (DriftReport entries) ∧
         (∀ n, is_Some (dict_get n entries) ↔ n ∈ column_names B) ∧
         ∀ n, n ∈ column_names B →
           ∃ r base_data current_data,
             dict_get n entries = Some r ∧
             df_getitem B n = Ok (Series base_data) ∧
             df_getitem C n = Ok (Series current_data) ∧
             ks base_data current_data = Ok (pvalues r) ∧
             (same_distribution r = true ↔
              PrimFloat.ltb alpha (pvalues r) = true) ∧
             ((∀ x y p, ks x y = Ok p → PrimFloat.is_nan p = false →
                        PrimFloat.leb 0 p = true ∧ PrimFloat.leb p 1 = true) →
              PrimFloat.is_nan (pvalues r) = true ∨
              (PrimFloat.leb 0 (pvalues r) = true ∧
               PrimFloat.leb (pvalues r) 1 = true))).
Proof.
  apply (data_drift_records Example.ks_2samp
           (mkState [mkDF 2 [("A", [Example.n 1; Example.n 2])];
                     mkDF 2 [("A", [Example.n 1; Example.n 2]); ("B", [NaN; NaN])]]
                    [] ∅)
           0 1).
  - reflexivity.
  - reflexivity.
  - intros n Hn. apply list_elem_of_singleton in Hn as ->.
    exists 1%float. reflexivity.
Defined.

(** C3 as stated fails. The base frame has the column [A], the candidate
    has not: [data_drift] raises on the first column and records nothing,
    so the base column has no entry in the report. *)
Lemma data_drift_every_pair_counterexample :
  let B := Example.train_frame in
  let C := Example.test_frame in
  let run := data_drift Example.ks_2samp (Some 0) (Some 1) "data_drift"
               (mkState [B; C] [] ∅) in
  "A" ∈ column_names B ∧
  run.1 = Raise (MiceException (KeyError "A") "data_drift") ∧
  ¬ ∃ entries,
      dict_get "data_drift" (validation_error run.2) = Some (DriftReport entries) ∧
      ∀ n, n ∈ column_names B → is_Some (dict_get n entries).
Proof.
  split; [left|]. split; [reflexivity|].
  intros (entries & Hget & _). vm_compute in Hget. discriminate Hget.
Qed.

(** ** What an operation leaves as it is *)

Create HintDb preserved.

Section Preserved.

Context {X : Type} (f : State → X).

Lemma preserved_ret {A : Type} (a : A) : preserved f (mret a).
Proof. by intros s. Qed.

Lemma preserved_raise {A : Type} e : preserved f (raise (A := A) e).
Proof. by intros s. Qed.

Lemma preserved_lift {A : Type} (r : result A) : preserved f (lift r).
Proof. by intros s. Qed.

Lemma preserved_deref l : preserved f (deref l).
Proof. intros s. unfold deref. by destruct (heap s !! l). Qed.

Lemma preserved_get_validation_error : preserved f get_validation_error.
Proof. by intros s. Qed.

Lemma preserved_store l df : ignores_heap f → preserved f (store l df).
Proof. intros Hf s. apply Hf. Qed.

Lemma preserved_alloc df : ignores_heap f → preserved f (alloc df).
Proof. intros Hf s. apply Hf. Qed.

Lemma preserved_record_finding key v :
  ignores_key f key → preserved f (record_finding key v).
Proof. intros Hf s. apply Hf. Qed.

Lemma preserved_bind {A B : Type} (m : M A) (k : A → M B) :
  preserved f m → (∀ a, preserved f (k a)) → preserved f (m ≫= k).
Proof.
  intros Hm Hk s. unfold mbind, M_bind, bind.
  specialize (Hm s). destruct (m s) as [[a|e] s1]; simpl in *; [|done].
  by rewrite Hk.
Qed.

Lemma preserved_try_wrap {A : Type} ctx (m : M A) :
  preserved f m → preserved f (try_wrap ctx m).
Proof.
  intros Hm s. unfold try_wrap. specialize (Hm s).
  by destruct (m s) as [[a|e] s1].
Qed.

End Preserved.

#[global] Hint Resolve preserved_ret preserved_raise preserved_lift
  preserved_deref preserved_get_validation_error preserved_store
  preserved_alloc preserved_record_finding : preserved.

(** Goes through an operation built from binds, wrappers and branches. *)
Ltac preserved :=
  repeat first
    [ solve [eauto with preserved]
    | apply preserved_try_wrap
    | apply preserved_bind; [|intros ?]
    | match goal with
      | |- preserved _ (if ?b then _ else _) => destruct b
      | |- preserved _ (match ?x with _ => _ end) => destruct x
      end ].

Lemma ignores_heap_files : ignores_heap files.
Proof. done. Qed.

Lemma ignores_key_files key : ignores_key files key.
Proof. done. Qed.

Lemma ignores_key_heap key : ignores_key heap key.
Proof. done. Qed.

Lemma ignores_file_heap path : ignores_file heap path.
Proof. done. Qed.

Lemma ignores_heap_report_entry key : ignores_heap (report_entry key).
Proof. done. Qed.

Lemma ignores_file_report_entry key path : ignores_file (report_entry key) path.
Proof. done. Qed.

Lemma ignores_key_report_entry key key' :
  key' ≠ key → ignores_key (report_entry key) key'.
Proof. intros Hne s v. unfold report_entry. simpl. by apply dict_get_set_ne. Qed.

#[global] Hint Resolve ignores_heap_files ignores_key_files ignores_key_heap
  ignores_file_heap ignores_heap_report_entry ignores_file_report_entry
  : preserved.

Section PreservedOperations.

Context (cfg : DataValidationConfig) (ingestion : DataIngestionArtifact)
  (TARGET_COLUMN : string)
  (fit : list cell → result (list cell))
  (ks : list cell → list cell → result float)
  (parse : string → result DataFrame)
  (astype : list cell → result (list cell))
  (dump : list (string * Finding) → string)
  (writable : string → bool).

Context {X : Type} (f : State → X).

Lemma preserved_encode_column l c codes :
  ignores_heap f → preserved f (encode_column l c codes).
Proof. intros Hf. unfold encode_column. preserved. Qed.

Lemma preserved_drop_missing_value_columns l key :
  ignores_heap f → ignores_key f key →
  preserved f (drop_missing_value_columns cfg fit l key).
Proof.
  intros Hf Hk.
  unfold drop_missing_value_columns, categorical_encode, encode_class.
  pose proof (λ c codes, preserved_encode_column l c codes Hf). preserved.
Qed.

Lemma preserved_frame_of df : preserved f (frame_of df).
Proof. unfold frame_of. preserved. Qed.

Lemma preserved_is_required_columns_exists b c key :
  ignores_key f key → preserved f (is_required_columns_exists b c key).
Proof.
  intros Hk. unfold is_required_columns_exists.
  pose proof preserved_frame_of. preserved.
Qed.

Lemma preserved_drift_loop B C key cols acc :
  ignores_key f key → preserved f (drift_loop ks B C key cols acc).
Proof.
  intros Hk. revert acc.
  induction cols as [|n rest IH]; intros acc; simpl; preserved.
Qed.

Lemma preserved_data_drift b c key :
  ignores_key f key → preserved f (data_drift ks b c key).
Proof.
  intros Hk. unfold data_drift. pose proof preserved_frame_of.
  pose proof (λ B C cols acc, preserved_drift_loop B C key cols acc Hk).
  preserved.
Qed.

Lemma preserved_drift_if status b c key :
  ignores_key f key → preserved f (drift_if ks status b c key).
Proof.
  intros Hk. unfold drift_if. pose proof (preserved_data_drift b c key Hk).
  preserved.
Qed.

Lemma preserved_read_csv path :
  ignores_heap f → preserved f (read_csv parse path).
Proof.
  intros Hf s. unfold read_csv. destruct (files s !! path); [|done].
  apply preserved_bind; preserved.
Qed.

Lemma preserved_convert_loop l cols exclude :
  ignores_heap f → preserved f (convert_loop astype l cols exclude).
Proof. intros Hf. induction cols as [|n rest IH]; simpl; preserved. Qed.

Lemma preserved_convert_columns_float df exclude :
  ignores_heap f → preserved f (convert_columns_float astype df exclude).
Proof.
  intros Hf. unfold convert_columns_float.
  pose proof (λ l cols, preserved_convert_loop l cols exclude Hf). preserved.
Qed.

Lemma preserved_drop_columns_new l names :
  ignores_heap f → preserved f (drop_columns_new l names).
Proof. intros Hf. unfold drop_columns_new. preserved. Qed.

Lemma preserved_replace_inplace l old :
  ignores_heap f → preserved f (replace_inplace l old).
Proof. intros Hf. unfold replace_inplace. preserved. Qed.

Lemma preserved_write_yaml_file path data :
  ignores_file f path → preserved f (write_yaml_file dump writable path data).
Proof.
  intros Hf s. unfold write_yaml_file. destruct (writable path); [|done].
  apply Hf.
Qed.

Lemma preserved_load_and_check :
  ignores_heap f →
  ignores_key f "missing_values_within_base_dataset" →
  ignores_key f "missing_values_within_train_dataset" →
  ignores_key f "missing_values_within_test_dataset" →
  ignores_key f "missing_columns_within_train_dataset" →
  ignores_key f "missing_columns_within_test_dataset" →
  preserved f (load_and_check cfg ingestion TARGET_COLUMN fit parse astype).
Proof.
  intros Hf Hb Ht Hu Hmt Hmu. unfold load_and_check.
  pose proof (λ path, preserved_read_csv path Hf).
  pose proof (λ l names, preserved_drop_columns_new l names Hf).
  pose proof (λ l old, preserved_replace_inplace l old Hf).
  pose proof (λ l key, preserved_drop_missing_value_columns l key Hf).
  pose proof (λ df exclude, preserved_convert_columns_float df exclude Hf).
  pose proof preserved_is_required_columns_exists.
  preserved.
Qed.

(** Drift detection for a candidate touches the report only under the key
    of that candidate, and only when the schema check passed. *)
Lemma preserved_detect_and_report b t u vt vu :
  (vt = true → ignores_key f "data_drift_within_train_dataset") →
  (vu = true → ignores_key f "data_drift_within_test_dataset") →
  ignores_file f (report_file_path cfg) →
  preserved f (detect_and_report cfg ks dump writable b t u vt vu).
Proof.
  intros Ht Hu Hfile. unfold detect_and_report, drift_if.
  pose proof preserved_data_drift. pose proof preserved_write_yaml_file.
  destruct vt, vu; preserved.
Qed.

End PreservedOperations.

(** ** The files on disk *)

Section FilesKept.

Context (cfg : DataValidationConfig) (ingestion : DataIngestionArtifact)
  (TARGET_COLUMN : string)
  (fit : list cell → result (list cell))
  (ks : list cell → list cell → result float)
  (parse : string → result DataFrame)
  (astype : list cell → result (list cell))
  (dump : list (string * Finding) → string)
  (writable : string → bool).

Lemma report_on_success_bind {A B : Type} path (artifact : B)
    (m : M A) (k : A → M B) :
  preserved files m →
  (∀ a, report_on_success dump path artifact (k a)) →
  report_on_success dump path artifact (m ≫= k).
Proof.
  intros Hm Hk s. unfold mbind, M_bind, bind.
  specialize (Hm s). destruct (m s) as [[a|e] s1]; simpl in *; [|done].
  specialize (Hk a s1). destruct (k a s1) as [[b|e] s2]; by rewrite <- Hm.
Qed.

Local Abbreviation steps :=
  (validation_steps cfg ingestion TARGET_COLUMN fit ks parse astype dump writable).
Local Abbreviation initiate :=
  (initiate_data_validation cfg ingestion TARGET_COLUMN fit ks parse astype dump
     writable).

(** The steps of [initiate_data_validation] touch the files only in the
    last one, the write of the report. *)
Lemma report_on_success_steps :
  report_on_success dump (report_file_path cfg)
    (mkArtifact (report_file_path cfg)) steps.
Proof.
  unfold validation_steps.
  pose proof (λ path, preserved_read_csv parse files path ignores_heap_files).
  pose proof (λ l names,
                preserved_drop_columns_new files l names ignores_heap_files).
  pose proof (λ l old,
                preserved_replace_inplace files l old ignores_heap_files).
  pose proof (λ l key,
                preserved_drop_missing_value_columns cfg fit files l key
                  ignores_heap_files (ignores_key_files key)).
  pose proof (λ df exclude,
                preserved_convert_columns_float astype files df exclude
                  ignores_heap_files).
  pose proof (λ b c key,
                preserved_is_required_columns_exists files b c key
                  (ignores_key_files key)).
  pose proof (λ status b c key,
                preserved_drift_if ks files status b c key
                  (ignores_key_files key)).
  do 15 (apply report_on_success_bind; [by auto|intros ?]).
  intros s0. unfold mbind, M_bind, bind, get_validation_error, write_yaml_file.
  simpl. by destruct (writable (report_file_path cfg)).
Qed.

(** The two ways in which [initiate_data_validation] ends, for the proofs
    about whole runs. *)
Lemma initiate_data_validation_ends (s : State) :
  match initiate s with
  | (Raise e, s') =>
      files s' = files s ∧
      ∃ cause, e = MiceException cause "initiate_data_validation"
  | (Ok a, s') =>
      steps s = (Ok a, s') ∧
      files s' = <[report_file_path cfg := dump (validation_error s')]> (files s)
  end.
Proof.
  pose proof (report_on_success_steps s) as Hsteps.
  unfold initiate_data_validation, try_wrap.
  destruct (steps s) as [[a|cause] s']; [by destruct Hsteps|eauto].
Qed.

(** C5. However a run of [initiate_data_validation] ends: if a step inside
    its [try] raises, the caller gets one [MiceException] whose cause is the
    exception that the step raised and whose context is
    [initiate_data_validation], and the files on disk, the report among
    them, are as before the run; if no step raises, the caller gets the
    artifact of the report path, and the report file holds the dump of the
    whole [validation_error] as it is after every step. *)
Theorem initiate_data_validation_failure_or_report (s : State) :
  match initiate s with
  | (Raise e, s') =>
      ∃ cause,
        steps s = (Raise cause, s') ∧
        e = MiceException cause "initiate_data_validation" ∧
        files s' = files s
  | (Ok a, s') =>
      steps s = (Ok a, s') ∧
      a = mkArtifact (report_file_path cfg) ∧
      files s' = <[report_file_path cfg := dump (validation_error s')]> (files s)
  end.
Proof.
  pose proof (report_on_success_steps s) as Hsteps.
  unfold initiate_data_validation, try_wrap.
  destruct (steps s) as [[a|cause] s']; [by destruct Hsteps|eauto].
Qed.

End FilesKept.

(** ** Two runs on the same inputs *)

Create HintDb rel_run.

Section Related.

Context (paths : list string) (n1 n2 : nat).

Local Abbreviation related := (rel_run paths n1 n2).
Local Abbreviation refs := (ref_rel n1 n2).
Local Abbreviation opt_refs := (opt_ref_rel n1 n2).

Lemma state_rel_lookup s1 s2 l1 l2 :
  state_rel paths n1 n2 s1 s2 → refs l1 l2 → heap s1 !! l1 = heap s2 !! l2.
Proof.
  intros (_ & _ & Hdrop & _) (i & -> & ->).
  by rewrite <- !lookup_drop, Hdrop.
Qed.

Lemma rel_ret {A : Type} (RA : A → A → Prop) a1 a2 :
  RA a1 a2 → related RA (mret a1) (mret a2).
Proof. by intros Ha s1 s2 Hs. Qed.

Lemma rel_raise {A : Type} (RA : A → A → Prop) e :
  related RA (raise e) (raise e).
Proof. by intros s1 s2 Hs. Qed.

Lemma rel_lift {A : Type} (r : result A) : related eq (lift r) (lift r).
Proof. intros s1 s2 Hs. unfold lift. by destruct r. Qed.

Lemma rel_deref l1 l2 : refs l1 l2 → related eq (deref l1) (deref l2).
Proof.
  intros Hl s1 s2 Hs. unfold deref.
  rewrite (state_rel_lookup _ _ _ _ Hs Hl). by destruct (heap s2 !! l2).
Qed.

Lemma rel_store l1 l2 df : refs l1 l2 → related eq (store l1 df) (store l2 df).
Proof.
  intros (i & -> & ->) s1 s2 (H1 & H2 & Hdrop & Hve & Hf). simpl.
  split; [done|]. unfold state_rel. simpl. rewrite !length_insert.
  repeat split; [done..| |done|done].
  rewrite !drop_insert_ge by lia.
  replace (n1 + i - n1) with i by lia. replace (n2 + i - n2) with i by lia.
  by rewrite Hdrop.
Qed.

Lemma rel_alloc df : related refs (alloc df) (alloc df).
Proof.
  intros s1 s2 (H1 & H2 & Hdrop & Hve & Hf). simpl. split.
  - exists (length (drop n1 (heap s1))). split.
    + rewrite length_drop. lia.
    + rewrite Hdrop, length_drop. lia.
  - unfold state_rel. simpl. rewrite !length_app.
    repeat split; [lia..| |done|done].
    rewrite !drop_app_le by done. by rewrite Hdrop.
Qed.

Lemma rel_record_finding key f :
  related eq (record_finding key f) (record_finding key f).
Proof.
  intros s1 s2 (H1 & H2 & Hdrop & Hve & Hf). simpl.
  split; [done|]. unfold state_rel. simpl. by rewrite Hve.
Qed.

Lemma rel_get_validation_error :
  related eq get_validation_error get_validation_error.
Proof. intros s1 s2 Hs. simpl. split; [|done]. apply Hs. Qed.

Lemma rel_bind {A B : Type} (RA : A → A → Prop) (RB : B → B → Prop)
    (m1 m2 : M A) (k1 k2 : A → M B) :
  related RA m1 m2 →
  (∀ a1 a2, RA a1 a2 → related RB (k1 a1) (k2 a2)) →
  related RB (m1 ≫= k1) (m2 ≫= k2).
Proof.
  intros Hm Hk s1 s2 Hs. unfold mbind, M_bind, bind.
  specialize (Hm s1 s2 Hs).
  destruct (m1 s1) as [[a1|e1] s1'], (m2 s2) as [[a2|e2] s2']; try done.
  destruct Hm as [Ha Hs']. by apply Hk.
Qed.

Lemma rel_try_wrap {A : Type} (RA : A → A → Prop) ctx (m1 m2 : M A) :
  related RA m1 m2 → related RA (try_wrap ctx m1) (try_wrap ctx m2).
Proof.
  intros Hm s1 s2 Hs. unfold try_wrap. specialize (Hm s1 s2 Hs).
  destruct (m1 s1) as [[a1|e1] s1'], (m2 s2) as [[a2|e2] s2']; try done.
  destruct Hm as [-> Hs']. done.
Qed.

Lemma opt_refs_Some l1 l2 : refs l1 l2 → opt_refs (Some l1) (Some l2).
Proof. done. Qed.

Lemma opt_refs_None : opt_refs None None.
Proof. done. Qed.

End Related.

#[global] Hint Resolve rel_ret rel_raise rel_lift rel_deref rel_store rel_alloc
  rel_record_finding rel_get_validation_error opt_refs_Some opt_refs_None
  : rel_run.

(** Goes through two copies of an operation built from binds, wrappers and
    branches on equal values. *)
Ltac rel_run :=
  first
    [ solve [eauto with rel_run]
    | apply rel_try_wrap; rel_run
    | eapply rel_bind;
      [rel_run
      |let H := fresh "Hrel" in intros ? ? H; try subst; rel_run]
    | match goal with
      | |- rel_run _ _ _ _ (if ?b then _ else _) (if ?b then _ else _) =>
          destruct b; rel_run
      | |- rel_run _ _ _ _ (match ?x with _ => _ end) (match ?x with _ => _ end) =>
          destruct x; rel_run
      end ].

Section RelatedRuns.

Context (cfg : DataValidationConfig) (ingestion : DataIngestionArtifact)
  (TARGET_COLUMN : string)
  (fit : list cell → result (list cell))
  (ks : list cell → list cell → result float)
  (parse : string → result DataFrame)
  (astype : list cell → result (list cell))
  (dump : list (string * Finding) → string)
  (writable : string → bool).

Context (paths : list string) (n1 n2 : nat).

Local Abbreviation related := (rel_run paths n1 n2).
Local Abbreviation refs := (ref_rel n1 n2).
Local Abbreviation opt_refs := (opt_ref_rel n1 n2).

Lemma rel_encode_column l1 l2 c codes :
  refs l1 l2 → related eq (encode_column l1 c codes) (encode_column l2 c codes).
Proof. intros Hl. unfold encode_column. rel_run. Qed.

Lemma rel_encode_class l1 l2 :
  refs l1 l2 → related eq (encode_class fit l1) (encode_class fit l2).
Proof. intros Hl. unfold encode_class. rel_run. Qed.

Lemma rel_drop_missing_value_columns l1 l2 key :
  refs l1 l2 →
  related opt_refs (drop_missing_value_columns cfg fit l1 key)
                   (drop_missing_value_columns cfg fit l2 key).
Proof.
  intros Hl. unfold drop_missing_value_columns, categorical_encode.
  pose proof (rel_encode_column l1 l2 "Genotype" Genotype_codes Hl).
  pose proof (rel_encode_column l1 l2 "Treatment" Treatment_codes Hl).
  pose proof (rel_encode_column l1 l2 "Behavior" Behavior_codes Hl).
  pose proof (rel_encode_class l1 l2 Hl).
  rel_run.
Qed.

Lemma rel_frame_of o1 o2 :
  opt_refs o1 o2 → related eq (frame_of o1) (frame_of o2).
Proof.
  destruct o1, o2; intros Hl; try (by destruct Hl); unfold frame_of; rel_run.
Qed.

Lemma rel_is_required_columns_exists b1 b2 c1 c2 key :
  opt_refs b1 b2 → opt_refs c1 c2 →
  related eq (is_required_columns_exists b1 c1 key)
             (is_required_columns_exists b2 c2 key).
Proof.
  intros Hb Hc. unfold is_required_columns_exists.
  pose proof (rel_frame_of _ _ Hb). pose proof (rel_frame_of _ _ Hc).
  rel_run.
Qed.

Lemma rel_drift_loop B C key cols acc :
  related eq (drift_loop ks B C key cols acc) (drift_loop ks B C key cols acc).
Proof.
  revert acc. induction cols as [|n rest IH]; intros acc; simpl; rel_run.
Qed.

Lemma rel_data_drift b1 b2 c1 c2 key :
  opt_refs b1 b2 → opt_refs c1 c2 →
  related eq (data_drift ks b1 c1 key) (data_drift ks b2 c2 key).
Proof.
  intros Hb Hc. unfold data_drift.
  pose proof (rel_frame_of _ _ Hb). pose proof (rel_frame_of _ _ Hc).
  pose proof rel_drift_loop. rel_run.
Qed.

Lemma rel_drift_if status b1 b2 c1 c2 key :
  opt_refs b1 b2 → opt_refs c1 c2 →
  related eq (drift_if ks status b1 c1 key) (drift_if ks status b2 c2 key).
Proof.
  intros Hb Hc. unfold drift_if.
  pose proof (rel_data_drift _ _ _ _ key Hb Hc). rel_run.
Qed.

Lemma rel_read_csv path :
  path ∈ paths → related refs (read_csv parse path) (read_csv parse path).
Proof.
  intros Hp s1 s2 Hs. unfold read_csv.
  destruct Hs as (H1 & H2 & Hdrop & Hve & Hf). rewrite (Hf _ Hp).
  destruct (files s2 !! path) as [text|]; [|done].
  assert (related refs (df ← lift (parse text); alloc df)
                       (df ← lift (parse text); alloc df)) as H by rel_run.
  by apply H.
Qed.

Lemma rel_convert_loop l1 l2 cols exclude :
  refs l1 l2 →
  related eq (convert_loop astype l1 cols exclude)
             (convert_loop astype l2 cols exclude).
Proof. intros Hl. induction cols as [|n rest IH]; simpl; rel_run. Qed.

Lemma rel_convert_columns_float o1 o2 exclude :
  opt_refs o1 o2 →
  related opt_refs (convert_columns_float astype o1 exclude)
                   (convert_columns_float astype o2 exclude).
Proof.
  destruct o1 as [l1|], o2 as [l2|]; intros Hl; try (by destruct Hl).
  unfold convert_columns_float.
  pose proof (λ cols, rel_convert_loop l1 l2 cols exclude Hl). rel_run.
Qed.

Lemma rel_drop_columns_new l1 l2 names :
  refs l1 l2 →
  related refs (drop_columns_new l1 names) (drop_columns_new l2 names).
Proof. intros Hl. unfold drop_columns_new. rel_run. Qed.

Lemma rel_replace_inplace l1 l2 old :
  refs l1 l2 → related eq (replace_inplace l1 old) (replace_inplace l2 old).
Proof. intros Hl. unfold replace_inplace. rel_run. Qed.

Lemma rel_write_yaml_file path data :
  related eq (write_yaml_file dump writable path data)
             (write_yaml_file dump writable path data).
Proof.
  intros s1 s2 (H1 & H2 & Hdrop & Hve & Hf). unfold write_yaml_file.
  destruct (writable path); [|done]. split; [done|].
  unfold state_rel. simpl. repeat split; [done..|].
  intros p Hp. destruct (decide (path = p)) as [->|Hne].
  - by rewrite !lookup_insert_eq.
  - by rewrite !lookup_insert_ne, Hf by done.
Qed.

Local Abbreviation steps :=
  (validation_steps cfg ingestion TARGET_COLUMN fit ks parse astype dump writable).
Local Abbreviation initiate :=
  (initiate_data_validation cfg ingestion TARGET_COLUMN fit ks parse astype dump
     writable).

Lemma rel_initiate_data_validation :
  base_file_path cfg ∈ paths →
  train_file_path ingestion ∈ paths →
  test_file_path ingestion ∈ paths →
  related eq initiate initiate.
Proof.
  intros Hb Ht Hu. unfold initiate_data_validation, validation_steps.
  pose proof (rel_read_csv _ Hb). pose proof (rel_read_csv _ Ht).
  pose proof (rel_read_csv _ Hu).
  pose proof rel_drop_columns_new. pose proof rel_replace_inplace.
  pose proof rel_drop_missing_value_columns.
  pose proof rel_convert_columns_float.
  pose proof rel_is_required_columns_exists.
  pose proof rel_drift_if. pose proof rel_write_yaml_file.
  rel_run.
Qed.

End RelatedRuns.

(** ** Runs in which no step raises *)

Lemma alloc_Ok_inv df s l s' :
  alloc df s = (Ok l, s') →
  l = length (heap s) ∧ heap s' = (heap s ++ [df])%list ∧
  validation_error s' = validation_error s ∧ files s' = files s.
Proof. unfold alloc. by intros [= <- <-]. Qed.

Lemma ret_Ok_inv {A : Type} (a b : A) s s' :
  ret a s = (Ok b, s') → b = a ∧ s' = s.
Proof. unfold ret. by intros [= <- <-]. Qed.

Lemma store_Ok_inv l df s u s' :
  store l df s = (Ok u, s') → s' = set_frame l df s.
Proof. unfold store. by intros [= <-]. Qed.

Lemma df_replace_names old D : column_names (df_replace old D) = column_names D.
Proof.
  unfold column_names, df_replace. simpl.
  induction (columns D) as [|c d IH]; [done|]. csimpl. by rewrite IH.
Qed.

Lemma df_drop_names_subset names D D' c :
  df_drop names D = Ok D' → c ∈ column_names D' → c ∈ column_names D.
Proof.
  unfold df_drop. destruct (filter _ names); [|done]. intros [= <-].
  unfold column_names. simpl.
  intros (x & -> & [_ Hx]%list_elem_of_filter)%list_elem_of_fmap.
  by apply list_elem_of_fmap_2.
Qed.

Lemma lookup_snoc_new {A : Type} (h : list A) (x : A) :
  (h ++ [x])%list !! length h = Some x.
Proof. by rewrite list_lookup_middle. Qed.

Lemma lookup_snoc_old {A : Type} (h : list A) (x : A) i :
  i < length h → (h ++ [x])%list !! i = h !! i.
Proof. apply lookup_app_l. Qed.

Section Inversion.

Context (cfg : DataValidationConfig) (ingestion : DataIngestionArtifact)
  (TARGET_COLUMN : string)
  (fit : list cell → result (list cell))
  (ks : list cell → list cell → result float)
  (parse : string → result DataFrame)
  (astype : list cell → result (list cell))
  (dump : list (string * Finding) → string)
  (writable : string → bool).

Lemma read_csv_Ok_inv path s l s' :
  read_csv parse path s = (Ok l, s') →
  ∃ text D,
    files s !! path = Some text ∧ parse text = Ok D ∧
    l = length (heap s) ∧ heap s' = (heap s ++ [D])%list ∧
    validation_error s' = validation_error s ∧ files s' = files s.
Proof.
  unfold read_csv. destruct (files s !! path) as [text|]; [|done].
  intros (D & s1 & [HD ->]%lift_Ok_inv & Ha)%bind_Ok_inv.
  apply alloc_Ok_inv in Ha as (-> & -> & -> & ->). eauto 10.
Qed.

Lemma drop_columns_new_Ok_inv l names s l' s' :
  drop_columns_new l names s = (Ok l', s') →
  ∃ D D',
    heap s !! l = Some D ∧ df_drop names D = Ok D' ∧
    l' = length (heap s) ∧ heap s' = (heap s ++ [D'])%list ∧
    validation_error s' = validation_error s ∧ files s' = files s.
Proof.
  unfold drop_columns_new.
  intros (D & s1 & [HD ->]%deref_Ok_inv & H)%bind_Ok_inv.
  apply bind_Ok_inv in H as (D' & s2 & [HD' ->]%lift_Ok_inv & Ha).
  apply alloc_Ok_inv in Ha as (-> & -> & -> & ->). eauto 10.
Qed.

Lemma replace_inplace_Ok_inv l old s u s' :
  replace_inplace l old s = (Ok u, s') →
  ∃ D, heap s !! l = Some D ∧ s' = set_frame l (df_replace old D) s.
Proof.
  unfold replace_inplace.
  intros (D & s1 & [HD ->]%deref_Ok_inv & H)%bind_Ok_inv.
  apply store_Ok_inv in H as ->. eauto.
Qed.

Lemma drop_missing_value_columns_Ok_frame l key s r s' :
  drop_missing_value_columns cfg fit l key s = (Ok r, s') →
  ∃ D, heap s !! l = Some D.
Proof.
  destruct (heap s !! l) as [D|] eqn:HD; [eauto|].
  unfold drop_missing_value_columns, categorical_encode, try_wrap,
    mbind, M_bind, bind.
  by rewrite encode_column_eq, HD.
Qed.

Lemma convert_loop_Ok_inv l positions exclude s u s' D :
  convert_loop astype l positions exclude s = (Ok u, s') →
  heap s !! l = Some D →
  ∃ D', s' = set_frame l D' s ∧ column_names D' = column_names D ∧
        nrows D' = nrows D.
Proof.
  revert s D. induction positions as [|i rest IH]; intros s D Hrun HD.
  - apply ret_Ok_inv in Hrun as [_ ->]. exists D. by rewrite set_frame_id.
  - simpl in Hrun.
    apply bind_Ok_inv in Hrun as (D0 & s0 & [HD0 ->]%deref_Ok_inv & Hrun).
    assert (D0 = D) as -> by congruence.
    apply bind_Ok_inv in Hrun as ([] & s1 & Hstep & Hrun).
    assert (∃ D1, s1 = set_frame l D1 s ∧ column_names D1 = column_names D
                  ∧ nrows D1 = nrows D) as (D1 & -> & Hn1 & Hr1).
    { destruct (columns D !! i) as [[column v]|] eqn:Hi.
      - destruct (decide (column ∉ exclude)).
        + apply bind_Ok_inv in Hstep as (v' & s2 & [Hv' ->]%lift_Ok_inv & Hstep).
          apply store_Ok_inv in Hstep as ->.
          eexists. split; [done|]. split; [|done].
          unfold column_names. simpl. rewrite list_fmap_insert. simpl.
          apply list_insert_id. by rewrite list_lookup_fmap, Hi.
        + apply ret_Ok_inv in Hstep as [_ ->]. exists D.
          by rewrite set_frame_id.
      - apply ret_Ok_inv in Hstep as [_ ->]. exists D. by rewrite set_frame_id. }
    destruct (IH _ D1 Hrun) as (D' & -> & Hn & Hr); [by eapply heap_set_frame|].
    exists D'. rewrite set_frame_set_frame. split; [done|]. split; congruence.
Qed.

Lemma convert_columns_float_Ok_inv df exclude s r s' :
  convert_columns_float astype df exclude s = (Ok r, s') →
  ∃ l D D',
    df = Some l ∧ r = Some l ∧ heap s !! l = Some D ∧
    s' = set_frame l D' s ∧ column_names D' = column_names D ∧
    nrows D' = nrows D.
Proof.
  destruct df as [l|]; [|done]. simpl.
  intros (D & s1 & [HD ->]%deref_Ok_inv & H)%bind_Ok_inv.
  apply bind_Ok_inv in H as ([] & s1 & Hloop & H).
  apply ret_Ok_inv in H as [-> ->].
  destruct (convert_loop_Ok_inv _ _ _ _ _ _ D Hloop HD) as (D' & -> & Hn & Hr).
  exists l, D, D'. done.
Qed.

Lemma frame_of_Ok_inv df s D s' :
  frame_of df s = (Ok D, s') → ∃ l, df = Some l ∧ heap s !! l = Some D ∧ s' = s.
Proof.
  destruct df as [l|]; [|done]. simpl. intros [? ?]%deref_Ok_inv. eauto.
Qed.

Lemma is_required_columns_exists_Ok_inv base_df current_df key s v s' :
  is_required_columns_exists base_df current_df key s = (Ok v, s') →
  ∃ b c B C,
    base_df = Some b ∧ current_df = Some c ∧
    heap s !! b = Some B ∧ heap s !! c = Some C ∧
    let missing := filter (λ n, n ∉ column_names C) (column_names B) in
    v = (if decide (0 < length missing) then false else true) ∧
    heap s' = heap s ∧ files s' = files s ∧
    validation_error s'
    = if decide (0 < length missing)
      then dict_set key (ColumnList missing) (validation_error s)
      else validation_error s.
Proof.
  intros H%try_wrap_Ok_inv.
  apply bind_Ok_inv in H as (B & s1 & (b & -> & HB & ->)%frame_of_Ok_inv & H).
  apply bind_Ok_inv in H as (C & s1 & (c & -> & HC & ->)%frame_of_Ok_inv & H).
  exists b, c, B, C. repeat (split; [done|]).
  rewrite collect_missing_filter in H. intros missing. fold missing in H.
  cbv zeta in H. destruct (decide (0 < length missing)).
  - apply bind_Ok_inv in H as ([] & s1 & Hrec & H).
    apply ret_Ok_inv in H as [-> ->]. unfold record_finding in Hrec.
    by injection Hrec as <-.
  - by apply ret_Ok_inv in H as [-> ->].
Qed.

Lemma drift_loop_Ok_inv B C key cols acc s u s' :
  drift_loop ks B C key cols acc s = (Ok u, s') →
  ∀ n, n ∈ cols → ∃ p, column_pvalue ks B C n = Ok p.
Proof.
  revert acc s. induction cols as [|m rest IH]; intros acc s Hrun n Hn.
  - by apply not_elem_of_nil in Hn.
  - rewrite drift_loop_step in Hrun.
    destruct (column_pvalue ks B C m) as [p|] eqn:Hp; [|done].
    apply elem_of_cons in Hn as [->|Hn]; [eauto|by eapply IH].
Qed.

Lemma data_drift_Ok_inv base_df current_df key s u s' :
  data_drift ks base_df current_df key s = (Ok u, s') →
  ∃ b c B C,
    base_df = Some b ∧ current_df = Some c ∧
    heap s !! b = Some B ∧ heap s !! c = Some C ∧
    heap s' = heap s ∧ files s' = files s ∧
    validation_error s'
    = match column_names B with
      | [] => validation_error s
      | _ :: _ =>
          dict_set key
            (DriftReport (drift_report_after ks B C (column_names B) []))
            (validation_error s)
      end.
Proof.
  intros H%try_wrap_Ok_inv.
  apply bind_Ok_inv in H as (B & s1 & (b & -> & HB & ->)%frame_of_Ok_inv & H).
  apply bind_Ok_inv in H as (C & s1 & (c & -> & HC & ->)%frame_of_Ok_inv & H).
  exists b, c, B, C. repeat (split; [done|]).
  pose proof (drift_loop_Ok_inv _ _ _ _ _ _ _ _ H) as Hok.
  rewrite (drift_loop_run _ _ _ _ _ _ _ Hok) in H. destruct u.
  by injection H as <-.
Qed.

Local Abbreviation steps :=
  (validation_steps cfg ingestion TARGET_COLUMN fit ks parse astype dump writable).
Local Abbreviation initiate :=
  (initiate_data_validation cfg ingestion TARGET_COLUMN fit ks parse astype dump
     writable).

(** A call of [drop_missing_value_columns] that returns, seen from the
    caller: the frame had the required columns, the object holds a frame
    [D'] afterwards, no other object and no file changed, and one list of
    names went into the report. *)
Lemma drop_missing_value_columns_Ok_facts l key s r s' :
  drop_missing_value_columns cfg fit l key s = (Ok r, s') →
  ∃ D D' names,
    heap s !! l = Some D ∧
    (∀ c, c ∈ required_columns → c ∈ column_names D) ∧
    heap s' = <[l := D']> (heap s) ∧
    validation_error s' = dict_set key (ColumnList names) (validation_error s) ∧
    files s' = files s ∧
    (r = None ∨ r = Some l ∧ column_names D' ≠ []).
Proof.
  intros Hrun.
  destruct (drop_missing_value_columns_Ok_frame _ _ _ _ _ Hrun) as [D HD].
  destruct (drop_missing_value_columns_Ok_inv _ _ _ _ _ _ _ _ HD Hrun)
    as (g & t & b & cls & codes & Hg & Ht & Hb & Hc & Hfit & Hlen & _ & -> & ->).
  eexists D, _, _. split; [done|]. split; [|split; [done|]].
  - intros c Hin. apply dict_get_is_Some.
    repeat (apply elem_of_cons in Hin as [->|Hin]; [eauto|]).
    by apply not_elem_of_nil in Hin.
  - split; [done|]. split; [done|]. unfold returned.
    destruct (decide _) as [|Hne]; [by left|right]. split; [done|].
    intros Hnil. by rewrite Hnil in Hne.
Qed.

(** Lengths of heaps built by allocations and updates. *)
Ltac heap_len :=
  repeat first [rewrite length_insert | rewrite length_app]; simpl; lia.

(** Looks an object up in a heap built by allocations and updates. *)
Ltac heap_lookup :=
  repeat first
    [ rewrite list_lookup_insert_ne by lia
    | rewrite list_lookup_insert_eq by heap_len
    | rewrite lookup_snoc_old by heap_len
    | rewrite list_lookup_middle by heap_len ].

Lemma validation_steps_split s :
  steps s
  = (load_and_check cfg ingestion TARGET_COLUMN fit parse astype
       ≫= λ '(b, t, u, vt, vu),
            detect_and_report cfg ks dump writable b t u vt vu) s.
Proof.
  unfold validation_steps, load_and_check.
  repeat (rewrite bind_assoc_run; apply bind_ext_run; intros ? ?).
  reflexivity.
Qed.

(** The first part of a run, when none of its steps raises. *)
Lemma load_and_check_Ok_inv s ob ot ou st su s_end :
  load_and_check cfg ingestion TARGET_COLUMN fit parse astype s
  = (Ok (ob, ot, ou, st, su), s_end) →
  ∃ textB textT textU Braw T0 U0 B T U nb nt nu,
    files s !! base_file_path cfg = Some textB ∧ parse textB = Ok Braw ∧
    files s !! train_file_path ingestion = Some textT ∧ parse textT = Ok T0 ∧
    files s !! test_file_path ingestion = Some textU ∧ parse textU = Ok U0 ∧
    (∀ c, c ∈ required_columns →
          c ∈ column_names Braw ∧ c ∈ column_names T0 ∧ c ∈ column_names U0) ∧
    ob = Some (length (heap s) + 1) ∧
    ot = Some (length (heap s) + 2) ∧
    ou = Some (length (heap s) + 3) ∧
    heap s_end !! (length (heap s) + 1) = Some B ∧
    heap s_end !! (length (heap s) + 2) = Some T ∧
    heap s_end !! (length (heap s) + 3) = Some U ∧
    column_names B ≠ [] ∧
    st = (if decide (0 < length (filter (λ n, n ∉ column_names T)
                                        (column_names B)))
          then false else true) ∧
    su = (if decide (0 < length (filter (λ n, n ∉ column_names U)
                                        (column_names B)))
          then false else true) ∧
    validation_error s_end
    = checked_report B T U nb nt nu (validation_error s).
Proof.
  unfold load_and_check. intros H.
  (* the base file is read, MouseID dropped and "na" replaced *)
  apply bind_Ok_inv in H as (l & s1 & Hstep & H).
  apply read_csv_Ok_inv in Hstep as (textB & Braw & HfB & HpB & -> & Hh1 & Hv1 & Hf1).
  assert (length (heap s1) = length (heap s) + 1) as Hl1 by (rewrite Hh1; heap_len).
  apply bind_Ok_inv in H as (l & s2 & Hstep & H).
  apply drop_columns_new_Ok_inv in Hstep
    as (D & B0 & HD & Hdrop & -> & Hh2 & Hv2 & Hf2).
  rewrite Hh1, lookup_snoc_new in HD. injection HD as <-.
  assert (length (heap s2) = length (heap s) + 2) as Hl2 by (rewrite Hh2; heap_len).
  rewrite Hl1 in H.
  apply bind_Ok_inv in H as ([] & s3 & Hstep & H).
  apply replace_inplace_Ok_inv in Hstep as (D & HD & ->).
  rewrite Hh2, <- Hl1, lookup_snoc_new in HD. injection HD as <-.
  (* the missing value columns of the base frame *)
  apply bind_Ok_inv in H as (rb & s4 & Hstep & H).
  apply drop_missing_value_columns_Ok_facts in Hstep
    as (D & B2 & nb & HD & Hreqb & Hh4 & Hv4 & Hf4 & Hrb).
  simpl in HD, Hh4, Hv4, Hf4.
  rewrite list_lookup_insert_eq in HD by lia. injection HD as <-.
  assert (length (heap s4) = length (heap s) + 2) as Hl4 by (rewrite Hh4; heap_len).
  (* the train and test files *)
  apply bind_Ok_inv in H as (l & s5 & Hstep & H).
  apply read_csv_Ok_inv in Hstep as (textT & T0 & HfT & HpT & -> & Hh5 & Hv5 & Hf5).
  assert (length (heap s5) = length (heap s) + 3) as Hl5 by (rewrite Hh5; heap_len).
  apply bind_Ok_inv in H as (l & s6 & Hstep & H).
  apply read_csv_Ok_inv in Hstep as (textU & U0 & HfU & HpU & -> & Hh6 & Hv6 & Hf6).
  assert (length (heap s6) = length (heap s) + 4) as Hl6 by (rewrite Hh6; heap_len).
  rewrite Hl4, Hl5 in H.
  apply bind_Ok_inv in H as (rt & s7 & Hstep & H).
  apply drop_missing_value_columns_Ok_facts in Hstep
    as (D & T1 & nt & HD & Hreqt & Hh7 & Hv7 & Hf7 & Hrt).
  rewrite Hh6, Hh5 in HD. revert HD. heap_lookup. intros [= <-].
  assert (length (heap s7) = length (heap s) + 4) as Hl7 by (rewrite Hh7; heap_len).
  apply bind_Ok_inv in H as (ru & s8 & Hstep & H).
  apply drop_missing_value_columns_Ok_facts in Hstep
    as (D & U1 & nu & HD & Hrequ & Hh8 & Hv8 & Hf8 & Hru).
  rewrite Hh7, Hh6 in HD. revert HD. heap_lookup. intros [= <-].
  assert (length (heap s8) = length (heap s) + 4) as Hl8 by (rewrite Hh8; heap_len).
  (* the conversion to float needs frames, not None *)
  apply bind_Ok_inv in H as (rb' & s9 & Hstep & H).
  apply convert_columns_float_Ok_inv in Hstep
    as (l & D & B3 & -> & -> & HD & -> & HnB & _).
  destruct Hrb as [?|[[= ->] HneB]]; [done|].
  rewrite Hh8, Hh7, Hh6, Hh5, Hh4 in HD. revert HD. heap_lookup. intros [= <-].
  apply bind_Ok_inv in H as (rt' & s10 & Hstep & H).
  apply convert_columns_float_Ok_inv in Hstep
    as (l & D & T2 & -> & -> & HD & -> & HnT & _).
  destruct Hrt as [?|[[= ->] HneT]]; [done|].
  apply bind_Ok_inv in H as (ru' & s11 & Hstep & H).
  apply convert_columns_float_Ok_inv in Hstep
    as (l & D' & U2 & -> & -> & HD' & -> & HnU & _).
  destruct Hru as [?|[[= ->] HneU]]; [done|].
  set (h11 := heap (set_frame (length (heap s) + 3) U2
                 (set_frame (length (heap s) + 2) T2
                    (set_frame (length (heap s) + 1) B3 s8)))) in *.
  assert (h11 !! (length (heap s) + 1) = Some B3 ∧
          h11 !! (length (heap s) + 2) = Some T2 ∧
          h11 !! (length (heap s) + 3) = Some U2) as (HB & HT & HU).
  { unfold h11. simpl. repeat split; heap_lookup; done. }
  (* the schema checks *)
  apply bind_Ok_inv in H as (vt & s12 & Hstep & H).
  apply is_required_columns_exists_Ok_inv in Hstep
    as (b & c & B & T & [= <-] & [= <-] & HB' & HT' & Hvt & Hh12 & _ & Hv12).
  change (heap s12 = h11) in Hh12.
  fold h11 in HB', HT'. assert (B = B3) as -> by congruence.
  assert (T = T2) as -> by congruence. clear HB' HT'.
  apply bind_Ok_inv in H as (vu & s13 & Hstep & H).
  apply is_required_columns_exists_Ok_inv in Hstep
    as (b & c & B & U & [= <-] & [= <-] & HB' & HU' & Hvu & Hh13 & _ & Hv13).
  rewrite Hh12 in HB', HU', Hh13.
  assert (B = B3) as -> by congruence.
  assert (U = U2) as -> by congruence. clear HB' HU'.
  apply ret_Ok_inv in H as [[= -> -> -> -> ->] ->].
  exists textB, textT, textU, Braw, T0, U0, B3, T2, U2, nb, nt, nu.
  split; [done|]. split; [done|].
  split; [by rewrite <- Hf1, <- Hf2, <- Hf4|]. split; [done|].
  split; [by rewrite <- Hf1, <- Hf2, <- Hf4, <- Hf5|]. split; [done|].
  split.
  { intros c Hc. split; [|by auto].
    apply Hreqb in Hc. rewrite df_replace_names in Hc.
    by eapply df_drop_names_subset. }
  rewrite Hh13. repeat (split; [done|]).
  split; [by rewrite HnB|]. split; [done|]. split; [done|].
  unfold checked_report. rewrite Hv13, Hv12. simpl.
  by rewrite Hv8, Hv7, Hv6, Hv5, Hv4, Hv2, Hv1.
Qed.

(** Drift detection on the checked frames, when it returns. *)
Lemma drift_if_Ok_inv status b c B C key s u s' :
  drift_if ks status (Some b) (Some c) key s = (Ok u, s') →
  heap s !! b = Some B → heap s !! c = Some C → column_names B ≠ [] →
  heap s' = heap s ∧
  validation_error s'
  = if status
    then dict_set key
           (DriftReport (drift_report_after ks B C (column_names B) []))
           (validation_error s)
    else validation_error s.
Proof.
  intros Hrun HB HC Hne. destruct status; simpl in Hrun.
  - apply data_drift_Ok_inv in Hrun
      as (b' & c' & B' & C' & [= <-] & [= <-] & HB' & HC' & Hh & _ & Hv).
    assert (B' = B) as -> by congruence. assert (C' = C) as -> by congruence.
    split; [done|]. rewrite Hv. by destruct (column_names B).
  - by apply ret_Ok_inv in Hrun as [_ ->].
Qed.

Lemma validation_steps_Ok_inv s a s' :
  steps s = (Ok a, s') →
  ∃ textB textT textU Braw T0 U0 B T U nb nt nu,
    files s !! base_file_path cfg = Some textB ∧ parse textB = Ok Braw ∧
    files s !! train_file_path ingestion = Some textT ∧ parse textT = Ok T0 ∧
    files s !! test_file_path ingestion = Some textU ∧ parse textU = Ok U0 ∧
    (∀ c, c ∈ required_columns →
          c ∈ column_names Braw ∧ c ∈ column_names T0 ∧ c ∈ column_names U0) ∧
    heap s' !! (length (heap s) + 1) = Some B ∧
    heap s' !! (length (heap s) + 2) = Some T ∧
    heap s' !! (length (heap s) + 3) = Some U ∧
    column_names B ≠ [] ∧
    validation_error s' = report_of ks B T U nb nt nu (validation_error s).
Proof.
  rewrite validation_steps_split. intros H.
  apply bind_Ok_inv in H as ([[[[b t] u] vt] vu] & s13 & Hpre & H).
  apply load_and_check_Ok_inv in Hpre
    as (textB & textT & textU & Braw & T0 & U0 & B & T & U & nb & nt & nu &
        HfB & HpB & HfT & HpT & HfU & HpU & Hreq & -> & -> & -> &
        HB & HT & HU & HneB & Hvt & Hvu & Hv13).
  unfold detect_and_report in H.
  apply bind_Ok_inv in H as ([] & s14 & Hstep & H).
  apply (drift_if_Ok_inv _ _ _ B T) in Hstep as [Hh14 Hv14]; [|done..].
  apply bind_Ok_inv in H as ([] & s15 & Hstep & H).
  apply (drift_if_Ok_inv _ _ _ B U) in Hstep as [Hh15 Hv15];
    [|by rewrite Hh14..|done].
  apply bind_Ok_inv in H as (data & s16 & Hget & H).
  unfold get_validation_error in Hget. injection Hget as <- <-.
  apply bind_Ok_inv in H as ([] & s17 & Hw & H).
  apply ret_Ok_inv in H as [_ ->].
  unfold write_yaml_file in Hw.
  destruct (writable (report_file_path cfg)); [|done]. injection Hw as <-.
  exists textB, textT, textU, Braw, T0, U0, B, T, U, nb, nt, nu.
  repeat (split; [done|]). simpl. rewrite Hh15, Hh14.
  repeat (split; [done|]).
  unfold report_of. rewrite Hv15, Hv14, Hv13, Hvt, Hvu.
  destruct (decide (0 < length (filter (λ n, n ∉ column_names T)
                                       (column_names B))));
    destruct (decide (0 < length (filter (λ n, n ∉ column_names U)
                                         (column_names B))));
    done.
Qed.

(** The entries of the schema check in the report after the first part of
    a run that started with the report [ve0]: a missing-columns entry is
    written for an incomplete candidate, and the drift entries are as they
    were. *)
Lemma checked_report_entries B T U nb nt nu ve0 :
  let report := checked_report B T U nb nt nu ve0 in
  let mt := filter (λ n, n ∉ column_names T) (column_names B) in
  let mu := filter (λ n, n ∉ column_names U) (column_names B) in
  dict_get "missing_columns_within_train_dataset" report
  = (if decide (0 < length mt) then Some (ColumnList mt)
     else dict_get "missing_columns_within_train_dataset" ve0) ∧
  dict_get "missing_columns_within_test_dataset" report
  = (if decide (0 < length mu) then Some (ColumnList mu)
     else dict_get "missing_columns_within_test_dataset" ve0) ∧
  dict_get "data_drift_within_train_dataset" report
  = dict_get "data_drift_within_train_dataset" ve0 ∧
  dict_get "data_drift_within_test_dataset" report
  = dict_get "data_drift_within_test_dataset" ve0.
Proof.
  intros report mt mu. unfold report, checked_report. fold mt mu.
  destruct (decide (0 < length mt)), (decide (0 < length mu));
    repeat split;
    repeat first [rewrite dict_get_set_eq | rewrite dict_get_set_ne by done];
    done.
Qed.

(** However a run ends, it changes the drift entry of a candidate only if
    the schema check found every base column in the candidate, and then it
    leaves the missing-columns entry of the candidate as it was. *)
Lemma drift_entry_only_if_complete s r s' :
  steps s = (r, s') →
  ∀ ref key_missing key_drift,
    (ref, key_missing, key_drift)
    ∈ [(length (heap s) + 2, "missing_columns_within_train_dataset",
        "data_drift_within_train_dataset");
       (length (heap s) + 3, "missing_columns_within_test_dataset",
        "data_drift_within_test_dataset")] →
    report_entry key_drift s' ≠ report_entry key_drift s →
    ∃ B C,
      heap s' !! (length (heap s) + 1) = Some B ∧
      heap s' !! ref = Some C ∧
      (∀ n, n ∈ column_names B → n ∈ column_names C) ∧
      report_entry key_missing s' = report_entry key_missing s.
Proof.
  rewrite validation_steps_split.
  destruct (load_and_check cfg ingestion TARGET_COLUMN fit parse astype s)
    as [[[[[[b t] u] vt] vu]|e] s13] eqn:Hpre.
  - rewrite (bind_run _ _ _ _ _ Hpre). intros Htail.
    apply load_and_check_Ok_inv in Hpre
      as (textB & textT & textU & Braw & T0 & U0 & B & T & U & nb & nt & nu &
          _ & _ & _ & _ & _ & _ & _ & -> & -> & -> &
          HB & HT & HU & HneB & Hvt & Hvu & Hv13).
    destruct (checked_report_entries B T U nb nt nu (validation_error s))
      as (Hmt & Hmu & Hdt & Hdu).
    rewrite <- Hv13 in Hmt, Hmu, Hdt, Hdu.
    (* what the second part leaves as it is *)
    assert (∀ X (f : State → X),
              (vt = true → ignores_key f "data_drift_within_train_dataset") →
              (vu = true → ignores_key f "data_drift_within_test_dataset") →
              ignores_file f (report_file_path cfg) →
              f s' = f s13) as Hkept.
    { intros X f Ht Hu Hfile.
      pose proof (preserved_detect_and_report cfg ks dump writable f
                    (Some (length (heap s) + 1)) (Some (length (heap s) + 2))
                    (Some (length (heap s) + 3)) vt vu Ht Hu Hfile s13) as Hp.
      by rewrite Htail in Hp. }
    assert (heap s' = heap s13) as Hh
      by (apply (Hkept _ heap); auto using ignores_key_heap, ignores_file_heap).
    assert (∀ key, key ≠ "data_drift_within_train_dataset" →
                   key ≠ "data_drift_within_test_dataset" →
                   report_entry key s' = report_entry key s13) as Hother.
    { intros key H1 H2. apply (Hkept _ (report_entry key));
        auto using ignores_key_report_entry, ignores_file_report_entry. }
    intros ref key_missing key_drift Hin Hchanged.
    apply elem_of_cons in Hin as [[= -> -> ->]|Hin].
    + exists B, T. rewrite Hh. split; [done|]. split; [done|].
      rewrite Hother by done. unfold report_entry. rewrite Hmt.
      destruct (decide (0 < length (filter (λ n, n ∉ column_names T)
                                           (column_names B)))) as [Hlt|Hlt].
      * exfalso. subst vt. apply Hchanged.
        assert (report_entry "data_drift_within_train_dataset" s'
                = report_entry "data_drift_within_train_dataset" s13) as Heq.
        { apply (Hkept _ (report_entry "data_drift_within_train_dataset"));
            [done| |apply ignores_file_report_entry].
          intros _. by apply ignores_key_report_entry. }
        rewrite Heq. unfold report_entry. by rewrite Hdt.
      * split; [|done]. by apply filter_missing_nil.
    + apply list_elem_of_singleton in Hin as [= -> -> ->].
      exists B, U. rewrite Hh. split; [done|]. split; [done|].
      rewrite Hother by done. unfold report_entry. rewrite Hmu.
      destruct (decide (0 < length (filter (λ n, n ∉ column_names U)
                                           (column_names B)))) as [Hlt|Hlt].
      * exfalso. subst vu. apply Hchanged.
        assert (report_entry "data_drift_within_test_dataset" s'
                = report_entry "data_drift_within_test_dataset" s13) as Heq.
        { apply (Hkept _ (report_entry "data_drift_within_test_dataset"));
            [|done|apply ignores_file_report_entry].
          intros _. by apply ignores_key_report_entry. }
        rewrite Heq. unfold report_entry. by rewrite Hdu.
      * split; [|done]. by apply filter_missing_nil.
  - rewrite (bind_raise _ _ _ _ _ Hpre). intros [= <- <-].
    intros ref key_missing key_drift Hin Hchanged. exfalso. apply Hchanged.
    assert (preserved (report_entry key_drift)
              (load_and_check cfg ingestion TARGET_COLUMN fit parse astype))
      as Hp.
    { apply preserved_load_and_check;
        [apply ignores_heap_report_entry|..];
        apply ignores_key_report_entry;
        repeat (apply elem_of_cons in Hin as [[= -> -> ->]|Hin]; [done|]);
        by apply not_elem_of_nil in Hin. }
    specialize (Hp s). by rewrite Hpre in Hp.
Qed.

End Inversion.

(** ** The whole validation *)

Section WholeValidation.

Context (cfg : DataValidationConfig) (ingestion : DataIngestionArtifact)
  (TARGET_COLUMN : string)
  (fit : list cell → result (list cell))
  (ks : list cell → list cell → result float)
  (parse : string → result DataFrame)
  (astype : list cell → result (list cell))
  (dump : list (string * Finding) → string)
  (writable : string → bool).

Local Abbreviation steps :=
  (validation_steps cfg ingestion TARGET_COLUMN fit ks parse astype dump writable).
Local Abbreviation initiate :=
  (initiate_data_validation cfg ingestion TARGET_COLUMN fit ks parse astype dump
     writable).

(** The entries of the schema check and of the drift detection in the
    report of a run that started with the report [ve0]. *)
Lemma report_of_entries B T U nb nt nu ve0 :
  let report := report_of ks B T U nb nt nu ve0 in
  let mt := filter (λ n, n ∉ column_names T) (column_names B) in
  let mu := filter (λ n, n ∉ column_names U) (column_names B) in
  dict_get "missing_columns_within_train_dataset" report
  = (if decide (0 < length mt) then Some (ColumnList mt)
     else dict_get "missing_columns_within_train_dataset" ve0) ∧
  dict_get "data_drift_within_train_dataset" report
  = (if decide (0 < length mt)
     then dict_get "data_drift_within_train_dataset" ve0
     else Some (DriftReport (drift_report_after ks B T (column_names B) []))) ∧
  dict_get "missing_columns_within_test_dataset" report
  = (if decide (0 < length mu) then Some (ColumnList mu)
     else dict_get "missing_columns_within_test_dataset" ve0) ∧
  dict_get "data_drift_within_test_dataset" report
  = (if decide (0 < length mu)
     then dict_get "data_drift_within_test_dataset" ve0
     else Some (DriftReport (drift_report_after ks B U (column_names B) []))).
Proof.
  intros report mt mu. unfold report, report_of, checked_report. fold mt mu.
  destruct (decide (0 < length mt)), (decide (0 < length mu));
    repeat split;
    repeat first [rewrite dict_get_set_eq | rewrite dict_get_set_ne by done];
    done.
Qed.

(** C4. In every run of [initiate_data_validation], by a new validator or
    by one that has run before, and however the run ends: the drift entry
    of a candidate in the report is changed only if every column of the
    cleaned base frame is a column of the candidate, and then the
    missing-columns entry of the candidate is as it was before the run.
    In a run in which no step raises, with [B], [T] and [U] the base, train
    and test frames that the schema check compares: for a candidate with
    every base column the run stores the drift report of the candidate
    under its drift key and leaves its missing-columns entry as it was; for
    a candidate without some base column the run stores the base columns it
    lacks under its missing-columns key and leaves its drift entry as it
    was, so drift detection is skipped and adds nothing to the report. *)
Theorem drift_only_after_complete_schema
    (s : State) (r : result DataValidationArtifact) (s' : State) :
  initiate s = (r, s') →
  (∀ ref key_missing key_drift,
     (ref, key_missing, key_drift)
     ∈ [(length (heap s) + 2, "missing_columns_within_train_dataset",
         "data_drift_within_train_dataset");
        (length (heap s) + 3, "missing_columns_within_test_dataset",
         "data_drift_within_test_dataset")] →
     dict_get key_drift (validation_error s')
     ≠ dict_get key_drift (validation_error s) →
     ∃ B C,
       heap s' !! (length (heap s) + 1) = Some B ∧
       heap s' !! ref = Some C ∧
       (∀ n, n ∈ column_names B → n ∈ column_names C) ∧
       dict_get key_missing (validation_error s')
       = dict_get key_missing (validation_error s)) ∧
  (∀ a, r = Ok a →
   ∃ B T U,
    heap s' !! (length (heap s) + 1) = Some B ∧
    heap s' !! (length (heap s) + 2) = Some T ∧
    heap s' !! (length (heap s) + 3) = Some U ∧
    ∀ C key_missing key_drift,
      (C, key_missing, key_drift)
      ∈ [(T, "missing_columns_within_train_dataset",
             "data_drift_within_train_dataset");
         (U, "missing_columns_within_test_dataset",
             "data_drift_within_test_dataset")] →
      let complete := ∀ n, n ∈ column_names B → n ∈ column_names C in
      (complete →
         dict_get key_drift (validation_error s')
         = Some (DriftReport (drift_report_after ks B C (column_names B) [])) ∧
         dict_get key_missing (validation_error s')
         = dict_get key_missing (validation_error s)) ∧
      (¬ complete →
         dict_get key_missing (validation_error s')
         = Some (ColumnList
                   (filter (λ n, n ∉ column_names C) (column_names B))) ∧
         dict_get key_drift (validation_error s')
         = dict_get key_drift (validation_error s))).
Proof.
  intros Hrun. split.
  { unfold initiate_data_validation, try_wrap in Hrun.
    destruct (steps s) as [r0 s0] eqn:Hsteps.
    assert (s0 = s') as -> by (destruct r0; congruence).
    exact (drift_entry_only_if_complete cfg ingestion TARGET_COLUMN fit ks
             parse astype dump writable s r0 s' Hsteps). }
  intros a ->. apply try_wrap_Ok_inv in Hrun.
  apply validation_steps_Ok_inv in Hrun
    as (textB & textT & textU & Braw & T0 & U0 & B & T & U & nb & nt & nu &
        _ & _ & _ & _ & _ & _ & _ & HB & HT & HU & HneB & Hve).
  exists B, T, U. repeat (split; [done|]).
  rewrite Hve.
  destruct (report_of_entries B T U nb nt nu (validation_error s))
    as (Hmt & Hdt & Hmu & Hdu).
  intros C key_missing key_drift Hin complete.
  assert (∀ m d m0 d0,
    dict_get key_missing (report_of ks B T U nb nt nu (validation_error s)) = m →
    dict_get key_drift (report_of ks B T U nb nt nu (validation_error s)) = d →
    (m = if decide (0 < length (filter (λ n, n ∉ column_names C) (column_names B)))
         then Some (ColumnList (filter (λ n, n ∉ column_names C) (column_names B)))
         else m0) →
    (d = if decide (0 < length (filter (λ n, n ∉ column_names C) (column_names B)))
         then d0
         else Some (DriftReport (drift_report_after ks B C (column_names B) []))) →
    (complete →
       d = Some (DriftReport (drift_report_after ks B C (column_names B) []))
       ∧ m = m0) ∧
    (¬ complete →
       m = Some (ColumnList (filter (λ n, n ∉ column_names C) (column_names B)))
       ∧ d = d0)) as Hcases.
  { intros m d m0 d0 _ _ -> ->. unfold complete.
    pose proof (filter_missing_nil (column_names B) (column_names C)) as Hiff.
    destruct (decide (0 < length (filter (λ n, n ∉ column_names C)
                                         (column_names B)))) as [Hlt|Hlt].
    - assert (¬ ∀ n, n ∈ column_names B → n ∈ column_names C) as Hnc
        by (intros Hc; apply Hiff in Hc; auto).
      split; done.
    - assert (∀ n, n ∈ column_names B → n ∈ column_names C) as Hc
        by (by apply Hiff).
      split; done. }
  apply elem_of_cons in Hin as [[= -> -> ->]|Hin].
  { exact (Hcases _ _ _ _ eq_refl eq_refl Hmt Hdt). }
  apply list_elem_of_singleton in Hin as [= -> -> ->].
  exact (Hcases _ _ _ _ eq_refl eq_refl Hmu Hdu).
Qed.

(** C10. [drop_missing_value_columns] encodes every frame it is given
    before it looks at missing values.  A run of [initiate_data_validation]
    in which the base, the train or the test file holds a frame without one
    of the columns Genotype, Treatment, Behavior and class ends with a
    [MiceException] and writes nothing.  The call on a frame without such a
    column raises in the encoding, wrapped once and with nothing recorded;
    with pairwise distinct labels the cause is the [KeyError] of a required
    column that the frame lacks.  And the fractions that decide the drop
    are those after the encoding: when the call returns, each of Genotype,
    Treatment and Behavior is recorded as dropped, and gone from the frame,
    exactly when the fraction of its cells that are no key of the literal
    dictionary is strictly above the threshold, whether or not those cells
    were missing in the frame given. *)
Theorem missing_required_column_aborts
    (s : State) (path text : string) (D : DataFrame) (c : string) :
  path ∈ [base_file_path cfg; train_file_path ingestion;
          test_file_path ingestion] →
  files s !! path = Some text →
  parse text = Ok D →
  c ∈ required_columns →
  c ∉ column_names D →
  (∃ cause s',
     initiate s = (Raise (MiceException cause "initiate_data_validation"), s') ∧
     files s' = files s) ∧
  (∀ l key s0 D0,
     heap s0 !! l = Some D0 →
     (∃ c0, c0 ∈ required_columns ∧ c0 ∉ column_names D0) →
     ∃ cause s0',
       drop_missing_value_columns cfg fit l key s0
       = (Raise (MiceException cause "drop_missing_value_columns"), s0') ∧
       validation_error s0' = validation_error s0 ∧
       (NoDup (column_names D0) →
        ∃ k, cause = KeyError k ∧ k ∈ required_columns ∧ k ∉ column_names D0)) ∧
  (∀ l key s0 D0 r s0',
     heap s0 !! l = Some D0 →
     drop_missing_value_columns cfg fit l key s0 = (Ok r, s0') →
     ∃ recorded D',
       dict_get key (validation_error s0') = Some (ColumnList recorded) ∧
       heap s0' !! l = Some D' ∧
       ∀ name codes,
         (name, codes) ∈ [("Genotype", Genotype_codes);
                          ("Treatment", Treatment_codes);
                          ("Behavior", Behavior_codes)] →
         ∃ v,
           df_getitem D0 name = Ok (Series v) ∧
           let fraction :=
             true_divide (length (filter (unmapped codes) v)) (nrows D0) in
           (name ∈ recorded
            ↔ PrimFloat.ltb (missing_threshold cfg) fraction = true) ∧
           (name ∈ column_names D'
            ↔ PrimFloat.ltb (missing_threshold cfg) fraction = false)).
Proof.
  intros Hpath Hfile Hparse Hc Hnot. split; [|split].
  - pose proof (initiate_data_validation_ends cfg ingestion
                  TARGET_COLUMN fit ks parse astype dump writable s) as Hend.
    destruct (initiate s) as [[a|e] s'] eqn:Hrun.
    + exfalso. destruct Hend as (Hsteps & _).
      apply validation_steps_Ok_inv in Hsteps
        as (textB & textT & textU & Braw & T0 & U0 & B & T & U & nb & nt & nu &
            HfB & HpB & HfT & HpT & HfU & HpU & Hreq & _).
      destruct (Hreq c Hc) as (HcB & HcT & HcU).
      repeat (apply elem_of_cons in Hpath as [->|Hpath];
              [apply Hnot; congruence|]).
      by apply not_elem_of_nil in Hpath.
    + destruct Hend as (Hf & cause & ->). eauto.
  - intros l key s0 D0 HD0 Habsent.
    destruct (drop_missing_value_columns_absent cfg fit l key s0 D0 HD0 Habsent)
      as (cause & D' & Hrun & Hcause).
    exists cause, (set_frame l D' s0). done.
  - intros l key s0 D0 r s0' HD0 Hrun.
    destruct (drop_missing_value_columns_Ok_series _ _ _ _ _ _ _ _ HD0 Hrun)
      as (g & t & b & cls & codes & Hg & Ht & Hb & Hcls & Hfit & Hlen & _ & _ & ->).
    set (E := encoded D0 g t b codes).
    destruct (encoded_getitem D0 g t b cls codes Hg Ht Hb Hcls)
      as (HgE & HtE & HbE & _). fold E in HgE, HtE, HbE.
    exists (drop_column_names (missing_threshold cfg) E),
           (dropped (missing_threshold cfg) E).
    split; [simpl; by rewrite dict_get_set_eq|].
    split; [simpl; apply list_lookup_insert_eq; by eapply lookup_lt_Some|].
    intros name codes0 Hin.
    assert (∃ v, df_getitem D0 name = Ok (Series v)
                 ∧ df_getitem E name = Ok (Series (series_map codes0 v))
                 ∧ codes0 ∈ [Genotype_codes; Treatment_codes; Behavior_codes])
      as (v & Hv & HvE & Hcodes).
    { repeat (apply elem_of_cons in Hin as [[= -> ->]|Hin];
              [eexists; split; [done|]; split; [done|repeat constructor]|]).
      by apply not_elem_of_nil in Hin. }
    exists v. split; [done|]. intros fraction.
    destruct (dropped_single (missing_threshold cfg) E name _ HvE)
      as (Hrec & Hleft & _).
    rewrite isna_sum_series_map in Hrec, Hleft
      by (by apply literal_codes_not_missing).
    done.
Qed.

(** C6. Two runs of [initiate_data_validation] with the same configuration,
    by validators with the same report so far, on files of which the base,
    train and test file have the same content, end alike, whatever else is
    in memory or on disk: with the same exception, or with the same
    artifact, the same report, and the same text in the report file. *)
Theorem initiate_data_validation_deterministic (s1 s2 : State) :
  validation_error s1 = validation_error s2 →
  (∀ p, p ∈ [base_file_path cfg; train_file_path ingestion;
             test_file_path ingestion] →
        files s1 !! p = files s2 !! p) →
  (initiate s1).1 = (initiate s2).1 ∧
  validation_error (initiate s1).2 = validation_error (initiate s2).2 ∧
  ∀ a, (initiate s1).1 = Ok a →
       files (initiate s1).2 !! report_file_path cfg
       = Some (dump (validation_error (initiate s1).2)) ∧
       files (initiate s2).2 !! report_file_path cfg
       = Some (dump (validation_error (initiate s1).2)).
Proof.
  intros Hve Hfiles.
  pose proof (rel_initiate_data_validation cfg ingestion TARGET_COLUMN fit ks
                parse astype dump writable
                [base_file_path cfg; train_file_path ingestion;
                 test_file_path ingestion]
                (length (heap s1)) (length (heap s2))) as Hrel.
  specialize (Hrel ltac:(repeat constructor) ltac:(repeat constructor)
                   ltac:(repeat constructor) s1 s2).
  assert (state_rel [base_file_path cfg; train_file_path ingestion;
                     test_file_path ingestion]
                    (length (heap s1)) (length (heap s2)) s1 s2) as Hs.
  { unfold state_rel. by rewrite !drop_all. }
  specialize (Hrel Hs).
  pose proof (initiate_data_validation_ends cfg ingestion
                TARGET_COLUMN fit ks parse astype dump writable s1) as H1.
  pose proof (initiate_data_validation_ends cfg ingestion
                TARGET_COLUMN fit ks parse astype dump writable s2) as H2.
  destruct (initiate s1) as [[a1|e1] s1'], (initiate s2) as [[a2|e2] s2'];
    try done; simpl.
  - destruct Hrel as (-> & _ & _ & _ & Hve' & _).
    destruct H1 as (_ & Hf1), H2 as (_ & Hf2).
    split; [done|]. split; [done|]. intros a _.
    rewrite Hf1, Hf2, Hve', !lookup_insert_eq. done.
  - destruct Hrel as (-> & _ & _ & _ & Hve' & _). done.
Qed.

End WholeValidation.

(** ** The whole validation on the example files *)

(** A second run of the validator of [Example.run], on the same files. *)
Lemma drift_only_after_complete_schema_witness :
  let s := (Example.run Example.start).2 in
  let s' := (Example.run s).2 in
  (∀ ref key_missing key_drift,
     (ref, key_missing, key_drift)
     ∈ [(length (heap s) + 2, "missing_columns_within_train_dataset",
         "data_drift_within_train_dataset");
        (length (heap s) + 3, "missing_columns_within_test_dataset",
         "data_drift_within_test_dataset")] →
     dict_get key_drift (validation_error s')
     ≠ dict_get key_drift (validation_error s) →
     ∃ B C,
       heap s' !! (length (heap s) + 1) = Some B ∧
       heap s' !! ref = Some C ∧
       (∀ n, n ∈ column_names B → n ∈ column_names C) ∧
       dict_get key_missing (validation_error s')
       = dict_get key_missing (validation_error s)) ∧
  (∀ a, (Example.run s).1 = Ok a →
   ∃ B T U,
    heap s' !! (length (heap s) + 1) = Some B ∧
    heap s' !! (length (heap s) + 2) = Some T ∧
    heap s' !! (length (heap s) + 3) = Some U ∧
    ∀ C key_missing key_drift,
      (C, key_missing, key_drift)
      ∈ [(T, "missing_columns_within_train_dataset",
             "data_drift_within_train_dataset");
         (U, "missing_columns_within_test_dataset",
             "data_drift_within_test_dataset")] →
      let complete := ∀ n, n ∈ column_names B → n ∈ column_names C in
      (complete →
         dict_get key_drift (validation_error s')
         = Some (DriftReport
                   (drift_report_after Example.ks_2samp B C (column_names B) [])) ∧
         dict_get key_missing (validation_error s')
         = dict_get key_missing (validation_error s)) ∧
      (¬ complete →
         dict_get key_missing (validation_error s')
         = Some (ColumnList
                   (filter (λ n, n ∉ column_names C) (column_names B))) ∧
         dict_get key_drift (validation_error s')
         = dict_get key_drift (validation_error s))).
Proof.
  apply (drift_only_after_complete_schema
           Example.config Example.ingestion "class" Sklearn.fit_transform
           Example.ks_2samp (Example.parse_csv Example.table)
           Example.astype_float Example.yaml_dump (λ _, true)
           (Example.run Example.start).2
           (Example.run (Example.run Example.start).2).1
           (Example.run (Example.run Example.start).2).2).
  vm_compute. reflexivity.
Defined.

Lemma missing_required_column_aborts_witness :
  let cfg := Example.config in
  let fit := Sklearn.fit_transform in
  (∃ cause s',
     Example.run_bare Example.start
     = (Raise (MiceException cause "initiate_data_validation"), s') ∧
     files s' = files Example.start) ∧
  (∀ l key s0 D0,
     heap s0 !! l = Some D0 →
     (∃ c0, c0 ∈ required_columns ∧ c0 ∉ column_names D0) →
     ∃ cause s0',
       drop_missing_value_columns cfg fit l key s0
       = (Raise (MiceException cause "drop_missing_value_columns"), s0') ∧
       validation_error s0' = validation_error s0 ∧
       (NoDup (column_names D0) →
        ∃ k, cause = KeyError k ∧ k ∈ required_columns ∧ k ∉ column_names D0)) ∧
  (∀ l key s0 D0 r s0',
     heap s0 !! l = Some D0 →
     drop_missing_value_columns cfg fit l key s0 = (Ok r, s0') →
     ∃ recorded D',
       dict_get key (validation_error s0') = Some (ColumnList recorded) ∧
       heap s0' !! l = Some D' ∧
       ∀ name codes,
         (name, codes) ∈ [("Genotype", Genotype_codes);
                          ("Treatment", Treatment_codes);
                          ("Behavior", Behavior_codes)] →
         ∃ v,
           df_getitem D0 name = Ok (Series v) ∧
           let fraction :=
             true_divide (length (filter (unmapped codes) v)) (nrows D0) in
           (name ∈ recorded
            ↔ PrimFloat.ltb (missing_threshold cfg) fraction = true) ∧
           (name ∈ column_names D'
            ↔ PrimFloat.ltb (missing_threshold cfg) fraction = false)).
Proof.
  apply (missing_required_column_aborts
           Example.config Example.ingestion "class" Sklearn.fit_transform
           Example.ks_2samp (Example.parse_csv Example.bare_table)
           Example.astype_float Example.yaml_dump (λ _, true)
           Example.start "test.csv" "test" Example.bare_frame "Genotype").
  - repeat constructor.
  - reflexivity.
  - reflexivity.
  - repeat constructor.
  - compute_done.
Defined.

Lemma initiate_data_validation_deterministic_witness :
  let s1 := Example.start in
  let s2 := new_validator (Example.run Example.start).2 in
  (Example.run s1).1 = (Example.run s2).1 ∧
  validation_error (Example.run s1).2 = validation_error (Example.run s2).2 ∧
  ∀ a, (Example.run s1).1 = Ok a →
       files (Example.run s1).2 !! "report.yaml"
       = Some (Example.yaml_dump (validation_error (Example.run s1).2)) ∧
       files (Example.run s2).2 !! "report.yaml"
       = Some (Example.yaml_dump (validation_error (Example.run s1).2)).
Proof.
  apply (initiate_data_validation_deterministic
           Example.config Example.ingestion "class" Sklearn.fit_transform
           Example.ks_2samp (Example.parse_csv Example.table)
           Example.astype_float Example.yaml_dump (λ _, true)
           Example.start (new_validator (Example.run Example.start).2)).
  - reflexivity.
  - intros p Hp.
    repeat (apply elem_of_cons in Hp as [->|Hp]; [vm_compute; reflexivity|]).
    by apply not_elem_of_nil in Hp.
Defined.

(** * Further properties of the operations *)

(** ** More on dictionaries and frames *)

(** Dropping columns by name leaves the first column of any other name
    where it was. *)
Lemma dict_get_filter_names {V : Type} (names : list string) (k : string)
    (d : list (string * V)) :
  dict_get k (filter (λ c, c.1 ∉ names) d)
  = if decide (k ∈ names) then None else dict_get k d.
Proof.
  induction d as [|[k' v] d IH]; simpl.
  - by destruct (decide (k ∈ names)).
  - rewrite filter_cons. simpl. destruct (decide (k' ∉ names)) as [Hn|Hn]; simpl.
    + destruct (decide (k' = k)) as [->|]; [|done].
      by destruct (decide (k ∈ names)).
    + rewrite IH. destruct (decide (k' = k)) as [->|]; [|done].
      destruct (decide (k ∈ names)); [done|]. by destruct Hn.
Qed.

Lemma dropped_get t E name :
  dict_get name (columns (dropped t E))
  = if decide (name ∈ drop_column_names t E) then None
    else dict_get name (columns E).
Proof. unfold dropped. simpl. apply dict_get_filter_names. Qed.

Lemma dict_set_get_id {V : Type} (k : string) (v : V) (d : list (string * V)) :
  dict_get k d = Some v → dict_set k v d = d.
Proof.
  induction d as [|[k' v'] d IH]; simpl; [done|].
  destruct (decide (k' = k)) as [->|]; [by intros [= ->]|].
  intros H. by rewrite IH.
Qed.

Lemma dict_set_keys_notin {V : Type} (k : string) (v : V) (d : list (string * V)) :
  k ∉ d.*1 → (dict_set k v d).*1 = (d.*1 ++ [k])%list.
Proof.
  induction d as [|[k' v'] d IH]; csimpl; [done|].
  intros [Hne Hnot]%not_elem_of_cons.
  rewrite decide_False by done. csimpl. by rewrite IH.
Qed.

(** A series that [series.map] produced from a dictionary of numbers holds
    no string, so mapping it again leaves only missing cells. *)
Lemma series_map_twice codes codes' (v : list cell) :
  Forall (λ kv : string * cell, ∀ s, kv.2 ≠ Str s) codes →
  Forall (λ c, c = NaN) (series_map codes' (series_map codes v)).
Proof.
  intros Hcodes. unfold series_map. rewrite <- list_fmap_compose.
  apply Forall_fmap, Forall_forall. intros c _. simpl.
  destruct c as [| |k]; [done..|].
  destruct (dict_get k codes) as [m|] eqn:Hk; [|done]. simpl.
  apply dict_get_Some_elem in Hk.
  pose proof (proj1 (Forall_forall _ _) Hcodes _ Hk) as Hm. simpl in Hm.
  destruct m as [| |s0]; [done..|]. by destruct (Hm s0).
Qed.

Lemma literal_codes_numbers codes :
  codes ∈ [Genotype_codes; Treatment_codes; Behavior_codes] →
  Forall (λ kv : string * cell, kv.2 = Num 0 ∨ kv.2 = Num 1) codes.
Proof.
  intros H.
  repeat (apply elem_of_cons in H as [->|H];
          [by repeat (apply Forall_cons; split; [simpl; auto|])|]).
  by apply not_elem_of_nil in H.
Qed.

Lemma series_map_range codes (v : list cell) :
  Forall (λ kv : string * cell, kv.2 = Num 0 ∨ kv.2 = Num 1) codes →
  Forall (λ c, c = NaN ∨ c = Num 0 ∨ c = Num 1) (series_map codes v).
Proof.
  intros Hcodes. unfold series_map. apply Forall_fmap, Forall_forall.
  intros c _. simpl. destruct c as [| |k]; [auto..|].
  destruct (dict_get k codes) as [m|] eqn:Hk; [|auto]. simpl.
  apply dict_get_Some_elem in Hk.
  pose proof (proj1 (Forall_forall _ _) Hcodes _ Hk) as Hm. simpl in Hm. tauto.
Qed.

Lemma setitem_series_id D c v :
  dict_get c (columns D) = Some v → df_setitem_series D c v = D.
Proof.
  intros H. unfold df_setitem_series. rewrite dict_set_get_id by done.
  by destruct D.
Qed.

Lemma filter_no_names {V : Type} (d : list (string * V)) :
  filter (λ c, c.1 ∉ []) d = d.
Proof.
  induction d as [|c d IH]; [done|].
  rewrite filter_cons, decide_True by apply not_elem_of_nil. by rewrite IH.
Qed.

(** No float is strictly below a nan. *)
Lemma ltb_is_nan (t p : float) :
  PrimFloat.is_nan p = true → PrimFloat.ltb t p = false.
Proof.
  intros Hp. rewrite FloatAxioms.ltb_spec.
  assert (FloatOps.Prim2SF p = SpecFloat.S754_nan) as ->
    by (unfold FloatOps.Prim2SF; by rewrite Hp).
  unfold SpecFloat.SFltb, SpecFloat.SFcompare.
  destruct (FloatOps.Prim2SF t) as [| | |[] ? ?]; reflexivity.
Qed.

(** In a frame without rows the fraction of missing cells of every column
    is 0/0, so no column is above the threshold. *)
Lemma drop_column_names_no_rows t D :
  Forall (λ c : string * list cell, c.2 = []) (columns D) →
  nrows D = 0 →
  drop_column_names t D = [].
Proof.
  intros Hcols Hrows. unfold drop_column_names, null_report. rewrite Hrows.
  induction Hcols as [|c d Hc _ IH]; [done|].
  csimpl. rewrite filter_cons. simpl. rewrite Hc.
  change (true_divide (isna_sum []) 0) with nan.
  rewrite ltb_is_nan by done. by rewrite decide_False.
Qed.

(** ** Every exit of [drop_missing_value_columns] *)

Section MissingValueColumnsExits.

Context (cfg : DataValidationConfig) (fit : list cell → result (list cell)).

Local Abbreviation threshold := (missing_threshold cfg).

(** The state of an exit of the categorical encoding after the frame [D']
    was stored: the goals left once the exception is named. *)
Ltac failure_exit Hnames Hg :=
  split; [reflexivity|]; split; [reflexivity|]; split; [reflexivity|];
  split; [exact Hnames|]; split; [reflexivity|];
  split; [intros ? (? & ? & ? & ?)%not_required_ne;
          by rewrite ?df_getitem_setitem_ne by done|];
  split; [intros Hno; by destruct (Hno _ eq_refl)|];
  intros ? [= <-]; rewrite ?df_getitem_setitem_ne by done;
  eapply df_getitem_setitem_eq; exact Hg.

(** X1. A call of [drop_missing_value_columns] on a frame [D] that raises
    has failed in the categorical encoding: a required column is absent
    ([KeyError]), a required label is carried by several columns, the label
    encoder raised, or its codes do not fit the rows.  The exception is
    wrapped once; nothing was recorded in the report, no file and no other
    object changed, and no column was dropped: the frame has the labels and
    rows of [D] and every column other than the four categorical ones as
    it was.  But when Genotype labels one column, that column of the
    caller's frame is already replaced by its codes. *)
Theorem drop_missing_value_columns_failure
    (s : State) (l : nat) (key : string) (D : DataFrame) (e : exn) (s' : State) :
  heap s !! l = Some D →
  drop_missing_value_columns cfg fit l key s = (Raise e, s') →
  ∃ cause D',
    e = MiceException cause "drop_missing_value_columns" ∧
    ((∃ k, cause = KeyError k ∧ k ∈ required_columns ∧ k ∉ column_names D) ∨
     (∃ k cols, k ∈ required_columns ∧ df_getitem D k = Ok (SubFrame cols)) ∨
     (∃ cls, df_getitem D "class" = Ok (Series cls) ∧
        (fit cls = Raise cause ∨
         ∃ codes, fit cls = Ok codes ∧ length codes ≠ nrows D ∧
           cause = ValueError "Length of values does not match length of index"))) ∧
    validation_error s' = validation_error s ∧
    files s' = files s ∧
    heap s' = <[l := D']> (heap s) ∧
    column_names D' = column_names D ∧
    nrows D' = nrows D ∧
    (∀ name, name ∉ required_columns →
       df_getitem D' name = df_getitem D name) ∧
    ((∀ g, df_getitem D "Genotype" ≠ Ok (Series g)) → D' = D) ∧
    (∀ g, df_getitem D "Genotype" = Ok (Series g) →
       df_getitem D' "Genotype" = Ok (Series (series_map Genotype_codes g))).
Proof.
  intros HD. rewrite (drop_missing_value_columns_eq _ _ _ _ _ _ HD).
  rewrite (categorical_encode_eq _ _ _ _ HD).
  assert (∀ k e0, k ∈ required_columns → df_getitem D k = Raise e0 →
            ∃ k', e0 = KeyError k' ∧ k' ∈ required_columns
                  ∧ k' ∉ column_names D) as Habsent.
  { intros k e0 Hk [-> ?]%df_getitem_Raise_inv. eauto. }
  destruct (df_getitem D "Genotype") as [[g|cols]|e0] eqn:Hg.
  2:{ intros [= <- <-]. eexists _, D. split; [done|].
      split; [right; left; exists "Genotype", cols; split;
              [repeat constructor|done]|].
      by rewrite list_insert_id. }
  2:{ intros [= <- <-]. eexists _, D. split; [done|].
      split; [left; apply (Habsent "Genotype"); [repeat constructor|done]|].
      by rewrite list_insert_id. }
  assert (column_names (df_setitem_series D "Genotype"
                          (series_map Genotype_codes g)) = column_names D) as Hn1.
  { apply setitem_series_names. by rewrite (df_getitem_Series_get _ _ _ Hg). }
  destruct (df_getitem D "Treatment") as [[t|cols]|e0] eqn:Ht.
  2:{ intros [= <- <-]. eexists _, _. split; [done|].
      split; [right; left; exists "Treatment", cols; split;
              [repeat constructor|done]|].
      failure_exit Hn1 Hg. }
  2:{ intros [= <- <-]. eexists _, _. split; [done|].
      split; [left; apply (Habsent "Treatment"); [repeat constructor|done]|].
      failure_exit Hn1 Hg. }
  assert (column_names
            (df_setitem_series
               (df_setitem_series D "Genotype" (series_map Genotype_codes g))
               "Treatment" (series_map Treatment_codes t)) = column_names D) as Hn2.
  { rewrite setitem_series_names; [done|]. simpl.
    rewrite dict_get_set_ne by done.
    by rewrite (df_getitem_Series_get _ _ _ Ht). }
  destruct (df_getitem D "Behavior") as [[b|cols]|e0] eqn:Hb.
  2:{ intros [= <- <-]. eexists _, _. split; [done|].
      split; [right; left; exists "Behavior", cols; split;
              [repeat constructor|done]|].
      failure_exit Hn2 Hg. }
  2:{ intros [= <- <-]. eexists _, _. split; [done|].
      split; [left; apply (Habsent "Behavior"); [repeat constructor|done]|].
      failure_exit Hn2 Hg. }
  assert (column_names
            (df_setitem_series
               (df_setitem_series
                  (df_setitem_series D "Genotype" (series_map Genotype_codes g))
                  "Treatment" (series_map Treatment_codes t))
               "Behavior" (series_map Behavior_codes b)) = column_names D) as Hn3.
  { rewrite setitem_series_names; [done|]. simpl.
    rewrite !dict_get_set_ne by done.
    by rewrite (df_getitem_Series_get _ _ _ Hb). }
  destruct (df_getitem D "class") as [[cls|cols]|e0] eqn:Hcls.
  2:{ intros [= <- <-]. eexists _, _. split; [done|].
      split; [right; left; exists "class", cols; split;
              [repeat constructor|done]|].
      failure_exit Hn3 Hg. }
  2:{ intros [= <- <-]. eexists _, _. split; [done|].
      split; [left; apply (Habsent "class"); [repeat constructor|done]|].
      failure_exit Hn3 Hg. }
  destruct (fit cls) as [codes|e0] eqn:Hfit.
  2:{ intros [= <- <-]. eexists e0, _. split; [done|].
      split; [right; right; exists cls; split; [done|]; by left|].
      failure_exit Hn3 Hg. }
  destruct (decide (length codes = nrows D)) as [Hlen|Hlen].
  - by rewrite (heap_set_frame _ _ _ _ HD).
  - intros [= <- <-]. eexists (ValueError _), _. split; [done|].
    split; [right; right; exists cls; split; [done|]; right; by exists codes|].
    failure_exit Hn3 Hg.
Qed.

(** X2. When [drop_missing_value_columns] returns, the columns are
    accounted for by name: the labels of the frame left and the names
    recorded under the report key are both in the order of the labels of
    [D], and a label of [D] is a label of the frame left exactly when it
    is not recorded. *)
Theorem drop_missing_value_columns_accounts_for_columns
    (s : State) (l : nat) (key : string) (D : DataFrame)
    (r : option nat) (s' : State) :
  heap s !! l = Some D →
  drop_missing_value_columns cfg fit l key s = (Ok r, s') →
  ∃ D' recorded,
    heap s' !! l = Some D' ∧
    dict_get key (validation_error s') = Some (ColumnList recorded) ∧
    sublist (column_names D') (column_names D) ∧
    sublist recorded (column_names D) ∧
    (∀ name, name ∈ column_names D' ↔ name ∈ column_names D ∧ name ∉ recorded).
Proof.
  intros HD Hrun.
  destruct (drop_missing_value_columns_Ok_inv _ _ _ _ _ _ _ _ HD Hrun)
    as (g & t & b & cls & codes & Hg & Ht & Hb & Hc & Hfit & Hlen & _ & -> & ->).
  set (E := encoded D g t b codes).
  assert (column_names E = column_names D) as HE
    by (apply encoded_names; eauto).
  exists (dropped threshold E), (drop_column_names threshold E).
  split; [simpl; apply list_lookup_insert_eq; by eapply lookup_lt_Some|].
  split; [simpl; by rewrite dict_get_set_eq|].
  rewrite <- HE. split; [|split].
  - unfold column_names, dropped. simpl. apply fmap_sublist, sublist_filter.
  - rewrite drop_column_names_exceeds. apply fmap_sublist, sublist_filter.
  - intros name. unfold column_names, dropped. simpl. apply names_filter_names.
Qed.

(** X3. When [drop_missing_value_columns] returns, a column other than
    Genotype, Treatment, Behavior and class is either gone, when its name
    was recorded, or holds exactly the cells it held before the call. *)
Theorem drop_missing_value_columns_keeps_other_cells
    (s : State) (l : nat) (key : string) (D : DataFrame)
    (r : option nat) (s' : State) :
  heap s !! l = Some D →
  drop_missing_value_columns cfg fit l key s = (Ok r, s') →
  ∃ D' recorded,
    heap s' !! l = Some D' ∧
    dict_get key (validation_error s') = Some (ColumnList recorded) ∧
    ∀ name, name ∉ required_columns →
      dict_get name (columns D')
      = if decide (name ∈ recorded) then None else dict_get name (columns D).
Proof.
  intros HD Hrun.
  destruct (drop_missing_value_columns_Ok_inv _ _ _ _ _ _ _ _ HD Hrun)
    as (g & t & b & cls & codes & Hg & Ht & Hb & Hc & Hfit & Hlen & _ & -> & ->).
  set (E := encoded D g t b codes).
  exists (dropped threshold E), (drop_column_names threshold E).
  split; [simpl; apply list_lookup_insert_eq; by eapply lookup_lt_Some|].
  split; [simpl; by rewrite dict_get_set_eq|].
  intros name (H1 & H2 & H3 & H4)%not_required_ne.
  rewrite dropped_get.
  destruct (decide (name ∈ drop_column_names threshold E)); [done|].
  unfold E, encoded. simpl. by rewrite !dict_get_set_ne.
Qed.

(** X4. When [drop_missing_value_columns] returns, each of the columns
    Genotype, Treatment and Behavior that is left in the frame holds only
    the codes 0 and 1 and missing cells, one per cell of the column before
    the call. *)
Theorem drop_missing_value_columns_codes
    (s : State) (l : nat) (key : string) (D : DataFrame)
    (r : option nat) (s' : State) :
  heap s !! l = Some D →
  drop_missing_value_columns cfg fit l key s = (Ok r, s') →
  ∃ D',
    heap s' !! l = Some D' ∧
    ∀ name v,
      name ∈ ["Genotype"; "Treatment"; "Behavior"] →
      dict_get name (columns D') = Some v →
      Forall (λ c, c = NaN ∨ c = Num 0 ∨ c = Num 1) v ∧
      ∃ v0, dict_get name (columns D) = Some v0 ∧ length v = length v0.
Proof.
  intros HD Hrun.
  destruct (drop_missing_value_columns_Ok_inv _ _ _ _ _ _ _ _ HD Hrun)
    as (g & t & b & cls & codes & Hg & Ht & Hb & Hc & Hfit & Hlen & _ & -> & ->).
  set (E := encoded D g t b codes).
  exists (dropped threshold E).
  split; [simpl; apply list_lookup_insert_eq; by eapply lookup_lt_Some|].
  intros name v Hin. rewrite dropped_get.
  destruct (decide (name ∈ drop_column_names threshold E)); [done|].
  unfold E, encoded. simpl columns.
  apply elem_of_cons in Hin as [->|Hin].
  { rewrite !dict_get_set_ne, dict_get_set_eq by done. intros [= <-].
    split; [apply series_map_range, literal_codes_numbers; repeat constructor|].
    exists g. by rewrite series_map_length. }
  apply elem_of_cons in Hin as [->|Hin].
  { rewrite !dict_get_set_ne, dict_get_set_eq by done. intros [= <-].
    split; [apply series_map_range, literal_codes_numbers; repeat constructor|].
    exists t. by rewrite series_map_length. }
  apply list_elem_of_singleton in Hin as ->.
  rewrite !dict_get_set_ne, dict_get_set_eq by done. intros [= <-].
  split; [apply series_map_range, literal_codes_numbers; repeat constructor|].
  exists b. by rewrite series_map_length.
Qed.

(** X5. [drop_missing_value_columns] is not idempotent.  When a second
    call on the same object returns, each of the columns Genotype,
    Treatment and Behavior that is still in the frame holds only missing
    cells: the literal dictionaries of lines 44 to 46 have no key among
    the codes that the first call wrote. *)
Theorem drop_missing_value_columns_twice
    (s : State) (l : nat) (key key' : string) (D : DataFrame)
    (r r' : option nat) (s1 s2 : State) :
  heap s !! l = Some D →
  drop_missing_value_columns cfg fit l key s = (Ok r, s1) →
  drop_missing_value_columns cfg fit l key' s1 = (Ok r', s2) →
  ∃ D2,
    heap s2 !! l = Some D2 ∧
    ∀ name v,
      name ∈ ["Genotype"; "Treatment"; "Behavior"] →
      dict_get name (columns D2) = Some v →
      Forall (λ c, c = NaN) v.
Proof.
  intros HD Hrun1 Hrun2.
  destruct (drop_missing_value_columns_Ok_inv _ _ _ _ _ _ _ _ HD Hrun1)
    as (g & t & b & cls & codes & Hg & Ht & Hb & Hc & Hfit & Hlen & _ & _ & ->).
  set (E1 := encoded D g t b codes) in *.
  assert (heap (after_drop cfg l key E1 s) !! l = Some (dropped threshold E1))
    as HD1 by (simpl; apply list_lookup_insert_eq; by eapply lookup_lt_Some).
  destruct (drop_missing_value_columns_Ok_inv _ _ _ _ _ _ _ _ HD1 Hrun2)
    as (g' & t' & b' & cls' & codes' & Hg' & Ht' & Hb' & _ & _ & _ & _ & _ & ->).
  assert (∀ name v0 v0' codes0,
            dict_get name (columns E1) = Some (series_map codes0 v0) →
            dict_get name (columns (dropped threshold E1)) = Some v0' →
            v0' = series_map codes0 v0) as Hfirst.
  { intros name v0 v0' codes0 HE. rewrite dropped_get, HE.
    destruct (decide (name ∈ drop_column_names threshold E1)); congruence. }
  apply (Hfirst _ g _ Genotype_codes) in Hg';
    [|unfold E1, encoded; simpl; by rewrite ?dict_get_set_ne, dict_get_set_eq by done].
  apply (Hfirst _ t _ Treatment_codes) in Ht';
    [|unfold E1, encoded; simpl; by rewrite ?dict_get_set_ne, dict_get_set_eq by done].
  apply (Hfirst _ b _ Behavior_codes) in Hb';
    [|unfold E1, encoded; simpl; by rewrite ?dict_get_set_ne, dict_get_set_eq by done].
  subst g' t' b'.
  eexists. split; [simpl; apply list_lookup_insert_eq; by eapply lookup_lt_Some|].
  assert (∀ codes0, codes0 ∈ [Genotype_codes; Treatment_codes; Behavior_codes] →
            Forall (λ kv : string * cell, ∀ s0, kv.2 ≠ Str s0) codes0) as Hnum.
  { intros codes0 H%literal_codes_numbers. eapply Forall_impl; [exact H|].
    intros kv [Hkv|Hkv] s0; by rewrite Hkv. }
  intros name v Hin. rewrite dropped_get.
  destruct (decide (name ∈ _)); [done|].
  unfold encoded. simpl columns.
  apply elem_of_cons in Hin as [->|Hin].
  { rewrite !dict_get_set_ne, dict_get_set_eq by done. intros [= <-].
    apply series_map_twice, Hnum. repeat constructor. }
  apply elem_of_cons in Hin as [->|Hin].
  { rewrite !dict_get_set_ne, dict_get_set_eq by done. intros [= <-].
    apply series_map_twice, Hnum. repeat constructor. }
  apply list_elem_of_singleton in Hin as ->.
  rewrite !dict_get_set_ne, dict_get_set_eq by done. intros [= <-].
  apply series_map_twice, Hnum. repeat constructor.
Qed.

(** X6. On a well-formed frame without rows that has the four categorical
    columns, [drop_missing_value_columns] drops nothing, whatever the
    threshold: every fraction of missing cells is 0/0, which is nan and
    above no threshold.  The call returns the frame as it was and records
    the empty list. *)
Theorem drop_missing_value_columns_no_rows
    (s : State) (l : nat) (key : string) (D : DataFrame) :
  heap s !! l = Some D →
  wf_df D →
  nrows D = 0 →
  (∀ c, c ∈ required_columns → c ∈ column_names D) →
  fit [] = Ok [] →
  drop_missing_value_columns cfg fit l key s
  = (Ok (Some l),
     mkState (heap s) (dict_set key (ColumnList []) (validation_error s))
             (files s)).
Proof.
  intros HD [Hnd Hwf] Hrows Hreq Hfit.
  assert (∀ c, c ∈ required_columns → dict_get c (columns D) = Some []) as Hcol.
  { intros c [v Hv]%Hreq%dict_get_is_Some. rewrite Hv. f_equal.
    apply dict_get_Some_elem in Hv.
    pose proof (proj1 (Forall_forall _ _) Hwf _ Hv) as Hlen. simpl in Hlen.
    apply nil_length_inv. by rewrite Hlen. }
  assert (dict_get "Genotype" (columns D) = Some []) as Hg
    by (apply Hcol; repeat constructor).
  assert (dict_get "Treatment" (columns D) = Some []) as Ht
    by (apply Hcol; repeat constructor).
  assert (dict_get "Behavior" (columns D) = Some []) as Hb
    by (apply Hcol; repeat constructor).
  assert (dict_get "class" (columns D) = Some []) as Hc
    by (apply Hcol; repeat constructor).
  rewrite (drop_missing_value_columns_run cfg fit l key s D [] [] [] [] []
             HD (df_getitem_NoDup _ _ _ Hnd Hg) (df_getitem_NoDup _ _ _ Hnd Ht)
             (df_getitem_NoDup _ _ _ Hnd Hb) (df_getitem_NoDup _ _ _ Hnd Hc)
             Hfit (eq_sym Hrows)).
  assert (encoded D [] [] [] [] = D) as ->.
  { assert (∀ codes, series_map codes [] = []) as Hnil by done.
    unfold encoded. rewrite !Hnil.
    by rewrite (setitem_series_id D "Genotype" [] Hg),
      (setitem_series_id D "Treatment" [] Ht),
      (setitem_series_id D "Behavior" [] Hb),
      (setitem_series_id D "class" [] Hc). }
  assert (drop_column_names threshold D = []) as Hnone.
  { apply drop_column_names_no_rows; [|done].
    eapply Forall_impl; [exact Hwf|]. intros c Hlen. simpl in Hlen.
    apply nil_length_inv. by rewrite Hlen. }
  assert (dropped threshold D = D) as Hsame.
  { unfold dropped. rewrite Hnone, filter_no_names. by destruct D. }
  unfold returned, after_drop. rewrite Hsame, Hnone.
  rewrite list_insert_id by done. rewrite decide_False; [done|].
  intros Hlen%nil_length_inv.
  specialize (Hreq "Genotype" ltac:(repeat constructor)).
  rewrite Hlen in Hreq. by apply not_elem_of_nil in Hreq.
Qed.

End MissingValueColumnsExits.

(** ** Every exit of the schema check *)

(** X7. [is_required_columns_exists] on arguments that are frames or
    [None]: however it ends, no frame, no file and no entry of the report
    under another key changes.  It raises exactly when an argument is
    [None]; the exception is then the [AttributeError] of [None.columns],
    wrapped once, and the state is as before.  When it returns [True]
    nothing at all changes, so an older entry under the key stays in the
    report. *)
Theorem is_required_columns_exists_outcomes
    (base_df current_df : option nat) (key : string) (s : State) :
  (∀ l, base_df = Some l ∨ current_df = Some l → is_Some (heap s !! l)) →
  let run := is_required_columns_exists base_df current_df key s in
  heap run.2 = heap s ∧
  files run.2 = files s ∧
  (∀ k, k ≠ key →
     dict_get k (validation_error run.2) = dict_get k (validation_error s)) ∧
  ((∃ e, run.1 = Raise e) ↔ base_df = None ∨ current_df = None) ∧
  (∀ e, run.1 = Raise e →
     e = MiceException (AttributeError "columns") "is_required_columns_exists"
     ∧ run.2 = s) ∧
  (run.1 = Ok true → run.2 = s).
Proof.
  intros Hvalid run.
  split; [apply (preserved_is_required_columns_exists heap), ignores_key_heap|].
  split; [apply (preserved_is_required_columns_exists files), ignores_key_files|].
  split.
  { intros k Hne.
    apply (preserved_is_required_columns_exists (report_entry k)).
    by apply ignores_key_report_entry. }
  unfold run, is_required_columns_exists, try_wrap, mbind, M_bind, bind.
  destruct base_df as [b|]; simpl.
  2:{ split; [split; eauto|]. split; [by intros e [= <-]|done]. }
  destruct (Hvalid b) as [B HB]; [by left|].
  rewrite (deref_run _ _ _ HB).
  destruct current_df as [c|]; simpl.
  2:{ split; [split; eauto|]. split; [by intros e [= <-]|done]. }
  destruct (Hvalid c) as [C HC]; [by right|].
  rewrite (deref_run _ _ _ HC).
  destruct (decide (0 < length (collect_missing (column_names B) (column_names C))));
    simpl.
  - split; [split; [by intros [? ?]|by intros [?|?]]|]. done.
  - split; [split; [by intros [? ?]|by intros [?|?]]|]. done.
Qed.

(** ** Every exit of the drift detection *)

Section DataDriftExits.

Context (ks : list cell → list cell → result float).

(** The loop raises at the first base column on which a lookup or the test
    raises; the report then holds, under the key, the entries of the
    columns before it, or is as it was when the first column fails. *)
Lemma drift_loop_raise B C key pre n rest acc s e :
  (∀ m, m ∈ pre → ∃ p, column_pvalue ks B C m = Ok p) →
  column_pvalue ks B C n = Raise e →
  drift_loop ks B C key (pre ++ n :: rest)%list acc s
  = (Raise e,
     mkState (heap s)
             (match pre with
              | [] => validation_error s
              | _ :: _ =>
                  dict_set key (DriftReport (drift_report_after ks B C pre acc))
                           (validation_error s)
              end)
             (files s)).
Proof.
  revert acc s. induction pre as [|m pre IH]; intros acc s Hok Hn.
  - simpl app. rewrite drift_loop_step, Hn. by destruct s.
  - destruct (Hok m) as [p Hp]; [left|].
    assert (∀ m', m' ∈ pre → ∃ p, column_pvalue ks B C m' = Ok p) as Hpre
      by (intros; apply Hok; by right).
    simpl app. rewrite drift_loop_step, Hp, (IH _ _ Hpre Hn).
    unfold drift_report_after. simpl foldl. rewrite Hp. simpl.
    destruct pre; [done|]. by rewrite dict_set_set.
Qed.

Lemma drift_loop_Raise_inv B C key cols acc s e s' :
  drift_loop ks B C key cols acc s = (Raise e, s') →
  ∃ n, n ∈ cols ∧ column_pvalue ks B C n = Raise e.
Proof.
  revert acc s. induction cols as [|m rest IH]; intros acc s; [done|].
  rewrite drift_loop_step.
  destruct (column_pvalue ks B C m) as [p|e1] eqn:Hp.
  - intros (n & Hin & Hn)%IH. exists n. split; [by right|done].
  - intros [= <- <-]. exists m. split; [left|done].
Qed.

(** The keys of the drift report are the base columns in their order. *)
Lemma drift_report_after_keys B C cols acc :
  NoDup (acc.*1 ++ cols)%list →
  (∀ n, n ∈ cols → ∃ p, column_pvalue ks B C n = Ok p) →
  (drift_report_after ks B C cols acc).*1 = (acc.*1 ++ cols)%list.
Proof.
  revert acc. induction cols as [|m rest IH]; intros acc Hnd Hok.
  - by rewrite app_nil_r.
  - destruct (Hok m) as [p Hp]; [left|].
    unfold drift_report_after. simpl foldl. rewrite Hp.
    fold (drift_report_after ks B C rest (dict_set m (drift_entry p) acc)).
    assert (m ∉ acc.*1) as Hm.
    { apply NoDup_app in Hnd as (_ & Hdisj & _). intros Hin.
      apply (Hdisj _ Hin). left. }
    rewrite IH.
    + rewrite dict_set_keys_notin by done. by rewrite <- app_assoc.
    + rewrite dict_set_keys_notin by done. by rewrite <- app_assoc.
    + intros; apply Hok; by right.
Qed.

(** X8. A call of [data_drift] that follows a schema check that returned
    [True] for the same two frames, both with pairwise distinct labels, can
    raise only through the two-sample test: every base column is found
    once in both frames, so the exception is the one that [ks_2samp] raised
    on a base column, wrapped once. *)
Theorem data_drift_after_schema_check
    (s : State) (b c : nat) (B C : DataFrame) (key key' : string)
    (s1 : State) (e : exn) (s2 : State) :
  heap s !! b = Some B →
  heap s !! c = Some C →
  NoDup (column_names B) →
  NoDup (column_names C) →
  is_required_columns_exists (Some b) (Some c) key s = (Ok true, s1) →
  data_drift ks (Some b) (Some c) key' s1 = (Raise e, s2) →
  ∃ n base_data current_data cause,
    n ∈ column_names B ∧
    df_getitem B n = Ok (Series base_data) ∧
    df_getitem C n = Ok (Series current_data) ∧
    ks base_data current_data = Raise cause ∧
    e = MiceException cause "data_drift".
Proof.
  intros HB HC HndB HndC Hcheck Hdrift.
  apply is_required_columns_exists_Ok_inv in Hcheck
    as (b' & c' & B' & C' & [= <-] & [= <-] & HB' & HC' & Hv & Hh & _).
  assert (B' = B) as -> by congruence. assert (C' = C) as -> by congruence.
  cbv zeta in Hv.
  destruct (decide (0 < length (filter (λ n, n ∉ column_names C)
                                       (column_names B)))) as [|Hall];
    [done|].
  pose proof (proj1 (filter_missing_nil _ _) Hall) as Hcomplete.
  rewrite <- Hh in HB, HC.
  unfold data_drift, try_wrap in Hdrift. simpl frame_of in Hdrift.
  rewrite (bind_run _ _ _ _ _ (deref_run _ _ _ HB)) in Hdrift.
  rewrite (bind_run _ _ _ _ _ (deref_run _ _ _ HC)) in Hdrift.
  destruct (drift_loop ks B C key' (column_names B) [] s1) as [[u|cause] s3]
    eqn:Hloop; [done|].
  injection Hdrift as <- <-.
  apply drift_loop_Raise_inv in Hloop as (n & Hin & Hn).
  destruct (proj2 (dict_get_is_Some n (columns B)) Hin) as [vb Hvb].
  destruct (proj2 (dict_get_is_Some n (columns C)) (Hcomplete n Hin)) as [vc Hvc].
  apply (df_getitem_NoDup _ _ _ HndB) in Hvb.
  apply (df_getitem_NoDup _ _ _ HndC) in Hvc.
  exists n, vb, vc, cause. repeat (split; [done|]). split; [|done].
  unfold column_pvalue in Hn. by rewrite Hvb, Hvc in Hn.
Qed.

(** X9. A call of [data_drift] that fails on a base column after the
    columns [pre] went through leaves a partial drift report in the
    validator: the entries of [pre] stand under the key, where they replace
    an older entry; when the first column fails the report is as before.
    The exception is the one of the failing column, wrapped once. *)
Theorem data_drift_partial_report
    (s : State) (b c : nat) (B C : DataFrame) (key : string)
    (pre : list string) (n : string) (rest : list string) (cause : exn) :
  heap s !! b = Some B →
  heap s !! c = Some C →
  column_names B = (pre ++ n :: rest)%list →
  (∀ m, m ∈ pre → ∃ p, column_pvalue ks B C m = Ok p) →
  column_pvalue ks B C n = Raise cause →
  data_drift ks (Some b) (Some c) key s
  = (Raise (MiceException cause "data_drift"),
     mkState (heap s)
             (match pre with
              | [] => validation_error s
              | _ :: _ =>
                  dict_set key (DriftReport (drift_report_after ks B C pre []))
                           (validation_error s)
              end)
             (files s)).
Proof.
  intros HB HC Hcols Hpre Hn. unfold data_drift, try_wrap. simpl frame_of.
  rewrite (bind_run _ _ _ _ _ (deref_run _ _ _ HB)).
  rewrite (bind_run _ _ _ _ _ (deref_run _ _ _ HC)).
  by rewrite Hcols, (drift_loop_raise _ _ _ _ _ _ _ _ _ Hpre Hn).
Qed.

(** X10. When the test returns a p-value on every column of a base frame
    with pairwise distinct labels, the drift report that [data_drift]
    stores has one entry per base column, in the order of the base frame;
    it is stored under the key in the place of an older entry, or last,
    and nothing else changes. *)
Theorem data_drift_report_order
    (s : State) (b c : nat) (B C : DataFrame) (key : string) :
  heap s !! b = Some B →
  heap s !! c = Some C →
  NoDup (column_names B) →
  column_names B ≠ [] →
  (∀ n, n ∈ column_names B → ∃ p, column_pvalue ks B C n = Ok p) →
  ∃ entries,
    data_drift ks (Some b) (Some c) key s
    = (Ok (),
       mkState (heap s)
               (dict_set key (DriftReport entries) (validation_error s))
               (files s)) ∧
    entries.*1 = column_names B.
Proof.
  intros HB HC Hnd Hne Hok.
  exists (drift_report_after ks B C (column_names B) []). split.
  - unfold data_drift. apply try_wrap_run. simpl frame_of.
    rewrite (bind_run _ _ _ _ _ (deref_run _ _ _ HB)).
    rewrite (bind_run _ _ _ _ _ (deref_run _ _ _ HC)).
    rewrite (drift_loop_run _ _ _ _ _ _ _ Hok). by destruct (column_names B).
  - by rewrite drift_report_after_keys.
Qed.

(** X11. [data_drift] on arguments that are frames or [None]: however it
    ends, no frame, no file and no entry of the report under another key
    changes; with an argument that is [None] it raises the [AttributeError]
    of [None.columns], wrapped once, and changes nothing. *)
Theorem data_drift_touches_only_its_entry
    (base_df current_df : option nat) (key : string) (s : State) :
  (∀ l, base_df = Some l ∨ current_df = Some l → is_Some (heap s !! l)) →
  let run := data_drift ks base_df current_df key s in
  heap run.2 = heap s ∧
  files run.2 = files s ∧
  (∀ k, k ≠ key →
     dict_get k (validation_error run.2) = dict_get k (validation_error s)) ∧
  (base_df = None ∨ current_df = None →
     run = (Raise (MiceException (AttributeError "columns") "data_drift"), s)).
Proof.
  intros Hvalid run.
  split; [apply (preserved_data_drift ks heap), ignores_key_heap|].
  split; [apply (preserved_data_drift ks files), ignores_key_files|].
  split.
  { intros k Hne. apply (preserved_data_drift ks (report_entry k)).
    by apply ignores_key_report_entry. }
  unfold run, data_drift, try_wrap, mbind, M_bind, bind.
  destruct base_df as [b|]; simpl; [|done].
  destruct (Hvalid b) as [B HB]; [by left|].
  rewrite (deref_run _ _ _ HB).
  destruct current_df as [c|]; simpl; [|done].
  by intros [?|?].
Qed.

(** X12. A p-value that is nan is above no level: the column is recorded
    with [same_distribution] false. *)
Theorem data_drift_nan_pvalue
    (s : State) (b c : nat) (B C : DataFrame) (key : string)
    (n : string) (p : float) :
  heap s !! b = Some B →
  heap s !! c = Some C →
  (∀ m, m ∈ column_names B → ∃ q, column_pvalue ks B C m = Ok q) →
  n ∈ column_names B →
  column_pvalue ks B C n = Ok p →
  PrimFloat.is_nan p = true →
  ∃ s' entries,
    data_drift ks (Some b) (Some c) key s = (Ok (), s') ∧
    dict_get key (validation_error s') = Some (DriftReport entries) ∧
    dict_get n entries = Some (mkDrift p false).
Proof.
  intros HB HC Hok Hin Hp Hnan.
  eexists _, (drift_report_after ks B C (column_names B) []). split; [|split].
  - unfold data_drift. apply try_wrap_run. simpl frame_of.
    rewrite (bind_run _ _ _ _ _ (deref_run _ _ _ HB)).
    rewrite (bind_run _ _ _ _ _ (deref_run _ _ _ HC)).
    by apply drift_loop_run.
  - cbn [validation_error]. destruct (column_names B) as [|n0 rest];
      [by apply not_elem_of_nil in Hin|].
    by rewrite dict_get_set_eq.
  - rewrite drift_report_after_get by done. rewrite decide_True by done.
    rewrite Hp. unfold drift_entry. by rewrite ltb_is_nan.
Qed.

End DataDriftExits.

(** ** Every exit of the first steps of a run *)

Section FirstSteps.

Context (cfg : DataValidationConfig) (ingestion : DataIngestionArtifact)
  (TARGET_COLUMN : string)
  (fit : list cell → result (list cell))
  (ks : list cell → list cell → result float)
  (parse : string → result DataFrame)
  (astype : list cell → result (list cell))
  (dump : list (string * Finding) → string)
  (writable : string → bool).

Local Abbreviation steps :=
  (validation_steps cfg ingestion TARGET_COLUMN fit ks parse astype dump writable).
Local Abbreviation initiate :=
  (initiate_data_validation cfg ingestion TARGET_COLUMN fit ks parse astype dump
     writable).

Lemma read_csv_run path s text D :
  files s !! path = Some text →
  parse text = Ok D →
  read_csv parse path s
  = (Ok (length (heap s)),
     mkState (heap s ++ [D])%list (validation_error s) (files s)).
Proof.
  intros Hfile Hparse. unfold read_csv. rewrite Hfile.
  unfold mbind, M_bind, bind, lift. by rewrite Hparse.
Qed.

Lemma read_csv_raise path s cause :
  (files s !! path = None ∧ cause = FileNotFoundError path) ∨
  (∃ text, files s !! path = Some text ∧ parse text = Raise cause) →
  read_csv parse path s = (Raise cause, s).
Proof.
  unfold read_csv. intros [[-> ->]|(text & -> & Hparse)]; [done|].
  unfold mbind, M_bind, bind, lift. by rewrite Hparse.
Qed.

Lemma df_drop_absent name D :
  name ∉ column_names D → df_drop [name] D = Raise (KeyError name).
Proof.
  intros Hnot. unfold df_drop. by rewrite filter_cons, decide_True.
Qed.

Lemma df_drop_present name D :
  name ∈ column_names D →
  df_drop [name] D
  = Ok (mkDF (nrows D) (filter (λ c, c.1 ∉ [name]) (columns D))).
Proof.
  intros Hin. unfold df_drop. rewrite filter_cons, decide_False; [done|].
  by intros Hnot.
Qed.

(** X13. A run whose base file is missing, cannot be parsed, or holds a
    frame without the column MouseID ends at line 125 or 126: the
    exception is the [FileNotFoundError], the parser's exception or the
    [KeyError] of MouseID, wrapped once by [initiate_data_validation];
    the validator's report and the files are as before. *)
Theorem initiate_data_validation_base_file_errors (s : State) (cause : exn) :
  (files s !! base_file_path cfg = None ∧
   cause = FileNotFoundError (base_file_path cfg)) ∨
  (∃ text, files s !! base_file_path cfg = Some text ∧
     (parse text = Raise cause ∨
      ∃ D, parse text = Ok D ∧ ("MouseID" ∉ column_names D) ∧
           cause = KeyError "MouseID")) →
  ∃ s',
    initiate s = (Raise (MiceException cause "initiate_data_validation"), s') ∧
    validation_error s' = validation_error s ∧
    files s' = files s.
Proof.
  intros Hcase. unfold initiate_data_validation, try_wrap, validation_steps.
  assert ((files s !! base_file_path cfg = None ∧
           cause = FileNotFoundError (base_file_path cfg)) ∨
          (∃ text, files s !! base_file_path cfg = Some text ∧
                   parse text = Raise cause) ∨
          (∃ text D, files s !! base_file_path cfg = Some text ∧
                     parse text = Ok D ∧ ("MouseID" ∉ column_names D) ∧
                     cause = KeyError "MouseID")) as [H|[H|H]].
  { destruct Hcase as [?|(text & ? & [?|(D & ? & ? & ?)])]; eauto 10. }
  - rewrite (bind_raise _ _ _ _ _ (read_csv_raise _ _ _ (or_introl H))). eauto.
  - rewrite (bind_raise _ _ _ _ _ (read_csv_raise _ _ _ (or_intror H))). eauto.
  - destruct H as (text & D & Hfile & Hparse & Hnot & ->).
    rewrite (bind_run _ _ _ _ _ (read_csv_run _ _ _ _ Hfile Hparse)).
    assert (drop_columns_new (length (heap s)) ["MouseID"]
              (mkState (heap s ++ [D])%list (validation_error s) (files s))
            = (Raise (KeyError "MouseID"),
               mkState (heap s ++ [D])%list (validation_error s) (files s)))
      as Hdrop.
    { unfold drop_columns_new, mbind, M_bind, bind, deref, lift. simpl heap.
      by rewrite lookup_snoc_new, df_drop_absent. }
    rewrite (bind_raise _ _ _ _ _ Hdrop). eauto.
Qed.

(** X14. An exception of [drop_missing_value_columns] reaches the caller
    of [initiate_data_validation] wrapped twice.  When the base file holds
    a frame with the column MouseID that lacks one of the four categorical
    columns, the run ends with the exception of the encoding inside the
    [MiceException] of [drop_missing_value_columns] inside the one of
    [initiate_data_validation]; the report and the files are as before.
    For a frame with pairwise distinct labels, as [pandas.read_csv] gives,
    the innermost exception is the [KeyError] of a required column that
    the frame lacks. *)
Theorem initiate_data_validation_wraps_twice
    (s : State) (text : string) (D : DataFrame) :
  files s !! base_file_path cfg = Some text →
  parse text = Ok D →
  "MouseID" ∈ column_names D →
  (∃ c, c ∈ required_columns ∧ c ∉ column_names D) →
  ∃ cause s',
    initiate s
    = (Raise (MiceException
                (MiceException cause "drop_missing_value_columns")
                "initiate_data_validation"), s') ∧
    validation_error s' = validation_error s ∧
    files s' = files s ∧
    (NoDup (column_names D) →
     ∃ k, cause = KeyError k ∧ k ∈ required_columns ∧ k ∉ column_names D).
Proof.
  intros Hfile Hparse Hid (c & Hc & Hnot).
  unfold initiate_data_validation, try_wrap, validation_steps.
  rewrite (bind_run _ _ _ _ _ (read_csv_run _ _ _ _ Hfile Hparse)).
  set (D0 := mkDF (nrows D) (filter (λ c, c.1 ∉ ["MouseID"]) (columns D))).
  set (s1 := mkState (heap s ++ [D])%list (validation_error s) (files s)).
  set (s2 := mkState ((heap s ++ [D]) ++ [D0])%list (validation_error s) (files s)).
  assert (drop_columns_new (length (heap s)) ["MouseID"] s1
          = (Ok (length (heap s1)), s2)) as Hdrop.
  { unfold drop_columns_new, mbind, M_bind, bind, deref, lift, s1. simpl heap.
    by rewrite lookup_snoc_new, df_drop_present. }
  rewrite (bind_run _ _ _ _ _ Hdrop).
  assert (replace_inplace (length (heap s1)) "na" s2
          = (Ok (), set_frame (length (heap s1)) (df_replace "na" D0) s2))
    as Hreplace.
  { unfold replace_inplace, mbind, M_bind, bind, deref, s2, s1. simpl heap.
    by rewrite lookup_snoc_new. }
  rewrite (bind_run _ _ _ _ _ Hreplace).
  assert (heap (set_frame (length (heap s1)) (df_replace "na" D0) s2)
            !! length (heap s1) = Some (df_replace "na" D0)) as Hheap.
  { apply (heap_set_frame _ _ _ D0). unfold s2, s1. simpl heap.
    by rewrite lookup_snoc_new. }
  assert (∀ k, k ∈ column_names (df_replace "na" D0)
               ↔ k ∈ column_names D ∧ k ∉ ["MouseID"]) as Hnames.
  { intros k. rewrite df_replace_names. unfold column_names, D0. simpl columns.
    apply names_filter_names. }
  destruct (drop_missing_value_columns_absent cfg fit
              (length (heap s1)) "missing_values_within_base_dataset" _ _ Hheap)
    as (cause & D' & Hrun & Hcause).
  { exists c. split; [done|]. intros Hin. apply Hnot.
    by apply Hnames in Hin as [? _]. }
  rewrite (bind_raise _ _ _ _ _ Hrun).
  exists cause. eexists. split; [done|]. split; [done|]. split; [done|].
  intros Hnd. destruct Hcause as (k & -> & Hk & Hk').
  { rewrite df_replace_names. unfold column_names, D0. simpl columns.
    by apply NoDup_fst_filter. }
  exists k. split; [done|]. split; [done|].
  intros Hin. apply Hk', Hnames. split; [done|].
  intros ->%list_elem_of_singleton.
  repeat (apply elem_of_cons in Hk as [?|Hk]; [done|]).
  by apply not_elem_of_nil in Hk.
Qed.

(** X15. The report of a run of a new validator in which no step raises
    has exactly five entries: the three lists of dropped columns, in the
    order base, train, test, and then one entry per candidate.  The two
    missing-columns entries are written before the two drift entries, so a
    test frame with an incomplete schema has its entry before the drift
    entry of a complete train frame. *)
Theorem initiate_data_validation_report_keys
    (s : State) (a : DataValidationArtifact) (s' : State) :
  validation_error s = [] →
  initiate s = (Ok a, s') →
  ∃ B T U,
    heap s' !! (length (heap s) + 1) = Some B ∧
    heap s' !! (length (heap s) + 2) = Some T ∧
    heap s' !! (length (heap s) + 3) = Some U ∧
    (validation_error s').*1
    = (["missing_values_within_base_dataset";
        "missing_values_within_train_dataset";
        "missing_values_within_test_dataset"] ++
       if decide (Forall (λ n, n ∈ column_names T) (column_names B))
       then if decide (Forall (λ n, n ∈ column_names U) (column_names B))
            then ["data_drift_within_train_dataset";
                  "data_drift_within_test_dataset"]
            else ["missing_columns_within_test_dataset";
                  "data_drift_within_train_dataset"]
       else if decide (Forall (λ n, n ∈ column_names U) (column_names B))
            then ["missing_columns_within_train_dataset";
                  "data_drift_within_test_dataset"]
            else ["missing_columns_within_train_dataset";
                  "missing_columns_within_test_dataset"])%list.
Proof.
  intros Hnew Hrun%try_wrap_Ok_inv.
  apply validation_steps_Ok_inv in Hrun
    as (textB & textT & textU & Braw & T0 & U0 & B & T & U & nb & nt & nu &
        _ & _ & _ & _ & _ & _ & _ & HB & HT & HU & _ & Hve).
  exists B, T, U. repeat (split; [done|]).
  rewrite Hve, Hnew. unfold report_of, checked_report.
  pose proof (filter_missing_nil (column_names B) (column_names T)) as HcT.
  pose proof (filter_missing_nil (column_names B) (column_names U)) as HcU.
  rewrite <- Forall_forall in HcT, HcU.
  destruct (decide (0 < length (filter (λ n, n ∉ column_names T)
                                       (column_names B))));
    destruct (decide (0 < length (filter (λ n, n ∉ column_names U)
                                         (column_names B))));
    destruct (decide (Forall (λ n, n ∈ column_names T) (column_names B)));
    destruct (decide (Forall (λ n, n ∈ column_names U) (column_names B)));
    try reflexivity; exfalso; tauto.
Qed.

(** X16. However a run of [initiate_data_validation] ends, it leaves
    every entry of the validator's report under a key other than its own
    seven keys as it was: findings of an earlier run under other keys are
    neither removed nor changed. *)
Theorem initiate_data_validation_touches_only_its_keys (s : State) (key : string) :
  key ∉ ["missing_values_within_base_dataset";
         "missing_values_within_train_dataset";
         "missing_values_within_test_dataset";
         "missing_columns_within_train_dataset";
         "missing_columns_within_test_dataset";
         "data_drift_within_train_dataset";
         "data_drift_within_test_dataset"] →
  dict_get key (validation_error (initiate s).2)
  = dict_get key (validation_error s).
Proof.
  intros Hkey.
  assert (∀ k, k ∈ ["missing_values_within_base_dataset";
                    "missing_values_within_train_dataset";
                    "missing_values_within_test_dataset";
                    "missing_columns_within_train_dataset";
                    "missing_columns_within_test_dataset";
                    "data_drift_within_train_dataset";
                    "data_drift_within_test_dataset"] →
               ignores_key (report_entry key) k) as Hk.
  { intros k Hin. apply ignores_key_report_entry. by intros ->. }
  assert (preserved (report_entry key)
            (load_and_check cfg ingestion TARGET_COLUMN fit parse astype
               ≫= λ '(b, t, u, vt, vu),
                    detect_and_report cfg ks dump writable b t u vt vu)) as Hp.
  { apply preserved_bind.
    - apply preserved_load_and_check;
        [apply ignores_heap_report_entry|..]; apply Hk; set_unfold; tauto.
    - intros [[[[b t] u] vt] vu]. apply preserved_detect_and_report;
        [intros _; apply Hk; set_unfold; tauto..|].
      apply ignores_file_report_entry. }
  specialize (Hp s). rewrite <- validation_steps_split in Hp.
  unfold initiate_data_validation, try_wrap.
  by destruct (steps s) as [[a|e] s'].
Qed.

End FirstSteps.

(** ** The further properties on example frames *)

(** A frame with the Genotype column only: the call fails at line 45,
    after line 44 has overwritten the Genotype column. *)
Lemma drop_missing_value_columns_failure_witness :
  let D := mkDF 1 [("Genotype", [Str "Control"]); ("A", [Example.n 1])] in
  let s := mkState [D] [] ∅ in
  let fit := Sklearn.fit_transform in
  let s' := mkState [mkDF 1 [("Genotype", [Num 0]); ("A", [Example.n 1])]] [] ∅ in
  ∃ cause D',
    MiceException (KeyError "Treatment") "drop_missing_value_columns"
    = MiceException cause "drop_missing_value_columns" ∧
    ((∃ k, cause = KeyError k ∧ k ∈ required_columns ∧ k ∉ column_names D) ∨
     (∃ k cols, k ∈ required_columns ∧ df_getitem D k = Ok (SubFrame cols)) ∨
     (∃ cls, df_getitem D "class" = Ok (Series cls) ∧
        (fit cls = Raise cause ∨
         ∃ codes, fit cls = Ok codes ∧ length codes ≠ nrows D ∧
           cause = ValueError "Length of values does not match length of index"))) ∧
    validation_error s' = validation_error s ∧
    files s' = files s ∧
    heap s' = <[0 := D']> (heap s) ∧
    column_names D' = column_names D ∧
    nrows D' = nrows D ∧
    (∀ name, name ∉ required_columns →
       df_getitem D' name = df_getitem D name) ∧
    ((∀ g, df_getitem D "Genotype" ≠ Ok (Series g)) → D' = D) ∧
    (∀ g, df_getitem D "Genotype" = Ok (Series g) →
       df_getitem D' "Genotype" = Ok (Series (series_map Genotype_codes g))).
Proof.
  apply (drop_missing_value_columns_failure Example.config Sklearn.fit_transform
           (mkState [mkDF 1 [("Genotype", [Str "Control"]); ("A", [Example.n 1])]]
                    [] ∅)
           0 "dropped");
    reflexivity.
Defined.

Lemma drop_missing_value_columns_accounts_for_columns_witness :
  let D := Example.unmapped_frame in
  let s := mkState [D] [] ∅ in
  let s' := (drop_missing_value_columns Example.config Sklearn.fit_transform
               0 "dropped" s).2 in
  ∃ D' recorded,
    heap s' !! 0 = Some D' ∧
    dict_get "dropped" (validation_error s') = Some (ColumnList recorded) ∧
    sublist (column_names D') (column_names D) ∧
    sublist recorded (column_names D) ∧
    (∀ name, name ∈ column_names D' ↔ name ∈ column_names D ∧ name ∉ recorded).
Proof.
  apply (drop_missing_value_columns_accounts_for_columns
           Example.config Sklearn.fit_transform
           (mkState [Example.unmapped_frame] [] ∅) 0 "dropped"
           Example.unmapped_frame (Some 0)).
  - reflexivity.
  - vm_compute. reflexivity.
Defined.

Lemma drop_missing_value_columns_keeps_other_cells_witness :
  let D := Example.train_frame in
  let s := mkState [D] [] ∅ in
  let s' := (drop_missing_value_columns Example.config Sklearn.fit_transform
               0 "dropped" s).2 in
  ∃ D' recorded,
    heap s' !! 0 = Some D' ∧
    dict_get "dropped" (validation_error s') = Some (ColumnList recorded) ∧
    ∀ name, name ∉ required_columns →
      dict_get name (columns D')
      = if decide (name ∈ recorded) then None else dict_get name (columns D).
Proof.
  apply (drop_missing_value_columns_keeps_other_cells
           Example.config Sklearn.fit_transform
           (mkState [Example.train_frame] [] ∅) 0 "dropped"
           Example.train_frame (Some 0)).
  - reflexivity.
  - vm_compute. reflexivity.
Defined.

Lemma drop_missing_value_columns_codes_witness :
  let D := Example.train_frame in
  let s := mkState [D] [] ∅ in
  let s' := (drop_missing_value_columns Example.config Sklearn.fit_transform
               0 "dropped" s).2 in
  ∃ D',
    heap s' !! 0 = Some D' ∧
    ∀ name v,
      name ∈ ["Genotype"; "Treatment"; "Behavior"] →
      dict_get name (columns D') = Some v →
      Forall (λ c, c = NaN ∨ c = Num 0 ∨ c = Num 1) v ∧
      ∃ v0, dict_get name (columns D) = Some v0 ∧ length v = length v0.
Proof.
  apply (drop_missing_value_columns_codes
           Example.config Sklearn.fit_transform
           (mkState [Example.train_frame] [] ∅) 0 "dropped"
           Example.train_frame (Some 0)).
  - reflexivity.
  - vm_compute. reflexivity.
Defined.

(** With the threshold 1 no column is dropped, and the second call finds
    the three mapped columns and empties them. *)
Lemma drop_missing_value_columns_twice_witness :
  let cfg := mkConfig 1 "base.csv" "report.yaml" in
  let D := mkDF 2 [("Genotype", [Str "Control"; Str "Ts65Dn"]);
                   ("Treatment", [Str "Saline"; Str "Memantine"]);
                   ("Behavior", [Str "C/S"; Str "S/C"]);
                   ("class", [Str "c-CS-s"; Str "t-SC-m"])] in
  let s := mkState [D] [] ∅ in
  let s1 := (drop_missing_value_columns cfg Sklearn.fit_transform 0 "first" s).2 in
  let s2 := (drop_missing_value_columns cfg Sklearn.fit_transform 0 "second" s1).2 in
  ∃ D2,
    heap s2 !! 0 = Some D2 ∧
    ∀ name v,
      name ∈ ["Genotype"; "Treatment"; "Behavior"] →
      dict_get name (columns D2) = Some v →
      Forall (λ c, c = NaN) v.
Proof.
  apply (drop_missing_value_columns_twice
           (mkConfig 1 "base.csv" "report.yaml") Sklearn.fit_transform
           (mkState [mkDF 2 [("Genotype", [Str "Control"; Str "Ts65Dn"]);
                             ("Treatment", [Str "Saline"; Str "Memantine"]);
                             ("Behavior", [Str "C/S"; Str "S/C"]);
                             ("class", [Str "c-CS-s"; Str "t-SC-m"])]] [] ∅)
           0 "first" "second"
           (mkDF 2 [("Genotype", [Str "Control"; Str "Ts65Dn"]);
                    ("Treatment", [Str "Saline"; Str "Memantine"]);
                    ("Behavior", [Str "C/S"; Str "S/C"]);
                    ("class", [Str "c-CS-s"; Str "t-SC-m"])])
           (Some 0) (Some 0)
           (drop_missing_value_columns
              (mkConfig 1 "base.csv" "report.yaml") Sklearn.fit_transform 0 "first"
              (mkState [mkDF 2 [("Genotype", [Str "Control"; Str "Ts65Dn"]);
                                ("Treatment", [Str "Saline"; Str "Memantine"]);
                                ("Behavior", [Str "C/S"; Str "S/C"]);
                                ("class", [Str "c-CS-s"; Str "t-SC-m"])]] [] ∅)).2).
  - reflexivity.
  - vm_compute. reflexivity.
  - vm_compute. reflexivity.
Defined.

Lemma drop_missing_value_columns_no_rows_witness :
  let D := mkDF 0 [("A", []); ("Genotype", []); ("Treatment", []);
                   ("Behavior", []); ("class", [])] in
  let s := mkState [D] [] ∅ in
  drop_missing_value_columns Example.config Sklearn.fit_transform 0 "dropped" s
  = (Ok (Some 0),
     mkState (heap s) (dict_set "dropped" (ColumnList []) (validation_error s))
             (files s)).
Proof.
  apply (drop_missing_value_columns_no_rows
           Example.config Sklearn.fit_transform
           (mkState [mkDF 0 [("A", []); ("Genotype", []); ("Treatment", []);
                             ("Behavior", []); ("class", [])]] [] ∅)
           0 "dropped"
           (mkDF 0 [("A", []); ("Genotype", []); ("Treatment", []);
                    ("Behavior", []); ("class", [])])).
  - reflexivity.
  - split; [compute_done|]. by repeat constructor.
  - reflexivity.
  - intros c Hc.
    repeat (apply elem_of_cons in Hc as [->|Hc]; [compute_done|]).
    by apply not_elem_of_nil in Hc.
  - reflexivity.
Defined.

Lemma is_required_columns_exists_outcomes_witness :
  let s := mkState [Example.train_frame] [] ∅ in
  let run := is_required_columns_exists None (Some 0) "missing_columns" s in
  heap run.2 = heap s ∧
  files run.2 = files s ∧
  (∀ k, k ≠ "missing_columns" →
     dict_get k (validation_error run.2) = dict_get k (validation_error s)) ∧
  ((∃ e, run.1 = Raise e) ↔ @None nat = None ∨ Some 0 = @None nat) ∧
  (∀ e, run.1 = Raise e →
     e = MiceException (AttributeError "columns") "is_required_columns_exists"
     ∧ run.2 = s) ∧
  (run.1 = Ok true → run.2 = s).
Proof.
  apply (is_required_columns_exists_outcomes None (Some 0) "missing_columns"
           (mkState [Example.train_frame] [] ∅)).
  intros l [H|H]; [discriminate H|]. injection H as <-. by eexists.
Defined.

(** Two frames with the same string column: the schema check passes and
    the test raises a type error. *)
Lemma data_drift_after_schema_check_witness :
  let B := mkDF 1 [("S", [Str "x"])] in
  let C := mkDF 1 [("S", [Str "x"])] in
  ∃ n base_data current_data cause,
    n ∈ column_names B ∧
    df_getitem B n = Ok (Series base_data) ∧
    df_getitem C n = Ok (Series current_data) ∧
    Example.ks_2samp base_data current_data = Raise cause ∧
    MiceException (TypeError "unsupported operand type") "data_drift"
    = MiceException cause "data_drift".
Proof.
  apply (data_drift_after_schema_check Example.ks_2samp
           (mkState [mkDF 1 [("S", [Str "x"])]; mkDF 1 [("S", [Str "x"])]] [] ∅)
           0 1 (mkDF 1 [("S", [Str "x"])]) (mkDF 1 [("S", [Str "x"])])
           "missing_columns" "data_drift"
           (mkState [mkDF 1 [("S", [Str "x"])]; mkDF 1 [("S", [Str "x"])]] [] ∅)
           (MiceException (TypeError "unsupported operand type") "data_drift")
           (mkState [mkDF 1 [("S", [Str "x"])]; mkDF 1 [("S", [Str "x"])]] [] ∅));
    try reflexivity; compute_done.
Defined.

(** The test goes through on the column [A] and raises on the string
    column [S]: the entry of [A] stays in the report. *)
Lemma data_drift_partial_report_witness :
  let B := mkDF 1 [("A", [Example.n 1]); ("S", [Str "x"])] in
  let s := mkState [B; B] [] ∅ in
  data_drift Example.ks_2samp (Some 0) (Some 1) "data_drift" s
  = (Raise (MiceException (TypeError "unsupported operand type") "data_drift"),
     mkState (heap s)
             (dict_set "data_drift"
                (DriftReport (drift_report_after Example.ks_2samp B B ["A"] []))
                (validation_error s))
             (files s)).
Proof.
  apply (data_drift_partial_report Example.ks_2samp
           (mkState [mkDF 1 [("A", [Example.n 1]); ("S", [Str "x"])];
                     mkDF 1 [("A", [Example.n 1]); ("S", [Str "x"])]] [] ∅)
           0 1 (mkDF 1 [("A", [Example.n 1]); ("S", [Str "x"])])
           (mkDF 1 [("A", [Example.n 1]); ("S", [Str "x"])])
           "data_drift" ["A"] "S" []
           (TypeError "unsupported operand type")).
  - reflexivity.
  - reflexivity.
  - reflexivity.
  - intros m ->%list_elem_of_singleton. by exists 1%float.
  - reflexivity.
Defined.

Lemma data_drift_report_order_witness :
  let B := mkDF 2 [("A", [Example.n 1; Example.n 2]);
                   ("B", [Example.n 3; Example.n 4])] in
  let C := mkDF 2 [("B", [Example.n 3; Example.n 5]);
                   ("A", [Example.n 1; Example.n 2])] in
  let s := mkState [B; C] [("data_drift", ColumnList []); ("other", ColumnList [])]
                   ∅ in
  ∃ entries,
    data_drift Example.ks_2samp (Some 0) (Some 1) "data_drift" s
    = (Ok (),
       mkState (heap s)
               (dict_set "data_drift" (DriftReport entries) (validation_error s))
               (files s)) ∧
    entries.*1 = column_names B.
Proof.
  apply (data_drift_report_order Example.ks_2samp
           (mkState [mkDF 2 [("A", [Example.n 1; Example.n 2]);
                             ("B", [Example.n 3; Example.n 4])];
                     mkDF 2 [("B", [Example.n 3; Example.n 5]);
                             ("A", [Example.n 1; Example.n 2])]]
                    [("data_drift", ColumnList []); ("other", ColumnList [])] ∅)
           0 1
           (mkDF 2 [("A", [Example.n 1; Example.n 2]);
                    ("B", [Example.n 3; Example.n 4])])
           (mkDF 2 [("B", [Example.n 3; Example.n 5]);
                    ("A", [Example.n 1; Example.n 2])])
           "data_drift").
  - reflexivity.
  - reflexivity.
  - compute_done.
  - discriminate.
  - intros n Hn.
    repeat (apply elem_of_cons in Hn as [->|Hn]; [by eexists|]).
    by apply not_elem_of_nil in Hn.
Defined.

Lemma data_drift_touches_only_its_entry_witness :
  let s := mkState [Example.train_frame] [("other", ColumnList [])] ∅ in
  let run := data_drift Example.ks_2samp (Some 0) None "data_drift" s in
  heap run.2 = heap s ∧
  files run.2 = files s ∧
  (∀ k, k ≠ "data_drift" →
     dict_get k (validation_error run.2) = dict_get k (validation_error s)) ∧
  (Some 0 = @None nat ∨ @None nat = None →
     run = (Raise (MiceException (AttributeError "columns") "data_drift"), s)).
Proof.
  apply (data_drift_touches_only_its_entry Example.ks_2samp (Some 0) None
           "data_drift"
           (mkState [Example.train_frame] [("other", ColumnList [])] ∅)).
  intros l [H|H]; [|discriminate H]. injection H as <-. by eexists.
Defined.

Lemma data_drift_nan_pvalue_witness :
  let ks := λ _ _ : list cell, Ok nan in
  let B := mkDF 1 [("A", [NaN])] in
  let s := mkState [B; B] [] ∅ in
  ∃ s' entries,
    data_drift ks (Some 0) (Some 1) "data_drift" s = (Ok (), s') ∧
    dict_get "data_drift" (validation_error s') = Some (DriftReport entries) ∧
    dict_get "A" entries = Some (mkDrift nan false).
Proof.
  apply (data_drift_nan_pvalue (λ _ _ : list cell, Ok nan)
           (mkState [mkDF 1 [("A", [NaN])]; mkDF 1 [("A", [NaN])]] [] ∅)
           0 1 (mkDF 1 [("A", [NaN])]) (mkDF 1 [("A", [NaN])]) "data_drift" "A" nan).
  - reflexivity.
  - reflexivity.
  - intros m ->%list_elem_of_singleton. by eexists.
  - compute_done.
  - reflexivity.
  - reflexivity.
Defined.

(** No base file on the disk. *)
Lemma initiate_data_validation_base_file_errors_witness :
  let s := mkState [] [("older", ColumnList [])] ∅ in
  ∃ s',
    initiate_data_validation Example.config Example.ingestion "class"
      Sklearn.fit_transform Example.ks_2samp (Example.parse_csv Example.table)
      Example.astype_float Example.yaml_dump (λ _, true) s
    = (Raise (MiceException (FileNotFoundError "base.csv")
                "initiate_data_validation"), s') ∧
    validation_error s' = validation_error s ∧
    files s' = files s.
Proof.
  apply (initiate_data_validation_base_file_errors
           Example.config Example.ingestion "class"
           Sklearn.fit_transform Example.ks_2samp (Example.parse_csv Example.table)
           Example.astype_float Example.yaml_dump (λ _, true)
           (mkState [] [("older", ColumnList [])] ∅)
           (FileNotFoundError "base.csv")).
  left. split; reflexivity.
Defined.

(** A base file with the identifier and a protein column only. *)
Lemma initiate_data_validation_wraps_twice_witness :
  let D := mkDF 1 [("MouseID", [Str "m0"]); ("A", [Example.n 1])] in
  let s := Example.start in
  ∃ cause s',
    initiate_data_validation Example.config Example.ingestion "class"
      Sklearn.fit_transform Example.ks_2samp (Example.parse_csv [("base", D)])
      Example.astype_float Example.yaml_dump (λ _, true) s
    = (Raise (MiceException
                (MiceException cause "drop_missing_value_columns")
                "initiate_data_validation"), s') ∧
    validation_error s' = validation_error s ∧
    files s' = files s ∧
    (NoDup (column_names D) →
     ∃ k, cause = KeyError k ∧ k ∈ required_columns ∧ k ∉ column_names D).
Proof.
  apply (initiate_data_validation_wraps_twice
           Example.config Example.ingestion "class"
           Sklearn.fit_transform Example.ks_2samp
           (Example.parse_csv
              [("base", mkDF 1 [("MouseID", [Str "m0"]); ("A", [Example.n 1])])])
           Example.astype_float Example.yaml_dump (λ _, true)
           Example.start "base"
           (mkDF 1 [("MouseID", [Str "m0"]); ("A", [Example.n 1])])).
  - reflexivity.
  - reflexivity.
  - compute_done.
  - exists "Genotype". split; [repeat constructor|compute_done].
Defined.

(** A base frame in which the label Genotype is carried by two columns and
    Treatment is absent: line 44 raises on the frame that [df['Genotype']]
    is, before line 45 can miss its column. *)
Example drop_missing_value_columns_duplicated_label :
  let D := mkDF 1 [("Genotype", [Str "Control"]); ("Genotype", [Str "Ts65Dn"])] in
  let s := mkState [D] [] ∅ in
  drop_missing_value_columns Example.config Sklearn.fit_transform 0 "dropped" s
  = (Raise (MiceException (AttributeError "map") "drop_missing_value_columns"), s).
Proof. reflexivity. Qed.

Lemma initiate_data_validation_report_keys_witness :
  let s := Example.start in
  let s' := (Example.run s).2 in
  ∃ B T U,
    heap s' !! (length (heap s) + 1) = Some B ∧
    heap s' !! (length (heap s) + 2) = Some T ∧
    heap s' !! (length (heap s) + 3) = Some U ∧
    (validation_error s').*1
    = (["missing_values_within_base_dataset";
        "missing_values_within_train_dataset";
        "missing_values_within_test_dataset"] ++
       if decide (Forall (λ n, n ∈ column_names T) (column_names B))
       then if decide (Forall (λ n, n ∈ column_names U) (column_names B))
            then ["data_drift_within_train_dataset";
                  "data_drift_within_test_dataset"]
            else ["missing_columns_within_test_dataset";
                  "data_drift_within_train_dataset"]
       else if decide (Forall (λ n, n ∈ column_names U) (column_names B))
            then ["missing_columns_within_train_dataset";
                  "data_drift_within_test_dataset"]
            else ["missing_columns_within_train_dataset";
                  "missing_columns_within_test_dataset"])%list.
Proof.
  apply (initiate_data_validation_report_keys
           Example.config Example.ingestion "class" Sklearn.fit_transform
           Example.ks_2samp (Example.parse_csv Example.table)
           Example.astype_float Example.yaml_dump (λ _, true)
           Example.start (mkArtifact "report.yaml")
           (Example.run Example.start).2).
  - reflexivity.
  - vm_compute. reflexivity.
Defined.

Lemma initiate_data_validation_touches_only_its_keys_witness :
  let s := mkState [] [("older", ColumnList ["A"])] Example.disk in
  dict_get "older" (validation_error (Example.run s).2)
  = dict_get "older" (validation_error s).
Proof.
  apply (initiate_data_validation_touches_only_its_keys
           Example.config Example.ingestion "class" Sklearn.fit_transform
           Example.ks_2samp (Example.parse_csv Example.table)
           Example.astype_float Example.yaml_dump (λ _, true)
           (mkState [] [("older", ColumnList ["A"])] Example.disk) "older").
  compute_done.
Defined.
